(** * U-Net (im2im/unet/model.py): shapes, errors and module state

    The repository wires pre-built PyTorch operators into an encoder/decoder.
    The embedding follows the source class by class.  A tensor is its
    [size] (a list of integers, as [torch.Size]) together with a symbolic
    description [data] of how its elements were computed: the numeric
    kernels belong to the tensor runtime, so element values are kept as
    the dataflow term that produced them.  Operators of the runtime are
    modelled by their documented shape rule and the exceptions they raise.
    A module is a record holding its sub-modules, parameters and buffers;
    [forward] threads the module through a state-and-exception monad, since
    [nn.BatchNorm2d] updates its buffers while the module is in training
    mode.  The range of the output values is a statement about single
    float32 elements: for it one element of [OutConv] is modelled over the
    IEEE floats of the standard library. *)

From Stdlib Require Import ZArith List String Bool Lia.
From Stdlib Require Import Reals Lra.
From Stdlib Require Import Floats.SpecFloat.
Import ListNotations.
Open Scope string_scope.
Open Scope Z_scope.

Set Implicit Arguments.

(** ** Python exceptions and the state-and-exception monad *)

Inductive exn : Type :=
| RuntimeError (msg : string)
| ValueError (msg : string)
| TypeError (msg : string)
| IndexError (msg : string)
| NotImplementedError (msg : string).

Inductive result (A : Type) : Type :=
| Ok (a : A)
| Err (e : exn).

Arguments Ok {A} a.
Arguments Err {A} e.

(** A computation on a mutable object of type [S]: it returns a value or
    raises, and in both cases leaves the object in some state (what was
    mutated before an exception stays mutated). *)
Definition M (S A : Type) : Type := S -> result A * S.

Definition ret {S A} (a : A) : M S A := fun s => (Ok a, s).

Definition raise {S A} (e : exn) : M S A := fun s => (Err e, s).

Definition bind {S A B} (c : M S A) (f : A -> M S B) : M S B :=
  fun s => match c s with
           | (Ok a, s') => f a s'
           | (Err e, s') => (Err e, s')
           end.

(** A pure operator of the runtime, used inside a module's [forward]. *)
Definition lift {S A} (r : result A) : M S A := fun s => (r, s).

(** Run the [forward] of the sub-module stored in a field of [s]. *)
Definition zoom {S T A} (get : S -> T) (set : T -> S -> S) (c : M T A) : M S A :=
  fun s => let (r, t') := c (get s) in (r, set t' s).

Declare Scope monad_scope.
Delimit Scope monad_scope with monad.
Notation "x <- c ;; k" := (bind c (fun x => k))
  (at level 100, c at next level, right associativity) : monad_scope.
Open Scope monad_scope.

(** Binding of pure results, for operators written outside a module. *)
Definition rbind {A B} (r : result A) (f : A -> result B) : result B :=
  match r with
  | Ok a => f a
  | Err e => Err e
  end.

(** ** Tensors *)

(** Operators of the runtime that occur in a dataflow term. *)
Inductive op : Type :=
| op_conv2d (padding : Z)
| op_conv_transpose2d (stride : Z)
| op_batch_norm (training : bool)
| op_running_mean
| op_running_var
| op_relu
| op_max_pool2d (kernel_size : Z)
| op_avg_pool2d (kernel_size : Z)
| op_upsample_bilinear (scale_factor : Z) (align_corners : bool)
| op_pad (pad : list Z) (value : Z)
| op_cat (dim : Z)
| op_tanh.

(** Element values, symbolically: a given tensor, the [k]-th tensor drawn
    from the global random generator, a constant fill, or an operator
    applied to its operands in order. *)
#[warnings="-register-all"]
Inductive expr : Type :=
| Leaf (name : string)
| Rand (k : N)
| Full (v : Z)
| App (f : op) (args : list expr).

Record Tensor : Type := mkTensor { size : list Z; data : expr }.

(** [x.size()[i]]: a [torch.Size] is a tuple, so a bad index raises. *)
Definition size_at (x : Tensor) (i : nat) : result Z :=
  match nth_error (size x) i with
  | Some d => Ok d
  | None => Err (IndexError "tuple index out of range")
  end.

Definition list_Z_eqb (a b : list Z) : bool :=
  if list_eq_dec Z.eq_dec a b then true else false.

(** ** Operators of the tensor runtime (torch, torch.nn.functional) *)

(** Sizes are positive in every statement below; the rules are the ones of
    the PyTorch documentation for stride 1 / the given stride, dilation 1. *)

(** [F.conv2d] with square kernel [k], stride 1, zero padding [p]; a 3-D
    input is an unbatched (C, H, W) image.  After the rank of the input,
    the runtime checks the weight, of shape (cout, cin, k, k): it must be
    at least 1 at dimension 0. *)
Definition conv2d (cin cout k p : Z) (weight : expr) (bias : option expr)
    (x : Tensor) : result Tensor :=
  let args := data x :: weight :: match bias with Some b => [b] | None => [] end in
  let out (lead : list Z) (c h w : Z) :=
    if cout <? 1 then
      Err (RuntimeError "conv2d: expected weight to be at least 1 at dimension 0")
    else if negb (c =? cin) then
      Err (RuntimeError "conv2d: input channels do not match weight")
    else if (h + 2 * p <? k) || (w + 2 * p <? k) then
      Err (RuntimeError "conv2d: kernel size can't be greater than actual input size")
    else Ok (mkTensor (lead ++ [cout; h + 2 * p - k + 1; w + 2 * p - k + 1])
                      (App (op_conv2d p) args)) in
  match size x with
  | [b; c; h; w] => out [b] c h w
  | [c; h; w] => out [] c h w
  | _ => Err (RuntimeError "conv2d: expected 3D (unbatched) or 4D (batched) input")
  end.

(** [F.conv_transpose2d] with square kernel [k], stride [s], no padding.
    The weight has shape (cin, cout, k, k); the runtime rejects an empty
    one. *)
Definition conv_transpose2d (cin cout k s : Z) (weight bias : expr)
    (x : Tensor) : result Tensor :=
  let out (lead : list Z) (c h w : Z) :=
    if (cin <? 1) || (cout <? 1) then
      Err (RuntimeError "conv_transpose2d: empty weight")
    else if negb (c =? cin) then
      Err (RuntimeError "conv_transpose2d: input channels do not match weight")
    else Ok (mkTensor (lead ++ [cout; (h - 1) * s + k; (w - 1) * s + k])
                      (App (op_conv_transpose2d s) [data x; weight; bias])) in
  match size x with
  | [b; c; h; w] => out [b] c h w
  | [c; h; w] => out [] c h w
  | _ => Err (RuntimeError
                "conv_transpose2d: expected 3D (unbatched) or 4D (batched) input")
  end.

(** Output length of a pooling window of size [k] moved by stride [k]. *)
Definition pool_out (k n : Z) : Z := (n - k) / k + 1.

Definition pool2d (f : op) (k : Z) (x : Tensor) : result Tensor :=
  let out (lead : list Z) (h w : Z) :=
    if (pool_out k h <=? 0) || (pool_out k w <=? 0) then
      Err (RuntimeError "pool2d: output size is too small")
    else Ok (mkTensor (lead ++ [pool_out k h; pool_out k w]) (App f [data x])) in
  match size x with
  | [b; c; h; w] => out [b; c] h w
  | [c; h; w] => out [c] h w
  | _ => Err (RuntimeError "pool2d: 3D or 4D (batch mode) tensor expected")
  end.

(** [nn.MaxPool2d(k)] and [nn.AvgPool2d(k)]: stride defaults to [k].  On
    an input of fewer than three dimensions the average pooling fails
    while indexing the sizes, with [IndexError]. *)
Definition max_pool2d (k : Z) : Tensor -> result Tensor := pool2d (op_max_pool2d k) k.
Definition avg_pool2d (k : Z) (x : Tensor) : result Tensor :=
  match size x with
  | [] | [_] | [_; _] => Err (IndexError "avg_pool2d: dimension out of range")
  | _ => pool2d (op_avg_pool2d k) k x
  end.

(** [nn.Upsample(scale_factor, mode='bilinear', align_corners=True)]. *)
Definition upsample_bilinear (scale_factor : Z) (align_corners : bool)
    (x : Tensor) : result Tensor :=
  match size x with
  | [b; c; h; w] =>
      if (h <=? 0) || (w <=? 0) then
        Err (RuntimeError "upsample: input and output sizes should be greater than 0")
      else Ok (mkTensor [b; c; h * scale_factor; w * scale_factor]
                        (App (op_upsample_bilinear scale_factor align_corners)
                             [data x]))
  | _ => Err (NotImplementedError "interpolate: bilinear mode needs 4D input")
  end.

(** [F.pad(x, pad)], whose mode defaults to a constant fill with 0:
    [pad] lists (before, after) pairs from the last dimension backwards; a
    negative amount crops. *)
Fixpoint pad_rev (rsz pad : list Z) : result (list Z) :=
  match pad with
  | [] => Ok rsz
  | l :: r :: pad' =>
      match rsz with
      | [] => Err (RuntimeError "pad: padding length too large for the input")
      | d :: rsz' =>
          if d + l + r <? 0 then
            Err (RuntimeError "pad: negative padding resulted in a negative output size")
          else rbind (pad_rev rsz' pad') (fun rest => Ok (d + l + r :: rest))
      end
  | [_] => Err (RuntimeError "pad: padding length must be divisible by 2")
  end.

Definition F_pad (x : Tensor) (pad : list Z) : result Tensor :=
  rbind (pad_rev (rev (size x)) pad)
        (fun rsz => Ok (mkTensor (rev rsz) (App (op_pad pad 0) [data x]))).

(** [torch.cat([a, b], dim=1)]: every dimension but the second must agree. *)
Definition cat_dim1 (a b : Tensor) : result Tensor :=
  match size a, size b with
  | n :: ca :: ra, n' :: cb :: rb =>
      if (n =? n') && list_Z_eqb ra rb then
        Ok (mkTensor (n :: ca + cb :: ra) (App (op_cat 1) [data a; data b]))
      else Err (RuntimeError "cat: sizes of tensors must match except in dimension 1")
  | _, _ => Err (IndexError "cat: dimension out of range")
  end.

(** Element-wise operators keep the size. *)
Definition relu (x : Tensor) : Tensor := mkTensor (size x) (App op_relu [data x]).
Definition tanh (x : Tensor) : Tensor := mkTensor (size x) (App op_tanh [data x]).

(** ** Python classes and [super] *)

(** The classes of model.py and the one class of the runtime they derive
    from; [bases] is the base list of each [class] statement. *)
Inductive pyclass : Type :=
| nn_Module
| cls_DoubleConv
| cls_Down
| cls_AvgDown
| cls_Up
| cls_OutConv
| cls_UNet
| cls_AvgPoolUNet.

Definition pyclass_eqb (a b : pyclass) : bool :=
  match a, b with
  | nn_Module, nn_Module | cls_DoubleConv, cls_DoubleConv | cls_Down, cls_Down
  | cls_AvgDown, cls_AvgDown | cls_Up, cls_Up | cls_OutConv, cls_OutConv
  | cls_UNet, cls_UNet | cls_AvgPoolUNet, cls_AvgPoolUNet => true
  | _, _ => false
  end.

Definition bases (c : pyclass) : list pyclass :=
  match c with
  | nn_Module => []
  | cls_DoubleConv | cls_Down | cls_AvgDown | cls_Up | cls_OutConv
  | cls_UNet | cls_AvgPoolUNet => [nn_Module]
  end.

(** [issubclass c T], following [bases] for at most [fuel] levels. *)
Fixpoint issubclass_upto (fuel : nat) (c T : pyclass) : bool :=
  pyclass_eqb c T ||
  match fuel with
  | O => false
  | S fuel' => existsb (fun b => issubclass_upto fuel' b T) (bases c)
  end.

Definition issubclass : pyclass -> pyclass -> bool := issubclass_upto 8.

(** Construction runs against the global random generator: the state is
    the number of parameter tensors drawn from it so far. *)
Definition ctor (A : Type) : Type := M N A.

Definition draw : ctor expr := fun k => (Ok (Rand k), N.succ k).

(** [super(T, self).__init__()] for a [self] of class [self_type]: Python
    checks that [self] is an instance of [T] before anything else; the
    initialiser of [nn.Module] that then runs creates no parameter. *)
Definition super_init (T self_type : pyclass) : ctor unit :=
  if issubclass self_type T then ret tt
  else raise (TypeError "super(type, obj): obj must be an instance or subtype of type").

(** ** Layers of the runtime that hold parameters *)

Module Conv2d.
Record t : Type := mk {
  in_channels : Z; out_channels : Z; kernel_size : Z; padding : Z;
  weight : expr; bias : option expr }.

(** [nn.Conv2d(in_channels, out_channels, kernel_size, padding, bias)]:
    allocating the weight fails on a negative size, before anything is
    drawn. *)
Definition init (in_channels out_channels kernel_size padding : Z)
    (has_bias : bool) : ctor t :=
  _ <- (if (in_channels <? 0) || (out_channels <? 0)
        then raise (RuntimeError "Trying to create tensor with negative dimension")
        else ret tt) ;;
  w <- draw ;;
  b <- (if has_bias then (b <- draw ;; ret (Some b)) else ret None) ;;
  ret (mk in_channels out_channels kernel_size padding w b).

Definition forward (input : Tensor) : M t Tensor :=
  fun self =>
    (conv2d (in_channels self) (out_channels self) (kernel_size self)
            (padding self) (weight self) (bias self) input, self).

Definition parameters (self : t) : list expr :=
  weight self :: match bias self with Some b => [b] | None => [] end.
End Conv2d.

Module ConvTranspose2d.
Record t : Type := mk {
  in_channels : Z; out_channels : Z; kernel_size : Z; stride : Z;
  weight : expr; bias : expr }.

(** [nn.ConvTranspose2d(in_channels, out_channels, kernel_size, stride)] *)
Definition init (in_channels out_channels kernel_size stride : Z) : ctor t :=
  _ <- (if (in_channels <? 0) || (out_channels <? 0)
        then raise (RuntimeError "Trying to create tensor with negative dimension")
        else ret tt) ;;
  w <- draw ;;
  b <- draw ;;
  ret (mk in_channels out_channels kernel_size stride w b).

Definition forward (input : Tensor) : M t Tensor :=
  fun self =>
    (conv_transpose2d (in_channels self) (out_channels self) (kernel_size self)
                      (stride self) (weight self) (bias self) input, self).

Definition parameters (self : t) : list expr := [weight self; bias self].
End ConvTranspose2d.

(** [num_batches_tracked] is a 64-bit integer tensor: [add_] wraps. *)
Definition wrap64 (z : Z) : Z := (z + 2 ^ 63) mod 2 ^ 64 - 2 ^ 63.

Module BatchNorm2d.
Record t : Type := mk {
  num_features : Z;
  training : bool;
  weight : expr; bias : expr;
  running_mean : expr; running_var : expr;
  num_batches_tracked : Z }.

(** [nn.BatchNorm2d(num_features)]: affine, tracking running statistics,
    momentum 0.1; a new module is in training mode. *)
Definition init (num_features : Z) : ctor t :=
  if num_features <? 0
  then raise (RuntimeError "Trying to create tensor with negative dimension")
  else ret (mk num_features true (Full 1) (Full 0) (Full 0) (Full 1) 0).

(** [nn.Module.train(mode)]; [eval()] is [train(False)]. *)
Definition train (mode : bool) (self : t) : t :=
  mk (num_features self) mode (weight self) (bias self)
     (running_mean self) (running_var self) (num_batches_tracked self).

(** [_BatchNorm.forward].  In order: [_check_input_dim] (a [ValueError]
    unless the input is 4-D); in training mode
    [self.num_batches_tracked.add_(1)]; then [F.batch_norm], which in
    training mode starts with [_verify_batch_size]: the product of all
    sizes but the channels must not be 1, or it raises [ValueError]
    ("Expected more than 1 value per channel when training").  The kernel
    then checks the channel count against the buffers and, in training
    mode, normalises with the statistics of the batch and updates
    [running_mean] and [running_var] in place; in evaluation mode it
    normalises with the running statistics and writes nothing. *)
Definition forward (input : Tensor) : M t Tensor :=
  fun self =>
    match size input with
    | [b; c; h; w] =>
        if training self then
          let self1 :=
            mk (num_features self) true (weight self) (bias self)
               (running_mean self) (running_var self)
               (wrap64 (num_batches_tracked self + 1)) in
          if b * h * w =? 1 then
            (Err (ValueError "Expected more than 1 value per channel when training"),
             self1)
          else if negb (c =? num_features self) then
            (Err (RuntimeError "batch_norm: running_mean should contain C elements"),
             self1)
          else
            (Ok (mkTensor (size input)
                   (App (op_batch_norm true) [data input; weight self; bias self])),
             mk (num_features self) true (weight self) (bias self)
                (App op_running_mean [running_mean self; data input])
                (App op_running_var [running_var self; data input])
                (wrap64 (num_batches_tracked self + 1)))
        else if negb (c =? num_features self) then
          (Err (RuntimeError "batch_norm: running_mean should contain C elements"),
           self)
        else
          (Ok (mkTensor (size input)
                 (App (op_batch_norm false)
                    [data input; running_mean self; running_var self;
                     weight self; bias self])),
           self)
    | _ => (Err (ValueError "expected 4D input"), self)
    end.

Definition parameters (self : t) : list expr := [weight self; bias self].

(** What [forward] reads and never writes: the configuration, the mode,
    the affine parameters and, in evaluation mode, the buffers. *)
Definition view (self : t)
    : Z * bool * expr * expr * option (expr * expr * Z) :=
  (num_features self, training self, weight self, bias self,
   if training self then None
   else Some (running_mean self, running_var self, num_batches_tracked self)).
End BatchNorm2d.

(** ** The layers of model.py *)

(** Python truth value of an optional integer argument: [None] and [0]
    are false. *)
Definition truthy (v : option Z) : bool :=
  match v with
  | None => false
  | Some z => negb (z =? 0)
  end.

Module DoubleConv.
(** [self.double_conv] is an [nn.Sequential] of six layers; entries 2 and
    5 are [nn.ReLU(inplace=True)] and hold nothing. *)
Record t : Type := mk {
  double_conv_0 : Conv2d.t;
  double_conv_1 : BatchNorm2d.t;
  double_conv_3 : Conv2d.t;
  double_conv_4 : BatchNorm2d.t }.

Definition set_0 (c : Conv2d.t) (self : t) : t :=
  mk c (double_conv_1 self) (double_conv_3 self) (double_conv_4 self).
Definition set_1 (b : BatchNorm2d.t) (self : t) : t :=
  mk (double_conv_0 self) b (double_conv_3 self) (double_conv_4 self).
Definition set_3 (c : Conv2d.t) (self : t) : t :=
  mk (double_conv_0 self) (double_conv_1 self) c (double_conv_4 self).
Definition set_4 (b : BatchNorm2d.t) (self : t) : t :=
  mk (double_conv_0 self) (double_conv_1 self) (double_conv_3 self) b.

Definition init (in_channels out_channels : Z) (mid_channels : option Z) : ctor t :=
  _ <- super_init cls_DoubleConv cls_DoubleConv ;;
  let mid_channels :=
    if negb (truthy mid_channels) then out_channels
    else match mid_channels with Some m => m | None => out_channels end in
  c0 <- Conv2d.init in_channels mid_channels 3 1 false ;;
  b1 <- BatchNorm2d.init mid_channels ;;
  c3 <- Conv2d.init mid_channels out_channels 3 1 false ;;
  b4 <- BatchNorm2d.init out_channels ;;
  ret (mk c0 b1 c3 b4).

Definition forward (x : Tensor) : M t Tensor :=
  x <- zoom double_conv_0 set_0 (Conv2d.forward x) ;;
  x <- zoom double_conv_1 set_1 (BatchNorm2d.forward x) ;;
  x <- ret (relu x) ;;
  x <- zoom double_conv_3 set_3 (Conv2d.forward x) ;;
  x <- zoom double_conv_4 set_4 (BatchNorm2d.forward x) ;;
  ret (relu x).

Definition train (mode : bool) (self : t) : t :=
  mk (double_conv_0 self) (BatchNorm2d.train mode (double_conv_1 self))
     (double_conv_3 self) (BatchNorm2d.train mode (double_conv_4 self)).

Definition parameters (self : t) : list expr :=
  Conv2d.parameters (double_conv_0 self) ++ BatchNorm2d.parameters (double_conv_1 self)
  ++ Conv2d.parameters (double_conv_3 self) ++ BatchNorm2d.parameters (double_conv_4 self).

Definition view (self : t) :=
  (double_conv_0 self, BatchNorm2d.view (double_conv_1 self),
   double_conv_3 self, BatchNorm2d.view (double_conv_4 self)).

(** Some normalisation of the block is in training mode. *)
Definition training (self : t) : bool :=
  BatchNorm2d.training (double_conv_1 self) || BatchNorm2d.training (double_conv_4 self).
End DoubleConv.

Module Down.
(** [self.maxpool_conv = nn.Sequential(nn.MaxPool2d(2), DoubleConv(...))] *)
Record t : Type := mk { maxpool_conv_1 : DoubleConv.t }.

Definition set_1 (d : DoubleConv.t) (self : t) : t := mk d.

Definition init (in_channels out_channels : Z) : ctor t :=
  _ <- super_init cls_Down cls_Down ;;
  d <- DoubleConv.init in_channels out_channels None ;;
  ret (mk d).

Definition forward (x : Tensor) : M t Tensor :=
  x <- lift (max_pool2d 2 x) ;;
  zoom maxpool_conv_1 set_1 (DoubleConv.forward x).

Definition train (mode : bool) (self : t) : t :=
  mk (DoubleConv.train mode (maxpool_conv_1 self)).
Definition parameters (self : t) : list expr :=
  DoubleConv.parameters (maxpool_conv_1 self).
Definition view (self : t) := DoubleConv.view (maxpool_conv_1 self).
End Down.

Module AvgDown.
(** [self.avgpool_conv = nn.Sequential(nn.AvgPool2d(2), DoubleConv(...))] *)
Record t : Type := mk { avgpool_conv_1 : DoubleConv.t }.

Definition set_1 (d : DoubleConv.t) (self : t) : t := mk d.

Definition init (in_channels out_channels : Z) : ctor t :=
  _ <- super_init cls_AvgDown cls_AvgDown ;;
  d <- DoubleConv.init in_channels out_channels None ;;
  ret (mk d).

Definition forward (x : Tensor) : M t Tensor :=
  x <- lift (avg_pool2d 2 x) ;;
  zoom avgpool_conv_1 set_1 (DoubleConv.forward x).

Definition train (mode : bool) (self : t) : t :=
  mk (DoubleConv.train mode (avgpool_conv_1 self)).
Definition parameters (self : t) : list expr :=
  DoubleConv.parameters (avgpool_conv_1 self).
Definition view (self : t) := DoubleConv.view (avgpool_conv_1 self).
End AvgDown.

Module Up.
(** [self.up] is one of two layers, chosen by [bilinear]. *)
Inductive up_layer : Type :=
| Upsample (scale_factor : Z) (align_corners : bool)
| ConvTranspose (c : ConvTranspose2d.t).

Record t : Type := mk { up : up_layer; conv : DoubleConv.t }.

Definition set_up (u : up_layer) (self : t) : t := mk u (conv self).
Definition set_conv (d : DoubleConv.t) (self : t) : t := mk (up self) d.

Definition init (in_channels out_channels : Z) (bilinear : bool) : ctor t :=
  _ <- super_init cls_Up cls_Up ;;
  if bilinear then
    d <- DoubleConv.init in_channels out_channels (Some (in_channels / 2)) ;;
    ret (mk (Upsample 2 true) d)
  else
    u <- ConvTranspose2d.init in_channels (in_channels / 2) 2 2 ;;
    d <- DoubleConv.init in_channels out_channels None ;;
    ret (mk (ConvTranspose u) d).

Definition up_forward (x : Tensor) : M up_layer Tensor :=
  fun u =>
    match u with
    | Upsample s ac => (upsample_bilinear s ac x, u)
    | ConvTranspose c =>
        let (r, c') := ConvTranspose2d.forward x c in (r, ConvTranspose c')
    end.

Definition forward (x1 x2 : Tensor) : M t Tensor :=
  x1 <- zoom up set_up (up_forward x1) ;;
  h2 <- lift (size_at x2 2) ;;
  h1 <- lift (size_at x1 2) ;;
  let diffY := h2 - h1 in
  w2 <- lift (size_at x2 3) ;;
  w1 <- lift (size_at x1 3) ;;
  let diffX := w2 - w1 in
  x1 <- lift (F_pad x1 [diffX / 2; diffX - diffX / 2;
                        diffY / 2; diffY - diffY / 2]) ;;
  x <- lift (cat_dim1 x2 x1) ;;
  zoom conv set_conv (DoubleConv.forward x).

Definition train (mode : bool) (self : t) : t :=
  mk (up self) (DoubleConv.train mode (conv self)).
Definition parameters (self : t) : list expr :=
  match up self with
  | Upsample _ _ => []
  | ConvTranspose c => ConvTranspose2d.parameters c
  end ++ DoubleConv.parameters (conv self).
Definition view (self : t) := (up self, DoubleConv.view (conv self)).
End Up.

Module OutConv.
(** [self.out_conv = nn.Sequential(nn.Conv2d(..., kernel_size=1), nn.Tanh())] *)
Record t : Type := mk { out_conv_0 : Conv2d.t }.

Definition set_0 (c : Conv2d.t) (self : t) : t := mk c.

Definition init (in_channels out_channels : Z) : ctor t :=
  _ <- super_init cls_OutConv cls_OutConv ;;
  c <- Conv2d.init in_channels out_channels 1 0 true ;;
  ret (mk c).

Definition forward (x : Tensor) : M t Tensor :=
  x <- zoom out_conv_0 set_0 (Conv2d.forward x) ;;
  ret (tanh x).

Definition parameters (self : t) : list expr := Conv2d.parameters (out_conv_0 self).
Definition view (self : t) := out_conv_0 self.
End OutConv.

Module UNet.
Record t : Type := mk {
  n_channels : Z; n_classes : Z; bilinear : bool;
  inc : DoubleConv.t;
  down1 : Down.t; down2 : Down.t; down3 : Down.t; down4 : Down.t;
  up1 : Up.t; up2 : Up.t; up3 : Up.t; up4 : Up.t;
  outc : OutConv.t }.

Definition set_inc (v : DoubleConv.t) (s : t) : t :=
  mk (n_channels s) (n_classes s) (bilinear s) v (down1 s) (down2 s) (down3 s)
     (down4 s) (up1 s) (up2 s) (up3 s) (up4 s) (outc s).
Definition set_down1 (v : Down.t) (s : t) : t :=
  mk (n_channels s) (n_classes s) (bilinear s) (inc s) v (down2 s) (down3 s)
     (down4 s) (up1 s) (up2 s) (up3 s) (up4 s) (outc s).
Definition set_down2 (v : Down.t) (s : t) : t :=
  mk (n_channels s) (n_classes s) (bilinear s) (inc s) (down1 s) v (down3 s)
     (down4 s) (up1 s) (up2 s) (up3 s) (up4 s) (outc s).
Definition set_down3 (v : Down.t) (s : t) : t :=
  mk (n_channels s) (n_classes s) (bilinear s) (inc s) (down1 s) (down2 s) v
     (down4 s) (up1 s) (up2 s) (up3 s) (up4 s) (outc s).
Definition set_down4 (v : Down.t) (s : t) : t :=
  mk (n_channels s) (n_classes s) (bilinear s) (inc s) (down1 s) (down2 s)
     (down3 s) v (up1 s) (up2 s) (up3 s) (up4 s) (outc s).
Definition set_up1 (v : Up.t) (s : t) : t :=
  mk (n_channels s) (n_classes s) (bilinear s) (inc s) (down1 s) (down2 s)
     (down3 s) (down4 s) v (up2 s) (up3 s) (up4 s) (outc s).
Definition set_up2 (v : Up.t) (s : t) : t :=
  mk (n_channels s) (n_classes s) (bilinear s) (inc s) (down1 s) (down2 s)
     (down3 s) (down4 s) (up1 s) v (up3 s) (up4 s) (outc s).
Definition set_up3 (v : Up.t) (s : t) : t :=
  mk (n_channels s) (n_classes s) (bilinear s) (inc s) (down1 s) (down2 s)
     (down3 s) (down4 s) (up1 s) (up2 s) v (up4 s) (outc s).
Definition set_up4 (v : Up.t) (s : t) : t :=
  mk (n_channels s) (n_classes s) (bilinear s) (inc s) (down1 s) (down2 s)
     (down3 s) (down4 s) (up1 s) (up2 s) (up3 s) v (outc s).
Definition set_outc (v : OutConv.t) (s : t) : t :=
  mk (n_channels s) (n_classes s) (bilinear s) (inc s) (down1 s) (down2 s)
     (down3 s) (down4 s) (up1 s) (up2 s) (up3 s) (up4 s) v.

Definition init (n_channels n_classes : Z) (bilinear : bool) : ctor t :=
  _ <- super_init cls_UNet cls_UNet ;;
  inc <- DoubleConv.init n_channels 64 None ;;
  down1 <- Down.init 64 128 ;;
  down2 <- Down.init 128 256 ;;
  down3 <- Down.init 256 512 ;;
  let factor := if bilinear then 2 else 1 in
  down4 <- Down.init 512 (1024 / factor) ;;
  up1 <- Up.init 1024 (512 / factor) bilinear ;;
  up2 <- Up.init 512 (256 / factor) bilinear ;;
  up3 <- Up.init 256 (128 / factor) bilinear ;;
  up4 <- Up.init 128 64 bilinear ;;
  outc <- OutConv.init 64 n_classes ;;
  ret (mk n_channels n_classes bilinear inc down1 down2 down3 down4
          up1 up2 up3 up4 outc).

Definition forward (x : Tensor) : M t Tensor :=
  x1 <- zoom inc set_inc (DoubleConv.forward x) ;;
  x2 <- zoom down1 set_down1 (Down.forward x1) ;;
  x3 <- zoom down2 set_down2 (Down.forward x2) ;;
  x4 <- zoom down3 set_down3 (Down.forward x3) ;;
  x5 <- zoom down4 set_down4 (Down.forward x4) ;;
  x <- zoom up1 set_up1 (Up.forward x5 x4) ;;
  x <- zoom up2 set_up2 (Up.forward x x3) ;;
  x <- zoom up3 set_up3 (Up.forward x x2) ;;
  x <- zoom up4 set_up4 (Up.forward x x1) ;;
  logits <- zoom outc set_outc (OutConv.forward x) ;;
  ret logits.

(** [net.train(mode)] reaches every sub-module; [net.eval()] is
    [net.train(False)]. *)
Definition train (mode : bool) (s : t) : t :=
  mk (n_channels s) (n_classes s) (bilinear s)
     (DoubleConv.train mode (inc s))
     (Down.train mode (down1 s)) (Down.train mode (down2 s))
     (Down.train mode (down3 s)) (Down.train mode (down4 s))
     (Up.train mode (up1 s)) (Up.train mode (up2 s))
     (Up.train mode (up3 s)) (Up.train mode (up4 s)) (outc s).

(** [net.parameters()]: the learnable tensors, in registration order. *)
Definition parameters (s : t) : list expr :=
  DoubleConv.parameters (inc s)
  ++ Down.parameters (down1 s) ++ Down.parameters (down2 s)
  ++ Down.parameters (down3 s) ++ Down.parameters (down4 s)
  ++ Up.parameters (up1 s) ++ Up.parameters (up2 s)
  ++ Up.parameters (up3 s) ++ Up.parameters (up4 s)
  ++ OutConv.parameters (outc s).

Definition view (s : t) :=
  (n_channels s, n_classes s, bilinear s, DoubleConv.view (inc s),
   (Down.view (down1 s), Down.view (down2 s), Down.view (down3 s),
    Down.view (down4 s)),
   (Up.view (up1 s), Up.view (up2 s), Up.view (up3 s), Up.view (up4 s)),
   OutConv.view (outc s)).

(** Some normalisation layer of the model is in training mode. *)
Definition training (s : t) : bool :=
  DoubleConv.training (inc s)
  || DoubleConv.training (Down.maxpool_conv_1 (down1 s))
  || DoubleConv.training (Down.maxpool_conv_1 (down2 s))
  || DoubleConv.training (Down.maxpool_conv_1 (down3 s))
  || DoubleConv.training (Down.maxpool_conv_1 (down4 s))
  || DoubleConv.training (Up.conv (up1 s))
  || DoubleConv.training (Up.conv (up2 s))
  || DoubleConv.training (Up.conv (up3 s))
  || DoubleConv.training (Up.conv (up4 s)).
End UNet.

Module AvgPoolUNet.
Record t : Type := mk {
  n_channels : Z; n_classes : Z; bilinear : bool;
  inc : DoubleConv.t;
  down1 : AvgDown.t; down2 : AvgDown.t; down3 : AvgDown.t; down4 : AvgDown.t;
  up1 : Up.t; up2 : Up.t; up3 : Up.t; up4 : Up.t;
  outc : OutConv.t }.

Definition set_inc (v : DoubleConv.t) (s : t) : t :=
  mk (n_channels s) (n_classes s) (bilinear s) v (down1 s) (down2 s) (down3 s)
     (down4 s) (up1 s) (up2 s) (up3 s) (up4 s) (outc s).
Definition set_down1 (v : AvgDown.t) (s : t) : t :=
  mk (n_channels s) (n_classes s) (bilinear s) (inc s) v (down2 s) (down3 s)
     (down4 s) (up1 s) (up2 s) (up3 s) (up4 s) (outc s).
Definition set_down2 (v : AvgDown.t) (s : t) : t :=
  mk (n_channels s) (n_classes s) (bilinear s) (inc s) (down1 s) v (down3 s)
     (down4 s) (up1 s) (up2 s) (up3 s) (up4 s) (outc s).
Definition set_down3 (v : AvgDown.t) (s : t) : t :=
  mk (n_channels s) (n_classes s) (bilinear s) (inc s) (down1 s) (down2 s) v
     (down4 s) (up1 s) (up2 s) (up3 s) (up4 s) (outc s).
Definition set_down4 (v : AvgDown.t) (s : t) : t :=
  mk (n_channels s) (n_classes s) (bilinear s) (inc s) (down1 s) (down2 s)
     (down3 s) v (up1 s) (up2 s) (up3 s) (up4 s) (outc s).
Definition set_up1 (v : Up.t) (s : t) : t :=
  mk (n_channels s) (n_classes s) (bilinear s) (inc s) (down1 s) (down2 s)
     (down3 s) (down4 s) v (up2 s) (up3 s) (up4 s) (outc s).
Definition set_up2 (v : Up.t) (s : t) : t :=
  mk (n_channels s) (n_classes s) (bilinear s) (inc s) (down1 s) (down2 s)
     (down3 s) (down4 s) (up1 s) v (up3 s) (up4 s) (outc s).
Definition set_up3 (v : Up.t) (s : t) : t :=
  mk (n_channels s) (n_classes s) (bilinear s) (inc s) (down1 s) (down2 s)
     (down3 s) (down4 s) (up1 s) (up2 s) v (up4 s) (outc s).
Definition set_up4 (v : Up.t) (s : t) : t :=
  mk (n_channels s) (n_classes s) (bilinear s) (inc s) (down1 s) (down2 s)
     (down3 s) (down4 s) (up1 s) (up2 s) (up3 s) v (outc s).
Definition set_outc (v : OutConv.t) (s : t) : t :=
  mk (n_channels s) (n_classes s) (bilinear s) (inc s) (down1 s) (down2 s)
     (down3 s) (down4 s) (up1 s) (up2 s) (up3 s) (up4 s) v.

(** The statements of [__init__] after its first line. *)
Definition init_layers (n_channels n_classes : Z) (bilinear : bool) : ctor t :=
  inc <- DoubleConv.init n_channels 64 None ;;
  down1 <- AvgDown.init 64 128 ;;
  down2 <- AvgDown.init 128 256 ;;
  down3 <- AvgDown.init 256 512 ;;
  let factor := if bilinear then 2 else 1 in
  down4 <- AvgDown.init 512 (1024 / factor) ;;
  up1 <- Up.init 1024 (512 / factor) bilinear ;;
  up2 <- Up.init 512 (256 / factor) bilinear ;;
  up3 <- Up.init 256 (128 / factor) bilinear ;;
  up4 <- Up.init 128 64 bilinear ;;
  outc <- OutConv.init 64 n_classes ;;
  ret (mk n_channels n_classes bilinear inc down1 down2 down3 down4
          up1 up2 up3 up4 outc).

(** The class derives from [nn.Module], and its initialiser starts with
    [super(UNet, self).__init__()]. *)
Definition init (n_channels n_classes : Z) (bilinear : bool) : ctor t :=
  _ <- super_init cls_UNet cls_AvgPoolUNet ;;
  init_layers n_channels n_classes bilinear.

Definition forward (x : Tensor) : M t Tensor :=
  x1 <- zoom inc set_inc (DoubleConv.forward x) ;;
  x2 <- zoom down1 set_down1 (AvgDown.forward x1) ;;
  x3 <- zoom down2 set_down2 (AvgDown.forward x2) ;;
  x4 <- zoom down3 set_down3 (AvgDown.forward x3) ;;
  x5 <- zoom down4 set_down4 (AvgDown.forward x4) ;;
  x <- zoom up1 set_up1 (Up.forward x5 x4) ;;
  x <- zoom up2 set_up2 (Up.forward x x3) ;;
  x <- zoom up3 set_up3 (Up.forward x x2) ;;
  x <- zoom up4 set_up4 (Up.forward x x1) ;;
  logits <- zoom outc set_outc (OutConv.forward x) ;;
  ret logits.
End AvgPoolUNet.

(** The [__main__] block: build an [AvgPoolUNet], draw a random image and
    run one forward pass; the value is what [test_out] is bound to. *)
Definition main : ctor Tensor :=
  net <- AvgPoolUNet.init 1 1 false ;;
  img <- draw ;;
  let test_img := mkTensor [1; 1; 100; 100] img in
  lift (fst (AvgPoolUNet.forward test_img net)).

(** ** Configurations *)

(** The channel configuration a layer object carries, whatever values its
    parameters and buffers currently hold. *)
Definition Conv2d_cfg (c : Conv2d.t) : Z * Z * Z * Z :=
  (Conv2d.in_channels c, Conv2d.out_channels c, Conv2d.kernel_size c, Conv2d.padding c).

Definition DoubleConv_has (cin cmid cout : Z) (d : DoubleConv.t) : Prop :=
  Conv2d_cfg (DoubleConv.double_conv_0 d) = (cin, cmid, 3, 1)
  /\ BatchNorm2d.num_features (DoubleConv.double_conv_1 d) = cmid
  /\ Conv2d_cfg (DoubleConv.double_conv_3 d) = (cmid, cout, 3, 1)
  /\ BatchNorm2d.num_features (DoubleConv.double_conv_4 d) = cout.

Definition Down_has (cin cout : Z) (d : Down.t) : Prop :=
  DoubleConv_has cin cout cout (Down.maxpool_conv_1 d).

Definition AvgDown_has (cin cout : Z) (d : AvgDown.t) : Prop :=
  DoubleConv_has cin cout cout (AvgDown.avgpool_conv_1 d).

Definition up_layer_has (cin : Z) (bilinear : bool) (u : Up.up_layer) : Prop :=
  match u with
  | Up.Upsample s ac => bilinear = true /\ s = 2 /\ ac = true
  | Up.ConvTranspose c =>
      bilinear = false
      /\ ConvTranspose2d.in_channels c = cin
      /\ ConvTranspose2d.out_channels c = cin / 2
      /\ ConvTranspose2d.kernel_size c = 2
      /\ ConvTranspose2d.stride c = 2
  end.

(** Channels that leave [self.up]: interpolation keeps them, the
    transposed convolution halves the configured input width. *)
Definition up_channels (cin c1 : Z) (bilinear : bool) : Z :=
  if bilinear then c1 else cin / 2.

(** Channel width of the middle of [Up]'s [DoubleConv]. *)
Definition Up_mid (cin cout : Z) (bilinear : bool) : Z :=
  if bilinear then (if cin / 2 =? 0 then cout else cin / 2) else cout.

Definition Up_has (cin cout : Z) (bilinear : bool) (u : Up.t) : Prop :=
  up_layer_has cin bilinear (Up.up u)
  /\ DoubleConv_has cin (Up_mid cin cout bilinear) cout (Up.conv u).

Definition OutConv_has (cin cout : Z) (o : OutConv.t) : Prop :=
  Conv2d_cfg (OutConv.out_conv_0 o) = (cin, cout, 1, 0).

(** A [UNet] object as [UNet(n_channels, n_classes, bilinear)] lays it out. *)
Definition UNet_has (n_channels n_classes : Z) (bilinear : bool) (s : UNet.t) : Prop :=
  let factor := if bilinear then 2 else 1 in
  DoubleConv_has n_channels 64 64 (UNet.inc s)
  /\ Down_has 64 128 (UNet.down1 s)
  /\ Down_has 128 256 (UNet.down2 s)
  /\ Down_has 256 512 (UNet.down3 s)
  /\ Down_has 512 (1024 / factor) (UNet.down4 s)
  /\ Up_has 1024 (512 / factor) bilinear (UNet.up1 s)
  /\ Up_has 512 (256 / factor) bilinear (UNet.up2 s)
  /\ Up_has 256 (128 / factor) bilinear (UNet.up3 s)
  /\ Up_has 128 64 bilinear (UNet.up4 s)
  /\ OutConv_has 64 n_classes (UNet.outc s).

(** The same layout with [AvgDown] stages. *)
Definition AvgPoolUNet_has (n_channels n_classes : Z) (bilinear : bool)
    (s : AvgPoolUNet.t) : Prop :=
  let factor := if bilinear then 2 else 1 in
  DoubleConv_has n_channels 64 64 (AvgPoolUNet.inc s)
  /\ AvgDown_has 64 128 (AvgPoolUNet.down1 s)
  /\ AvgDown_has 128 256 (AvgPoolUNet.down2 s)
  /\ AvgDown_has 256 512 (AvgPoolUNet.down3 s)
  /\ AvgDown_has 512 (1024 / factor) (AvgPoolUNet.down4 s)
  /\ Up_has 1024 (512 / factor) bilinear (AvgPoolUNet.up1 s)
  /\ Up_has 512 (256 / factor) bilinear (AvgPoolUNet.up2 s)
  /\ Up_has 256 (128 / factor) bilinear (AvgPoolUNet.up3 s)
  /\ Up_has 128 64 bilinear (AvgPoolUNet.up4 s)
  /\ OutConv_has 64 n_classes (AvgPoolUNet.outc s).

(** The bottleneck (the [DoubleConv] of [down4]) normalises in training
    mode. *)
Definition UNet_bottleneck_training (s : UNet.t) : bool :=
  DoubleConv.training (Down.maxpool_conv_1 (UNet.down4 s)).

(** Channel width of the feature map a block produces: the width of its
    last normalisation (for [OutConv], of its convolution). *)
Definition DoubleConv_width (d : DoubleConv.t) : Z :=
  BatchNorm2d.num_features (DoubleConv.double_conv_4 d).
Definition Down_width (d : Down.t) : Z := DoubleConv_width (Down.maxpool_conv_1 d).
Definition Up_width (u : Up.t) : Z := DoubleConv_width (Up.conv u).
Definition OutConv_width (o : OutConv.t) : Z := Conv2d.out_channels (OutConv.out_conv_0 o).

(** A tensor with at least one element: every size is positive.  The
    shape rules above are the runtime's for such tensors. *)
Definition nonempty (x : Tensor) : Prop := Forall (fun n => 1 <= n) (size x).

(** The batch counter of a normalisation after one more forward pass: one
    more in training mode, the same in evaluation mode. *)
Definition BatchNorm2d_bump (bn : BatchNorm2d.t) : Z :=
  if BatchNorm2d.training bn
  then wrap64 (BatchNorm2d.num_batches_tracked bn + 1)
  else BatchNorm2d.num_batches_tracked bn.

Definition DoubleConv_counters (d : DoubleConv.t) : list Z :=
  [BatchNorm2d.num_batches_tracked (DoubleConv.double_conv_1 d);
   BatchNorm2d.num_batches_tracked (DoubleConv.double_conv_4 d)].

Definition DoubleConv_bumped (d : DoubleConv.t) : list Z :=
  [BatchNorm2d_bump (DoubleConv.double_conv_1 d);
   BatchNorm2d_bump (DoubleConv.double_conv_4 d)].

(** The nine [DoubleConv] blocks of a [UNet], in the order [forward]
    runs them. *)
Definition UNet_blocks (s : UNet.t) : list DoubleConv.t :=
  [UNet.inc s;
   Down.maxpool_conv_1 (UNet.down1 s); Down.maxpool_conv_1 (UNet.down2 s);
   Down.maxpool_conv_1 (UNet.down3 s); Down.maxpool_conv_1 (UNet.down4 s);
   Up.conv (UNet.up1 s); Up.conv (UNet.up2 s);
   Up.conv (UNet.up3 s); Up.conv (UNet.up4 s)].

Definition UNet_counters (s : UNet.t) : list Z :=
  flat_map DoubleConv_counters (UNet_blocks s).

Definition UNet_bumped (s : UNet.t) : list Z :=
  flat_map DoubleConv_bumped (UNet_blocks s).

(** The two normalisation layers of a block and the eighteen of a
    [UNet], in the order [forward] runs them. *)
Definition DoubleConv_norms (d : DoubleConv.t) : list BatchNorm2d.t :=
  [DoubleConv.double_conv_1 d; DoubleConv.double_conv_4 d].

Definition UNet_norms (s : UNet.t) : list BatchNorm2d.t :=
  flat_map DoubleConv_norms (UNet_blocks s).

(** What one call of [BatchNorm2d.forward] that returns leaves of the
    layer [old]: in training mode the running statistics are replaced by
    their update with the batch [input] and the batch counter has moved;
    in evaluation mode the layer is as it was. *)
Definition BatchNorm2d_updated (old new : BatchNorm2d.t) : Prop :=
  if BatchNorm2d.training old then
    (exists input,
       new = BatchNorm2d.mk (BatchNorm2d.num_features old) true
               (BatchNorm2d.weight old) (BatchNorm2d.bias old)
               (App op_running_mean [BatchNorm2d.running_mean old; input])
               (App op_running_var [BatchNorm2d.running_var old; input])
               (wrap64 (BatchNorm2d.num_batches_tracked old + 1)))
    /\ BatchNorm2d.num_batches_tracked new <> BatchNorm2d.num_batches_tracked old
  else new = old.

(** The stages of [UNet.forward] as a pipeline of outcomes: each stage
    runs on its own layer as the model holds it before the call, on the
    tensors the earlier stages returned, and the first exception is the
    outcome of the whole. *)
Definition UNet_stages (s : UNet.t) (x : Tensor) : result Tensor :=
  rbind (fst (DoubleConv.forward x (UNet.inc s))) (fun x1 =>
  rbind (fst (Down.forward x1 (UNet.down1 s))) (fun x2 =>
  rbind (fst (Down.forward x2 (UNet.down2 s))) (fun x3 =>
  rbind (fst (Down.forward x3 (UNet.down3 s))) (fun x4 =>
  rbind (fst (Down.forward x4 (UNet.down4 s))) (fun x5 =>
  rbind (fst (Up.forward x5 x4 (UNet.up1 s))) (fun y1 =>
  rbind (fst (Up.forward y1 x3 (UNet.up2 s))) (fun y2 =>
  rbind (fst (Up.forward y2 x2 (UNet.up3 s))) (fun y3 =>
  rbind (fst (Up.forward y3 x1 (UNet.up4 s))) (fun y4 =>
  fst (OutConv.forward y4 (UNet.outc s))))))))))).

(** ** Element values of [OutConv] in float32 *)

(** The parameters of [nn.Conv2d] are float32 tensors (the default
    dtype), and so is every input the convolution accepts: binary32 has
    24 bits of precision and its infinities have exponent 128. *)
Module Float32.
Definition prec : Z := 24.
Definition emax : Z := 128.
Definition valid (x : spec_float) : bool := valid_binary prec emax x.
Definition add : spec_float -> spec_float -> spec_float := SFadd prec emax.
Definition mul : spec_float -> spec_float -> spec_float := SFmul prec emax.
Definition one : spec_float := SFone prec emax.

Definition is_finite (x : spec_float) : bool :=
  match x with
  | S754_zero _ | S754_finite _ _ _ => true
  | S754_infinity _ | S754_nan => false
  end.

(** The real number a finite float stands for. *)
Definition to_R (x : spec_float) : R :=
  match x with
  | S754_finite s m e =>
      let v := (IZR (Zpos m) * powerRZ 2 e)%R in if s then (- v)%R else v
  | _ => 0%R
  end.
End Float32.

(** [y] is a float32 next to the real number [r]: it is finite and no
    float32 lies strictly between [r] and [y], so [y] is [r] rounded down
    or rounded up. *)
Definition rounds_to (r : R) (y : spec_float) : Prop :=
  Float32.valid y = true /\ Float32.is_finite y = true
  /\ forall z, Float32.valid z = true -> Float32.is_finite z = true ->
       ~ (r <= Float32.to_R z < Float32.to_R y)%R
       /\ ~ (Float32.to_R y < Float32.to_R z <= r)%R.

(** [torch.tanh] on one float32 element [z], as a relation to its result:
    a NaN stays a NaN, the infinities go to 1 and -1, a zero keeps its
    sign, and on any other argument the kernel returns a float32 next to
    the hyperbolic tangent of [z]. *)
Definition tanh_f32 (z y : spec_float) : Prop :=
  match z with
  | S754_nan => y = S754_nan
  | S754_infinity s => y = (if s then SFopp Float32.one else Float32.one)
  | S754_zero s => y = S754_zero s
  | S754_finite _ _ _ => rounds_to (Rtrigo_def.tanh (Float32.to_R z)) y
  end.

(** One element of the output of [nn.Conv2d(in_channels, out_channels,
    kernel_size=1)], before the [nn.Tanh]: the weights of the output
    channel times the input channels of the pixel, accumulated in channel
    order, plus the bias of the output channel. *)
Definition conv1x1_element (weight x : list spec_float) (bias : spec_float)
    : spec_float :=
  Float32.add
    (fold_left (fun acc wx => Float32.add acc (Float32.mul (fst wx) (snd wx)))
               (combine weight x) (S754_zero false))
    bias.

(** [y] is an element of the tensor [OutConv.forward] returns, at the
    pixel whose input channels are [x], in the output channel whose
    weights are [weight] and whose bias is [bias]. *)
Definition OutConv_element (weight x : list spec_float) (bias y : spec_float)
    : Prop :=
  tanh_f32 (conv1x1_element weight x bias) y.

(** A value strictly within the open interval (-1, 1). *)
Definition strictly_inside (y : spec_float) : Prop :=
  Float32.is_finite y = true /\ (-1 < Float32.to_R y < 1)%R.

(** A computation respects a view of its object when it never changes
    the view and its outcome depends on the object through the view only. *)
Definition Respects {S A V : Type} (v : S -> V) (c : M S A) : Prop :=
  (forall s, v (snd (c s)) = v s)
  /\ (forall s s', v s = v s' -> fst (c s) = fst (c s')).

(** ** The monad *)

Unset Implicit Arguments.

Lemma bind_ok {S A B} (c : M S A) (f : A -> M S B) s a s' :
  c s = (Ok a, s') -> bind c f s = f a s'.
Proof. unfold bind; intros ->; reflexivity. Qed.

Lemma bind_err {S A B} (c : M S A) (f : A -> M S B) s e s' :
  c s = (Err e, s') -> bind c f s = (Err e, s').
Proof. unfold bind; intros ->; reflexivity. Qed.

Lemma zoom_ok {S T A} (get : S -> T) (set : T -> S -> S) (c : M T A) s r t' :
  c (get s) = (r, t') -> zoom get set c s = (r, set t' s).
Proof. unfold zoom; intros ->; reflexivity. Qed.

Lemma lift_run {S A} (r : result A) (s : S) : lift r s = (r, s).
Proof. reflexivity. Qed.

(** ** Operators: shape rules on 4-D inputs *)

Lemma conv2d_4d cin cout k p wt bs x B H W :
  size x = [B; cin; H; W] -> 1 <= cout -> k <= H + 2 * p -> k <= W + 2 * p ->
  exists y, conv2d cin cout k p wt bs x = Ok y
            /\ size y = [B; cout; H + 2 * p - k + 1; W + 2 * p - k + 1].
Proof.
  intros Hx Hc Hh Hw. unfold conv2d. rewrite Hx.
  replace (cout <? 1) with false by (symmetry; apply Z.ltb_ge; lia).
  rewrite Z.eqb_refl. simpl negb. cbv iota.
  replace (H + 2 * p <? k) with false by (symmetry; apply Z.ltb_ge; lia).
  replace (W + 2 * p <? k) with false by (symmetry; apply Z.ltb_ge; lia).
  simpl. eexists; split; reflexivity.
Qed.

Lemma pool_out_2 n : 2 <= n -> pool_out 2 n = n / 2.
Proof. intros Hn. unfold pool_out. Z.div_mod_to_equations. lia. Qed.

Lemma pool2d_4d f x B C H W :
  size x = [B; C; H; W] -> 2 <= H -> 2 <= W ->
  pool2d f 2 x = Ok (mkTensor [B; C; H / 2; W / 2] (App f [data x])).
Proof.
  intros Hx Hh Hw. unfold pool2d. rewrite Hx. cbv beta iota zeta.
  rewrite !pool_out_2 by assumption.
  assert (1 <= H / 2) by (Z.div_mod_to_equations; lia).
  assert (1 <= W / 2) by (Z.div_mod_to_equations; lia).
  replace (H / 2 <=? 0) with false by (symmetry; apply Z.leb_gt; lia).
  replace (W / 2 <=? 0) with false by (symmetry; apply Z.leb_gt; lia).
  reflexivity.
Qed.

Lemma size4_eq (b c h w b' c' h' w' : Z) :
  b = b' -> c = c' -> h = h' -> w = w' -> [b; c; h; w] = [b'; c'; h'; w'].
Proof. congruence. Qed.

Lemma list_Z_eqb_refl l : list_Z_eqb l l = true.
Proof. unfold list_Z_eqb. destruct (list_eq_dec Z.eq_dec l l); congruence. Qed.

Lemma F_pad_4d x B C H W l r t b :
  size x = [B; C; H; W] -> 0 <= H + t + b -> 0 <= W + l + r ->
  F_pad x [l; r; t; b]
  = Ok (mkTensor [B; C; H + t + b; W + l + r] (App (op_pad [l; r; t; b] 0) [data x])).
Proof.
  intros Hx Hh Hw. unfold F_pad. rewrite Hx. simpl.
  replace (W + l + r <? 0) with false by (symmetry; apply Z.ltb_ge; lia).
  replace (H + t + b <? 0) with false by (symmetry; apply Z.ltb_ge; lia).
  reflexivity.
Qed.

Lemma cat_dim1_4d a b B Ca Cb H W :
  size a = [B; Ca; H; W] -> size b = [B; Cb; H; W] ->
  cat_dim1 a b = Ok (mkTensor [B; Ca + Cb; H; W] (App (op_cat 1) [data a; data b])).
Proof.
  intros Ha Hb. unfold cat_dim1. rewrite Ha, Hb.
  rewrite Z.eqb_refl, list_Z_eqb_refl. reflexivity.
Qed.

(** ** Layers: shape rules *)

Lemma BatchNorm2d_forward_ok bn x B C H W :
  size x = [B; C; H; W] -> BatchNorm2d.num_features bn = C ->
  (BatchNorm2d.training bn = true -> B * H * W <> 1) ->
  exists y bn', BatchNorm2d.forward x bn = (Ok y, bn') /\ size y = [B; C; H; W].
Proof.
  intros Hx Hc Ht. unfold BatchNorm2d.forward. rewrite Hx, Hc, Z.eqb_refl.
  destruct (BatchNorm2d.training bn).
  - replace (B * H * W =? 1) with false
      by (symmetry; apply Z.eqb_neq; auto).
    simpl. do 2 eexists; split; reflexivity.
  - simpl. do 2 eexists; split; reflexivity.
Qed.

Lemma Conv2d_forward_ok c x cin cout k p B H W :
  Conv2d_cfg c = (cin, cout, k, p) -> size x = [B; cin; H; W] -> 1 <= cout ->
  k <= H + 2 * p -> k <= W + 2 * p ->
  exists y, Conv2d.forward x c = (Ok y, c)
            /\ size y = [B; cout; H + 2 * p - k + 1; W + 2 * p - k + 1].
Proof.
  intros Hc Hx Ho Hh Hw. unfold Conv2d_cfg in Hc. injection Hc as E1 E2 E3 E4.
  subst cin cout k p. unfold Conv2d.forward.
  edestruct conv2d_4d as (y & Ey & Hy); [exact Hx | exact Ho | exact Hh | exact Hw |].
  rewrite Ey. eauto.
Qed.

Lemma DoubleConv_forward_ok d x cin cmid cout B H W :
  DoubleConv_has cin cmid cout d -> size x = [B; cin; H; W] ->
  1 <= cmid -> 1 <= cout ->
  1 <= H -> 1 <= W ->
  (DoubleConv.training d = true -> B * H * W <> 1) ->
  exists y d', DoubleConv.forward x d = (Ok y, d') /\ size y = [B; cout; H; W].
Proof.
  intros (H0 & H1 & H3 & H4) Hx Hm Ho Hh Hw Ht.
  unfold DoubleConv.training in Ht.
  edestruct Conv2d_forward_ok as (y0 & E0 & S0);
    [exact H0 | exact Hx | exact Hm | lia | lia |].
  replace (H + 2 * 1 - 3 + 1) with H in S0 by lia.
  replace (W + 2 * 1 - 3 + 1) with W in S0 by lia.
  edestruct BatchNorm2d_forward_ok as (y1 & b1 & E1 & S1);
    [exact S0 | exact H1 | |].
  { intros Hb. apply Ht. rewrite Hb. reflexivity. }
  edestruct Conv2d_forward_ok with (x := relu y1) as (y3 & E3 & S3);
    [exact H3 | exact S1 | exact Ho | lia | lia |].
  replace (H + 2 * 1 - 3 + 1) with H in S3 by lia.
  replace (W + 2 * 1 - 3 + 1) with W in S3 by lia.
  edestruct BatchNorm2d_forward_ok as (y4 & b4 & E4 & S4);
    [exact S3 | exact H4 | |].
  { intros Hb. apply Ht. rewrite Hb. apply orb_true_r. }
  unfold DoubleConv.forward.
  erewrite bind_ok by (eapply zoom_ok; exact E0).
  erewrite bind_ok by (eapply zoom_ok; exact E1).
  erewrite bind_ok by reflexivity.
  erewrite bind_ok by (eapply zoom_ok; simpl; exact E3).
  erewrite bind_ok by (eapply zoom_ok; simpl; exact E4).
  do 2 eexists; split; [reflexivity | exact S4].
Qed.

Lemma Down_forward_ok d x cin cout B H W :
  Down_has cin cout d -> size x = [B; cin; H; W] -> 1 <= cout ->
  2 <= H -> 2 <= W ->
  (DoubleConv.training (Down.maxpool_conv_1 d) = true ->
   B * (H / 2) * (W / 2) <> 1) ->
  exists y d', Down.forward x d = (Ok y, d') /\ size y = [B; cout; H / 2; W / 2].
Proof.
  intros Hd Hx Ho Hh Hw Ht. unfold Down.forward, max_pool2d.
  rewrite (pool2d_4d _ _ _ _ _ _ Hx Hh Hw).
  erewrite bind_ok by apply lift_run.
  edestruct DoubleConv_forward_ok
    with (x := mkTensor [B; cin; H / 2; W / 2] (App (op_max_pool2d 2) [data x]))
    as (y & d' & E & Sy); [exact Hd | reflexivity | exact Ho | exact Ho | | | exact Ht |].
  1, 2: Z.div_mod_to_equations; lia.
  erewrite zoom_ok by exact E. eauto.
Qed.

Lemma avg_pool2d_4d x B C H W :
  size x = [B; C; H; W] -> 2 <= H -> 2 <= W ->
  avg_pool2d 2 x = Ok (mkTensor [B; C; H / 2; W / 2] (App (op_avg_pool2d 2) [data x])).
Proof.
  intros Hx Hh Hw. unfold avg_pool2d.
  rewrite <- (pool2d_4d (op_avg_pool2d 2) x B C H W Hx Hh Hw).
  rewrite Hx. reflexivity.
Qed.

Lemma AvgDown_forward_ok d x cin cout B H W :
  AvgDown_has cin cout d -> size x = [B; cin; H; W] -> 1 <= cout ->
  2 <= H -> 2 <= W ->
  (DoubleConv.training (AvgDown.avgpool_conv_1 d) = true ->
   B * (H / 2) * (W / 2) <> 1) ->
  exists y d', AvgDown.forward x d = (Ok y, d') /\ size y = [B; cout; H / 2; W / 2].
Proof.
  intros Hd Hx Ho Hh Hw Ht. unfold AvgDown.forward.
  rewrite (avg_pool2d_4d _ _ _ _ _ Hx Hh Hw).
  erewrite bind_ok by apply lift_run.
  edestruct DoubleConv_forward_ok
    with (x := mkTensor [B; cin; H / 2; W / 2] (App (op_avg_pool2d 2) [data x]))
    as (y & d' & E & Sy); [exact Hd | reflexivity | exact Ho | exact Ho | | | exact Ht |].
  1, 2: Z.div_mod_to_equations; lia.
  erewrite zoom_ok by exact E. eauto.
Qed.

Lemma div2_ge n m : 2 * m <= n -> m <= n / 2.
Proof. intros Hn. apply Z.div_le_lower_bound; lia. Qed.

Lemma up_forward_ok ul x1 cin bilinear B c1 H1 W1 :
  up_layer_has cin bilinear ul -> size x1 = [B; c1; H1; W1] ->
  (bilinear = false -> c1 = cin) -> (bilinear = false -> 2 <= cin) ->
  1 <= H1 -> 1 <= W1 ->
  exists y, Up.up_forward x1 ul = (Ok y, ul)
            /\ size y = [B; up_channels cin c1 bilinear; 2 * H1; 2 * W1]
            /\ data y = match ul with
                        | Up.Upsample s ac =>
                            App (op_upsample_bilinear s ac) [data x1]
                        | Up.ConvTranspose c =>
                            App (op_conv_transpose2d (ConvTranspose2d.stride c))
                                [data x1; ConvTranspose2d.weight c;
                                 ConvTranspose2d.bias c]
                        end.
Proof.
  intros Hu Hx Hc Hc2 Hh Hw. destruct ul as [s ac | c]; simpl in Hu.
  - destruct Hu as (-> & -> & ->). unfold Up.up_forward, upsample_bilinear. rewrite Hx.
    replace (H1 <=? 0) with false by (symmetry; apply Z.leb_gt; lia).
    replace (W1 <=? 0) with false by (symmetry; apply Z.leb_gt; lia).
    simpl orb. cbv iota. eexists; split; [reflexivity |].
    split; [| reflexivity]. unfold up_channels. cbn [size].
    apply size4_eq; lia.
  - destruct Hu as (-> & Ei & Eo & Ek & Es). specialize (Hc eq_refl). subst c1.
    specialize (Hc2 eq_refl).
    assert (1 <= cin / 2) by (apply div2_ge; lia).
    unfold Up.up_forward, ConvTranspose2d.forward, conv_transpose2d.
    rewrite Hx, Ei, Eo, Ek, Es, Z.eqb_refl.
    replace (cin <? 1) with false by (symmetry; apply Z.ltb_ge; lia).
    replace (cin / 2 <? 1) with false by (symmetry; apply Z.ltb_ge; lia).
    simpl negb. simpl orb. cbv iota beta zeta.
    eexists; split; [reflexivity |]. split; [| reflexivity].
    unfold up_channels. cbn [size app].
    apply size4_eq; lia.
Qed.

Lemma Up_mid_pos cin cout bilinear :
  0 <= cin -> 1 <= cout -> 1 <= Up_mid cin cout bilinear.
Proof.
  intros Hi Ho. unfold Up_mid. destruct bilinear; [| exact Ho].
  destruct (cin / 2 =? 0) eqn:E; [exact Ho |].
  apply Z.eqb_neq in E. assert (0 <= cin / 2) by (apply div2_ge; lia). lia.
Qed.

Lemma Up_forward_ok u x1 x2 cin cout bilinear B c1 c2 H1 W1 H2 W2 :
  Up_has cin cout bilinear u ->
  size x1 = [B; c1; H1; W1] -> size x2 = [B; c2; H2; W2] ->
  1 <= cin -> 1 <= cout -> (bilinear = false -> 2 <= cin) ->
  (bilinear = false -> c1 = cin) ->
  c2 + up_channels cin c1 bilinear = cin ->
  1 <= H1 -> 1 <= W1 -> 1 <= H2 -> 1 <= W2 ->
  (DoubleConv.training (Up.conv u) = true -> B * H2 * W2 <> 1) ->
  exists y u', Up.forward x1 x2 u = (Ok y, u') /\ size y = [B; cout; H2; W2].
Proof.
  intros [Hul Hdc] Hx1 Hx2 Hci Hco Hc2 Hc1 Hsum Hh1 Hw1 Hh2 Hw2 Ht.
  destruct (up_forward_ok _ x1 _ _ _ _ _ _ Hul Hx1 Hc1 Hc2 Hh1 Hw1)
    as (y1 & E1 & S1 & _).
  unfold Up.forward.
  erewrite bind_ok by (eapply zoom_ok; exact E1).
  unfold size_at. rewrite Hx2, S1. cbn [nth_error].
  do 4 (erewrite bind_ok by apply lift_run).
  erewrite F_pad_4d by (try exact S1; lia).
  erewrite bind_ok by apply lift_run.
  erewrite cat_dim1_4d; [| exact Hx2 |].
  2:{ cbn [size]. apply size4_eq; [reflexivity | reflexivity | lia | lia]. }
  erewrite bind_ok by apply lift_run.
  match goal with
  | |- context [DoubleConv.forward ?c] =>
      edestruct DoubleConv_forward_ok with (x := c) as (y & d' & E & Sy);
        [exact Hdc | | apply Up_mid_pos; lia | exact Hco
         | exact Hh2 | exact Hw2 | exact Ht |]
  end.
  { cbn [size]. rewrite Hsum. reflexivity. }
  erewrite zoom_ok by (simpl; exact E). eauto.
Qed.

Lemma OutConv_forward_ok o x cin cout B H W :
  OutConv_has cin cout o -> size x = [B; cin; H; W] -> 1 <= cout ->
  1 <= H -> 1 <= W ->
  exists y o', OutConv.forward x o = (Ok y, o') /\ size y = [B; cout; H; W].
Proof.
  intros Ho Hx Hc Hh Hw.
  edestruct Conv2d_forward_ok as (y0 & E0 & S0);
    [exact Ho | exact Hx | exact Hc | lia | lia |].
  unfold OutConv.forward.
  erewrite bind_ok by (eapply zoom_ok; exact E0).
  do 2 eexists; split; [reflexivity |].
  cbn [size tanh]. rewrite S0. apply size4_eq; lia.
Qed.

Lemma div2_4 n : n / 2 / 2 / 2 / 2 = n / 16.
Proof. rewrite !Z.div_div by lia. reflexivity. Qed.

Lemma prod_ne1 B h w : 1 <= B -> 2 <= h -> 1 <= w -> B * h * w <> 1.
Proof. intros HB Hh Hw. nia. Qed.

(** A new [UNet] has the layout of its arguments and is in training mode. *)
Lemma UNet_init_ok n_channels n_classes bilinear k :
  0 < n_channels -> 0 < n_classes ->
  exists net k', UNet.init n_channels n_classes bilinear k = (Ok net, k')
                 /\ UNet_has n_channels n_classes bilinear net
                 /\ UNet.training net = true.
Proof.
  intros Hc Hn.
  destruct n_channels as [| c | c]; try lia.
  destruct n_classes as [| n | n]; try lia.
  destruct bilinear; do 2 eexists; (split; [cbv; reflexivity |]);
    (split; [| reflexivity]);
    repeat split; reflexivity.
Qed.

Lemma UNet_train_has n_channels n_classes bilinear mode net :
  UNet_has n_channels n_classes bilinear net ->
  UNet_has n_channels n_classes bilinear (UNet.train mode net).
Proof.
  unfold UNet_has, Down_has, Up_has, DoubleConv_has, OutConv_has. intros Hn.
  cbn [UNet.train UNet.inc UNet.down1 UNet.down2 UNet.down3 UNet.down4
       UNet.up1 UNet.up2 UNet.up3 UNet.up4 UNet.outc
       Down.train Down.maxpool_conv_1 Up.train Up.up Up.conv
       DoubleConv.train DoubleConv.double_conv_0 DoubleConv.double_conv_1
       DoubleConv.double_conv_3 DoubleConv.double_conv_4
       BatchNorm2d.train BatchNorm2d.num_features].
  exact Hn.
Qed.

Lemma UNet_forward_ok net x n_channels n_classes bilinear B H W :
  UNet_has n_channels n_classes bilinear net ->
  size x = [B; n_channels; H; W] ->
  1 <= n_classes ->
  1 <= B -> 16 <= H -> 16 <= W ->
  (DoubleConv.training (Down.maxpool_conv_1 (UNet.down4 net)) = true ->
   B * (H / 16) * (W / 16) <> 1) ->
  exists y net', UNet.forward x net = (Ok y, net') /\ size y = [B; n_classes; H; W].
Proof.
  intros (Hinc & Hd1 & Hd2 & Hd3 & Hd4 & Hu1 & Hu2 & Hu3 & Hu4 & Hout)
         Hx Hcl HB HH HW Ht.
  rewrite <- (div2_4 H), <- (div2_4 W) in Ht.
  assert (8 <= H / 2) by (apply div2_ge; lia).
  assert (4 <= H / 2 / 2) by (apply div2_ge; lia).
  assert (2 <= H / 2 / 2 / 2) by (apply div2_ge; lia).
  assert (1 <= H / 2 / 2 / 2 / 2) by (apply div2_ge; lia).
  assert (8 <= W / 2) by (apply div2_ge; lia).
  assert (4 <= W / 2 / 2) by (apply div2_ge; lia).
  assert (2 <= W / 2 / 2 / 2) by (apply div2_ge; lia).
  assert (1 <= W / 2 / 2 / 2 / 2) by (apply div2_ge; lia).
  edestruct DoubleConv_forward_ok with (x := x) as (x1 & s1 & E1 & S1);
    [exact Hinc | exact Hx | lia | lia | lia | lia
     | intros _; apply prod_ne1; lia |].
  edestruct Down_forward_ok with (x := x1) as (x2 & s2 & E2 & S2);
    [exact Hd1 | exact S1 | lia | lia | lia
     | intros _; apply prod_ne1; lia |].
  edestruct Down_forward_ok with (x := x2) as (x3 & s3 & E3 & S3);
    [exact Hd2 | exact S2 | lia | lia | lia
     | intros _; apply prod_ne1; lia |].
  edestruct Down_forward_ok with (x := x3) as (x4 & s4 & E4 & S4);
    [exact Hd3 | exact S3 | lia | lia | lia
     | intros _; apply prod_ne1; lia |].
  edestruct Down_forward_ok with (x := x4) as (x5 & s5 & E5 & S5);
    [exact Hd4 | exact S4 | destruct bilinear; apply Z.leb_le; reflexivity
     | lia | lia | exact Ht |].
  edestruct Up_forward_ok with (x1 := x5) (x2 := x4) as (y1 & t1 & F1 & T1);
    [exact Hu1 | exact S5 | exact S4 | lia
     | destruct bilinear; apply Z.leb_le; reflexivity | lia | |
     | lia | lia | lia | lia
     | intros _; apply prod_ne1; lia |].
  { destruct bilinear; [discriminate | reflexivity]. }
  { destruct bilinear; reflexivity. }
  edestruct Up_forward_ok with (x1 := y1) (x2 := x3) as (y2 & t2 & F2 & T2);
    [exact Hu2 | exact T1 | exact S3 | lia
     | destruct bilinear; apply Z.leb_le; reflexivity | lia | |
     | lia | lia | lia | lia
     | intros _; apply prod_ne1; lia |].
  { destruct bilinear; [discriminate | reflexivity]. }
  { destruct bilinear; reflexivity. }
  edestruct Up_forward_ok with (x1 := y2) (x2 := x2) as (y3 & t3 & F3 & T3);
    [exact Hu3 | exact T2 | exact S2 | lia
     | destruct bilinear; apply Z.leb_le; reflexivity | lia | |
     | lia | lia | lia | lia
     | intros _; apply prod_ne1; lia |].
  { destruct bilinear; [discriminate | reflexivity]. }
  { destruct bilinear; reflexivity. }
  edestruct Up_forward_ok with (x1 := y3) (x2 := x1) as (y4 & t4 & F4 & T4);
    [exact Hu4 | exact T3 | exact S1 | lia
     | destruct bilinear; apply Z.leb_le; reflexivity | lia | |
     | lia | lia | lia | lia
     | intros _; apply prod_ne1; lia |].
  { destruct bilinear; [discriminate | reflexivity]. }
  { destruct bilinear; reflexivity. }
  edestruct OutConv_forward_ok with (x := y4) as (y & o & G & Sy);
    [exact Hout | exact T4 | exact Hcl | lia | lia |].
  unfold UNet.forward.
  erewrite bind_ok by (eapply zoom_ok; exact E1).
  erewrite bind_ok by (eapply zoom_ok; exact E2).
  erewrite bind_ok by (eapply zoom_ok; exact E3).
  erewrite bind_ok by (eapply zoom_ok; exact E4).
  erewrite bind_ok by (eapply zoom_ok; exact E5).
  erewrite bind_ok by (eapply zoom_ok; exact F1).
  erewrite bind_ok by (eapply zoom_ok; exact F2).
  erewrite bind_ok by (eapply zoom_ok; exact F3).
  erewrite bind_ok by (eapply zoom_ok; exact F4).
  erewrite bind_ok by (eapply zoom_ok; exact G).
  do 2 eexists; split; [reflexivity | exact Sy].
Qed.

(** The layers [AvgPoolUNet.__init__] would create after its first line
    have the same layout. *)
Lemma AvgPoolUNet_init_layers_ok n_channels n_classes bilinear k :
  0 < n_channels -> 0 < n_classes ->
  exists net k', AvgPoolUNet.init_layers n_channels n_classes bilinear k = (Ok net, k')
                 /\ AvgPoolUNet_has n_channels n_classes bilinear net.
Proof.
  intros Hc Hn.
  destruct n_channels as [| c | c]; try lia.
  destruct n_classes as [| n | n]; try lia.
  destruct bilinear; do 2 eexists; (split; [cbv; reflexivity |]);
    repeat split; reflexivity.
Qed.

(** [AvgPoolUNet.forward] has the shape rule of [UNet.forward]. *)
Lemma AvgPoolUNet_forward_ok net x n_channels n_classes bilinear B H W :
  AvgPoolUNet_has n_channels n_classes bilinear net ->
  size x = [B; n_channels; H; W] ->
  1 <= n_classes ->
  1 <= B -> 16 <= H -> 16 <= W ->
  (DoubleConv.training (AvgDown.avgpool_conv_1 (AvgPoolUNet.down4 net)) = true ->
   B * (H / 16) * (W / 16) <> 1) ->
  exists y net', AvgPoolUNet.forward x net = (Ok y, net') /\ size y = [B; n_classes; H; W].
Proof.
  intros (Hinc & Hd1 & Hd2 & Hd3 & Hd4 & Hu1 & Hu2 & Hu3 & Hu4 & Hout)
         Hx Hcl HB HH HW Ht.
  rewrite <- (div2_4 H), <- (div2_4 W) in Ht.
  assert (8 <= H / 2) by (apply div2_ge; lia).
  assert (4 <= H / 2 / 2) by (apply div2_ge; lia).
  assert (2 <= H / 2 / 2 / 2) by (apply div2_ge; lia).
  assert (1 <= H / 2 / 2 / 2 / 2) by (apply div2_ge; lia).
  assert (8 <= W / 2) by (apply div2_ge; lia).
  assert (4 <= W / 2 / 2) by (apply div2_ge; lia).
  assert (2 <= W / 2 / 2 / 2) by (apply div2_ge; lia).
  assert (1 <= W / 2 / 2 / 2 / 2) by (apply div2_ge; lia).
  edestruct DoubleConv_forward_ok with (x := x) as (x1 & s1 & E1 & S1);
    [exact Hinc | exact Hx | lia | lia | lia | lia
     | intros _; apply prod_ne1; lia |].
  edestruct AvgDown_forward_ok with (x := x1) as (x2 & s2 & E2 & S2);
    [exact Hd1 | exact S1 | lia | lia | lia
     | intros _; apply prod_ne1; lia |].
  edestruct AvgDown_forward_ok with (x := x2) as (x3 & s3 & E3 & S3);
    [exact Hd2 | exact S2 | lia | lia | lia
     | intros _; apply prod_ne1; lia |].
  edestruct AvgDown_forward_ok with (x := x3) as (x4 & s4 & E4 & S4);
    [exact Hd3 | exact S3 | lia | lia | lia
     | intros _; apply prod_ne1; lia |].
  edestruct AvgDown_forward_ok with (x := x4) as (x5 & s5 & E5 & S5);
    [exact Hd4 | exact S4 | destruct bilinear; apply Z.leb_le; reflexivity
     | lia | lia | exact Ht |].
  edestruct Up_forward_ok with (x1 := x5) (x2 := x4) as (y1 & t1 & F1 & T1);
    [exact Hu1 | exact S5 | exact S4 | lia
     | destruct bilinear; apply Z.leb_le; reflexivity | lia | |
     | lia | lia | lia | lia
     | intros _; apply prod_ne1; lia |].
  { destruct bilinear; [discriminate | reflexivity]. }
  { destruct bilinear; reflexivity. }
  edestruct Up_forward_ok with (x1 := y1) (x2 := x3) as (y2 & t2 & F2 & T2);
    [exact Hu2 | exact T1 | exact S3 | lia
     | destruct bilinear; apply Z.leb_le; reflexivity | lia | |
     | lia | lia | lia | lia
     | intros _; apply prod_ne1; lia |].
  { destruct bilinear; [discriminate | reflexivity]. }
  { destruct bilinear; reflexivity. }
  edestruct Up_forward_ok with (x1 := y2) (x2 := x2) as (y3 & t3 & F3 & T3);
    [exact Hu3 | exact T2 | exact S2 | lia
     | destruct bilinear; apply Z.leb_le; reflexivity | lia | |
     | lia | lia | lia | lia
     | intros _; apply prod_ne1; lia |].
  { destruct bilinear; [discriminate | reflexivity]. }
  { destruct bilinear; reflexivity. }
  edestruct Up_forward_ok with (x1 := y3) (x2 := x1) as (y4 & t4 & F4 & T4);
    [exact Hu4 | exact T3 | exact S1 | lia
     | destruct bilinear; apply Z.leb_le; reflexivity | lia | |
     | lia | lia | lia | lia
     | intros _; apply prod_ne1; lia |].
  { destruct bilinear; [discriminate | reflexivity]. }
  { destruct bilinear; reflexivity. }
  edestruct OutConv_forward_ok with (x := y4) as (y & o & G & Sy);
    [exact Hout | exact T4 | exact Hcl | lia | lia |].
  unfold AvgPoolUNet.forward.
  erewrite bind_ok by (eapply zoom_ok; exact E1).
  erewrite bind_ok by (eapply zoom_ok; exact E2).
  erewrite bind_ok by (eapply zoom_ok; exact E3).
  erewrite bind_ok by (eapply zoom_ok; exact E4).
  erewrite bind_ok by (eapply zoom_ok; exact E5).
  erewrite bind_ok by (eapply zoom_ok; exact F1).
  erewrite bind_ok by (eapply zoom_ok; exact F2).
  erewrite bind_ok by (eapply zoom_ok; exact F3).
  erewrite bind_ok by (eapply zoom_ok; exact F4).
  erewrite bind_ok by (eapply zoom_ok; exact G).
  do 2 eexists; split; [reflexivity | exact Sy].
Qed.

(** ** The forward pass keeps the spatial size *)

(** C1 (as amended).  For a [UNet] laid out by positive [n_channels] and
    [n_classes] and either value of [bilinear], and an input of shape
    (B, n_channels, H, W) with B >= 1, H >= 16 and W >= 16, the forward
    pass returns a tensor of shape (B, n_classes, H, W), odd H or W
    included, provided the bottleneck does not normalise a single value
    per channel in training mode: either its normalisation layers are in
    evaluation mode or B * (H // 16) * (W // 16) is not 1. *)
Theorem UNet_forward_shape net x n_channels n_classes bilinear B H W :
  0 < n_channels -> 0 < n_classes ->
  UNet_has n_channels n_classes bilinear net ->
  size x = [B; n_channels; H; W] ->
  1 <= B -> 16 <= H -> 16 <= W ->
  (UNet_bottleneck_training net = true -> B * (H / 16) * (W / 16) <> 1) ->
  exists y, fst (UNet.forward x net) = Ok y /\ size y = [B; n_classes; H; W].
Proof.
  intros _ Hcl Hnet Hx HB HH HW Ht.
  destruct (UNet_forward_ok net x _ _ _ B H W Hnet Hx ltac:(lia) HB HH HW Ht)
    as (y & net' & E & Sy).
  exists y. rewrite E. split; [reflexivity | exact Sy].
Qed.

(** A model fresh from its constructor (training mode) on a 1 x 1 x 101 x 37
    image, both sides odd. *)
Lemma UNet_forward_shape_witness :
  exists net, fst (UNet.init 1 1 false 0%N) = Ok net
    /\ exists y, fst (UNet.forward (mkTensor [1; 1; 101; 37] (Leaf "x")) net) = Ok y
                 /\ size y = [1; 1; 101; 37].
Proof.
  eexists. split; [vm_compute; reflexivity |].
  apply (UNet_forward_shape _ _ 1 1 false 1 101 37);
    [lia | lia | repeat split; reflexivity | reflexivity | lia | lia | lia
     | intros _; vm_compute; discriminate].
Defined.

(** C1, as stated, fails on the 16 x 16 image of a batch of one: the model
    fresh from its constructor raises at the bottleneck's normalisation. *)
Lemma UNet_forward_16x16_raises :
  exists net, fst (UNet.init 1 1 false 0%N) = Ok net
    /\ fst (UNet.forward (mkTensor [1; 1; 16; 16] (Leaf "x")) net)
       = Err (ValueError "Expected more than 1 value per channel when training")
    /\ ~ (exists y, fst (UNet.forward (mkTensor [1; 1; 16; 16] (Leaf "x")) net) = Ok y
                    /\ size y = [1; 1; 16; 16]).
Proof.
  eexists. split; [vm_compute; reflexivity |].
  split; [vm_compute; reflexivity |].
  intros (y & Hy & _). vm_compute in Hy. discriminate Hy.
Qed.

(** The same model after [net.eval()] returns a 16 x 16 map. *)
Example UNet_forward_16x16_eval :
  exists net, fst (UNet.init 1 1 false 0%N) = Ok net
    /\ exists y, fst (UNet.forward (mkTensor [1; 1; 16; 16] (Leaf "x"))
                                   (UNet.train false net)) = Ok y
                 /\ size y = [1; 1; 16; 16].
Proof.
  destruct (UNet_init_ok 1 1 false 0%N) as (net & k' & E & Hnet & _); [lia | lia |].
  exists net. rewrite E. split; [reflexivity |].
  destruct (UNet_forward_ok (UNet.train false net)
              (mkTensor [1; 1; 16; 16] (Leaf "x")) 1 1 false 1 16 16)
    as (y & net' & Ey & Sy);
    [ apply UNet_train_has; exact Hnet | reflexivity | lia | lia | lia | lia
    | intros Ht; discriminate Ht | ].
  exists y. rewrite Ey. split; [reflexivity | exact Sy].
Qed.

(** ** What the forward pass reads and what it writes *)

Lemma respects_ret {S A V} (v : S -> V) (a : A) : Respects v (ret a).
Proof. split; intros; reflexivity. Qed.

Lemma respects_lift {S A V} (v : S -> V) (r : result A) : Respects v (lift r).
Proof. split; intros; reflexivity. Qed.

Lemma respects_bind {S A B V} (v : S -> V) (c : M S A) (f : A -> M S B) :
  Respects v c -> (forall a, Respects v (f a)) -> Respects v (bind c f).
Proof.
  intros [Hc1 Hc2] Hf. split.
  - intros s. unfold bind. specialize (Hc1 s).
    destruct (c s) as [[a | e] s1]; simpl in *.
    + destruct (Hf a) as [Hf1 _]. rewrite Hf1. exact Hc1.
    + exact Hc1.
  - intros s s' Hv. unfold bind.
    pose proof (Hc2 s s' Hv) as Hr.
    pose proof (Hc1 s) as Hs. pose proof (Hc1 s') as Hs'.
    destruct (c s) as [r s1], (c s') as [r' s1']; simpl in *. subst r'.
    destruct r as [a | e]; [| reflexivity].
    destruct (Hf a) as [_ Hf2]. apply Hf2. congruence.
Qed.

Lemma respects_zoom {S T A V VT} (v : S -> V) (vt : T -> VT)
    (get : S -> T) (set : T -> S -> S) (c : M T A) :
  Respects vt c ->
  (forall s t, vt t = vt (get s) -> v (set t s) = v s) ->
  (forall s s', v s = v s' -> vt (get s) = vt (get s')) ->
  Respects v (zoom get set c).
Proof.
  intros [Hc1 Hc2] Hset Hget. split.
  - intros s. unfold zoom. specialize (Hc1 (get s)).
    destruct (c (get s)) as [r t']; simpl in *. apply Hset. exact Hc1.
  - intros s s' Hv. unfold zoom.
    pose proof (Hc2 _ _ (Hget s s' Hv)) as Hr.
    destruct (c (get s)) as [r t1], (c (get s')) as [r' t1']; simpl in *.
    exact Hr.
Qed.

Lemma Conv2d_forward_respects x :
  Respects (fun c : Conv2d.t => c) (Conv2d.forward x).
Proof. split; [reflexivity | intros s s' ->; reflexivity]. Qed.

Lemma BatchNorm2d_forward_respects x :
  Respects BatchNorm2d.view (BatchNorm2d.forward x).
Proof.
  split.
  - intros [nf tr w b rm rv nbt]. unfold BatchNorm2d.forward, BatchNorm2d.view.
    destruct (size x) as [| b0 [| c0 [| h0 [| w0 [|]]]]]; try reflexivity.
    cbn [BatchNorm2d.training BatchNorm2d.num_features].
    destruct tr; [destruct (b0 * h0 * w0 =? 1) |];
      destruct (negb (c0 =? nf)); reflexivity.
  - intros [nf tr w b rm rv nbt] [nf' tr' w' b' rm' rv' nbt'].
    unfold BatchNorm2d.view. cbn [BatchNorm2d.training BatchNorm2d.num_features
      BatchNorm2d.weight BatchNorm2d.bias BatchNorm2d.running_mean
      BatchNorm2d.running_var BatchNorm2d.num_batches_tracked].
    intros E. injection E as <- <- <- <- E.
    unfold BatchNorm2d.forward.
    destruct (size x) as [| b0 [| c0 [| h0 [| w0 [|]]]]]; try reflexivity.
    cbn [BatchNorm2d.training BatchNorm2d.num_features
      BatchNorm2d.weight BatchNorm2d.bias BatchNorm2d.running_mean
      BatchNorm2d.running_var BatchNorm2d.num_batches_tracked].
    destruct tr.
    + destruct (b0 * h0 * w0 =? 1); [reflexivity |].
      destruct (negb (c0 =? nf)); reflexivity.
    + injection E as <- <- <-. reflexivity.
Qed.

Lemma DoubleConv_forward_respects x :
  Respects DoubleConv.view (DoubleConv.forward x).
Proof.
  unfold DoubleConv.forward.
  repeat (first
    [ apply respects_bind; [| intros ?]
    | apply respects_ret
    | eapply respects_zoom;
      [ first [apply Conv2d_forward_respects | apply BatchNorm2d_forward_respects]
      | intros [c0 b1 c3 b4] t Ht; unfold DoubleConv.view in *; simpl in *; congruence
      | intros [c0 b1 c3 b4] [c0' b1' c3' b4'] Hv; unfold DoubleConv.view in *;
        simpl in *; congruence ] ]).
Qed.

Lemma Down_forward_respects x : Respects Down.view (Down.forward x).
Proof.
  unfold Down.forward. apply respects_bind; [apply respects_lift | intros p].
  eapply respects_zoom; [apply DoubleConv_forward_respects | |].
  - intros [d] t Ht. exact Ht.
  - intros [d] [d'] Hv. exact Hv.
Qed.

Lemma AvgDown_forward_respects x : Respects AvgDown.view (AvgDown.forward x).
Proof.
  unfold AvgDown.forward. apply respects_bind; [apply respects_lift | intros p].
  eapply respects_zoom; [apply DoubleConv_forward_respects | |].
  - intros [d] t Ht. exact Ht.
  - intros [d] [d'] Hv. exact Hv.
Qed.

Lemma up_forward_respects x :
  Respects (fun u : Up.up_layer => u) (Up.up_forward x).
Proof.
  split.
  - intros [s | c]; reflexivity.
  - intros s s' ->. reflexivity.
Qed.

Lemma Up_forward_respects x1 x2 : Respects Up.view (Up.forward x1 x2).
Proof.
  unfold Up.forward.
  repeat (first
    [ apply respects_bind; [| intros ?]
    | apply respects_lift
    | eapply respects_zoom;
      [ first [apply up_forward_respects | apply DoubleConv_forward_respects]
      | intros [u d] t Ht; unfold Up.view in *; simpl in *; congruence
      | intros [u d] [u' d'] Hv; unfold Up.view in *; simpl in *; congruence ] ]).
Qed.

Lemma OutConv_forward_respects x : Respects OutConv.view (OutConv.forward x).
Proof.
  unfold OutConv.forward. apply respects_bind; [| intros ?; apply respects_ret].
  eapply respects_zoom; [apply Conv2d_forward_respects | |].
  - intros [c] t Ht. simpl in *. congruence.
  - intros [c] [c'] Hv. exact Hv.
Qed.

Lemma UNet_forward_respects x : Respects UNet.view (UNet.forward x).
Proof.
  unfold UNet.forward.
  repeat (first
    [ apply respects_bind; [| intros ?]
    | apply respects_ret
    | eapply respects_zoom;
      [ first [ apply DoubleConv_forward_respects | apply Down_forward_respects
              | apply Up_forward_respects | apply OutConv_forward_respects ]
      | intros [nc ncl bl i d1 d2 d3 d4 u1 u2 u3 u4 o] t Ht;
        unfold UNet.view in *; simpl in *; congruence
      | intros [nc ncl bl i d1 d2 d3 d4 u1 u2 u3 u4 o]
               [nc' ncl' bl' i' d1' d2' d3' d4' u1' u2' u3' u4' o'] Hv;
        unfold UNet.view in *; simpl in *; congruence ] ]).
Qed.

(** Equal views carry equal learnable parameters. *)
Lemma BatchNorm2d_view_parameters a b :
  BatchNorm2d.view a = BatchNorm2d.view b ->
  BatchNorm2d.parameters a = BatchNorm2d.parameters b.
Proof.
  destruct a, b. unfold BatchNorm2d.view, BatchNorm2d.parameters. simpl.
  intros E. congruence.
Qed.

Lemma DoubleConv_view_parameters a b :
  DoubleConv.view a = DoubleConv.view b ->
  DoubleConv.parameters a = DoubleConv.parameters b.
Proof.
  destruct a as [c0 b1 c3 b4], b as [c0' b1' c3' b4'].
  unfold DoubleConv.view, DoubleConv.parameters.
  cbn [DoubleConv.double_conv_0 DoubleConv.double_conv_1
       DoubleConv.double_conv_3 DoubleConv.double_conv_4].
  intros E.
  assert (E1 : BatchNorm2d.view b1 = BatchNorm2d.view b1') by congruence.
  assert (E4 : BatchNorm2d.view b4 = BatchNorm2d.view b4') by congruence.
  rewrite (BatchNorm2d_view_parameters _ _ E1), (BatchNorm2d_view_parameters _ _ E4).
  congruence.
Qed.

Lemma Up_view_parameters a b :
  Up.view a = Up.view b -> Up.parameters a = Up.parameters b.
Proof.
  destruct a as [u d], b as [u' d']. unfold Up.view, Up.parameters.
  cbn [Up.up Up.conv]. intros E.
  assert (E1 : DoubleConv.view d = DoubleConv.view d') by congruence.
  assert (Eu : u = u') by congruence.
  rewrite (DoubleConv_view_parameters _ _ E1), Eu. reflexivity.
Qed.

Lemma UNet_view_parameters a b :
  UNet.view a = UNet.view b -> UNet.parameters a = UNet.parameters b.
Proof.
  destruct a as [nc ncl bl i d1 d2 d3 d4 u1 u2 u3 u4 o],
           b as [nc' ncl' bl' i' d1' d2' d3' d4' u1' u2' u3' u4' o'].
  unfold UNet.view, UNet.parameters, Down.view, Down.parameters,
    OutConv.view, OutConv.parameters.
  cbn [UNet.inc UNet.down1 UNet.down2 UNet.down3 UNet.down4
       UNet.up1 UNet.up2 UNet.up3 UNet.up4 UNet.outc].
  intros E.
  rewrite (DoubleConv_view_parameters i i') by congruence.
  rewrite (DoubleConv_view_parameters (Down.maxpool_conv_1 d1)
                                      (Down.maxpool_conv_1 d1')) by congruence.
  rewrite (DoubleConv_view_parameters (Down.maxpool_conv_1 d2)
                                      (Down.maxpool_conv_1 d2')) by congruence.
  rewrite (DoubleConv_view_parameters (Down.maxpool_conv_1 d3)
                                      (Down.maxpool_conv_1 d3')) by congruence.
  rewrite (DoubleConv_view_parameters (Down.maxpool_conv_1 d4)
                                      (Down.maxpool_conv_1 d4')) by congruence.
  rewrite (Up_view_parameters u1 u1') by congruence.
  rewrite (Up_view_parameters u2 u2') by congruence.
  rewrite (Up_view_parameters u3 u3') by congruence.
  rewrite (Up_view_parameters u4 u4') by congruence.
  congruence.
Qed.

(** In evaluation mode the view is the whole object. *)
Lemma BatchNorm2d_view_eval a b :
  BatchNorm2d.view a = BatchNorm2d.view b -> BatchNorm2d.training a = false -> a = b.
Proof.
  destruct a as [nf tr w bs rm rv nbt], b as [nf' tr' w' bs' rm' rv' nbt'].
  unfold BatchNorm2d.view. simpl. intros E Ht. subst tr.
  destruct tr'; congruence.
Qed.

Lemma DoubleConv_view_eval a b :
  DoubleConv.view a = DoubleConv.view b -> DoubleConv.training a = false -> a = b.
Proof.
  destruct a as [c0 b1 c3 b4], b as [c0' b1' c3' b4'].
  unfold DoubleConv.view, DoubleConv.training.
  cbn [DoubleConv.double_conv_0 DoubleConv.double_conv_1
       DoubleConv.double_conv_3 DoubleConv.double_conv_4].
  intros E Ht. apply orb_false_elim in Ht as [T1 T4].
  rewrite (BatchNorm2d_view_eval b1 b1') by congruence.
  rewrite (BatchNorm2d_view_eval b4 b4') by congruence.
  congruence.
Qed.

Lemma Down_view_eval a b :
  Down.view a = Down.view b ->
  DoubleConv.training (Down.maxpool_conv_1 a) = false -> a = b.
Proof.
  destruct a as [d], b as [d']. unfold Down.view. cbn [Down.maxpool_conv_1].
  intros E Ht. rewrite (DoubleConv_view_eval _ _ E Ht). reflexivity.
Qed.

Lemma Up_view_eval a b :
  Up.view a = Up.view b -> DoubleConv.training (Up.conv a) = false -> a = b.
Proof.
  destruct a as [u d], b as [u' d']. unfold Up.view. cbn [Up.up Up.conv].
  intros E Ht. rewrite (DoubleConv_view_eval d d') by congruence. congruence.
Qed.

Lemma UNet_view_eval a b :
  UNet.view a = UNet.view b -> UNet.training a = false -> a = b.
Proof.
  destruct a as [nc ncl bl i d1 d2 d3 d4 u1 u2 u3 u4 o],
           b as [nc' ncl' bl' i' d1' d2' d3' d4' u1' u2' u3' u4' o'].
  unfold UNet.view, UNet.training, OutConv.view.
  cbn [UNet.inc UNet.down1 UNet.down2 UNet.down3 UNet.down4
       UNet.up1 UNet.up2 UNet.up3 UNet.up4 UNet.outc
       UNet.n_channels UNet.n_classes UNet.bilinear].
  intros E Ht.
  repeat match type of Ht with
         | (_ || _)%bool = false =>
             let T := fresh "T" in apply orb_false_elim in Ht as [Ht T]
         end.
  rewrite (DoubleConv_view_eval i i') by congruence.
  rewrite (Down_view_eval d1 d1') by congruence.
  rewrite (Down_view_eval d2 d2') by congruence.
  rewrite (Down_view_eval d3 d3') by congruence.
  rewrite (Down_view_eval d4 d4') by congruence.
  rewrite (Up_view_eval u1 u1') by congruence.
  rewrite (Up_view_eval u2 u2') by congruence.
  rewrite (Up_view_eval u3 u3') by congruence.
  rewrite (Up_view_eval u4 u4') by congruence.
  destruct o as [c], o' as [c']. cbn [OutConv.out_conv_0] in E. congruence.
Qed.

(** ** Construction *)

(** C3.  [AvgPoolUNet] derives from [nn.Module] only, so it is not a
    subclass of [UNet]; for every choice of arguments its constructor
    raises [TypeError] at [super(UNet, self).__init__()], before any
    layer is created (no parameter tensor has been drawn), and therefore
    never returns an instance whose [forward] could be called. *)
Theorem AvgPoolUNet_init_raises n_channels n_classes bilinear k :
  bases cls_AvgPoolUNet = [nn_Module]
  /\ issubclass cls_AvgPoolUNet cls_UNet = false
  /\ AvgPoolUNet.init n_channels n_classes bilinear k
     = (Err (TypeError "super(type, obj): obj must be an instance or subtype of type"),
        k)
  /\ ~ (exists net k', AvgPoolUNet.init n_channels n_classes bilinear k = (Ok net, k')).
Proof.
  assert (E : AvgPoolUNet.init n_channels n_classes bilinear k
              = (Err (TypeError
                        "super(type, obj): obj must be an instance or subtype of type"),
                 k)) by reflexivity.
  repeat split; try reflexivity.
  intros (net & k' & Hok). rewrite E in Hok. discriminate Hok.
Qed.

(** The call of the [__main__] block. *)
Lemma AvgPoolUNet_init_raises_witness :
  AvgPoolUNet.init 1 1 false 0%N
  = (Err (TypeError "super(type, obj): obj must be an instance or subtype of type"),
     0%N).
Proof. exact (proj1 (proj2 (proj2 (AvgPoolUNet_init_raises 1 1 false 0%N)))). Defined.

(** C2 at the input of the [__main__] block: the self-test of model.py
    builds [AvgPoolUNet(1, 1, False)] and stops there with [TypeError],
    while [UNet(1, 1, False)] on an image of the same shape returns a
    tensor of shape (1, 1, 100, 100), and so would the layers that the
    rest of [AvgPoolUNet.__init__] creates. *)
Lemma main_raises_where_UNet_returns :
  main 0%N
  = (Err (TypeError "super(type, obj): obj must be an instance or subtype of type"),
     0%N)
  /\ (exists net k, UNet.init 1 1 false 0%N = (Ok net, k)
       /\ exists y, fst (UNet.forward (mkTensor [1; 1; 100; 100] (Rand k)) net) = Ok y
                    /\ size y = [1; 1; 100; 100])
  /\ (exists net k, AvgPoolUNet.init_layers 1 1 false 0%N = (Ok net, k)
       /\ exists y, fst (AvgPoolUNet.forward (mkTensor [1; 1; 100; 100] (Rand k)) net)
                    = Ok y
                    /\ size y = [1; 1; 100; 100]).
Proof.
  split; [reflexivity |].
  split.
  - do 2 eexists. split; [vm_compute; reflexivity |].
    eexists. split; vm_compute; reflexivity.
  - do 2 eexists. split; [vm_compute; reflexivity |].
    eexists. split; vm_compute; reflexivity.
Qed.

(** C6.  For positive [n_channels] and [n_classes],
    [UNet(n_channels, n_classes, bilinear)] returns a model laid out as
    follows: the stem produces 64 channels; the four [Down] stages produce
    128, 256, 512 and 1024 channels, the last one 512 when [bilinear]; the
    [Up] stages produce 512, 256, 128 and 64 channels, the first three
    halved to 256, 128 and 64 when [bilinear]; [OutConv] maps 64 channels
    to [n_classes]. *)
Theorem UNet_init_channel_schedule n_channels n_classes bilinear k :
  0 < n_channels -> 0 < n_classes ->
  exists net k',
    UNet.init n_channels n_classes bilinear k = (Ok net, k')
    /\ UNet_has n_channels n_classes bilinear net
    /\ DoubleConv_width (UNet.inc net) = 64
    /\ Down_width (UNet.down1 net) = 128
    /\ Down_width (UNet.down2 net) = 256
    /\ Down_width (UNet.down3 net) = 512
    /\ Down_width (UNet.down4 net) = (if bilinear then 512 else 1024)
    /\ Up_width (UNet.up1 net) = (if bilinear then 256 else 512)
    /\ Up_width (UNet.up2 net) = (if bilinear then 128 else 256)
    /\ Up_width (UNet.up3 net) = (if bilinear then 64 else 128)
    /\ Up_width (UNet.up4 net) = 64
    /\ Conv2d.in_channels (OutConv.out_conv_0 (UNet.outc net)) = 64
    /\ OutConv_width (UNet.outc net) = n_classes.
Proof.
  intros Hc Hn.
  destruct n_channels as [| c | c]; try lia.
  destruct n_classes as [| n | n]; try lia.
  destruct bilinear; do 2 eexists; (split; [cbv; reflexivity |]);
    repeat split; reflexivity.
Qed.

(** [UNet(3, 2, True)]: the bottleneck has 512 channels and the first
    [Up] stage produces 256. *)
Lemma UNet_init_channel_schedule_witness :
  exists net k',
    UNet.init 3 2 true 0%N = (Ok net, k')
    /\ Down_width (UNet.down4 net) = 512
    /\ Up_width (UNet.up1 net) = 256
    /\ OutConv_width (UNet.outc net) = 2.
Proof.
  destruct (UNet_init_channel_schedule 3 2 true 0%N)
    as (net & k' & E & _ & _ & _ & _ & _ & D4 & U1 & _ & _ & _ & _ & O);
    [lia | lia |].
  exists net, k'. repeat split; assumption.
Defined.

(** ** Down-sampling and up-sampling blocks *)

(** C7 (as amended).  For blocks built with positive channel counts, on
    a non-empty input of shape (B, C_in, H, W) with H >= 2 and W >= 2,
    [Down.forward] and [AvgDown.forward] first pool
    (the maximum, respectively the mean, of each 2 x 2 window, giving
    spatial size (H // 2, W // 2)) and then run their [DoubleConv] on the
    pooled tensor; the result has [C_out] channels and spatial size
    (H // 2, W // 2), provided that in training mode the pooled map holds
    more than one value per channel. *)
Theorem Down_AvgDown_forward_halves d a x cin cout B H W :
  0 < cin -> 0 < cout ->
  Down_has cin cout d -> AvgDown_has cin cout a ->
  size x = [B; cin; H; W] -> 1 <= B -> 2 <= H -> 2 <= W ->
  (DoubleConv.training (Down.maxpool_conv_1 d) = true ->
   B * (H / 2) * (W / 2) <> 1) ->
  (DoubleConv.training (AvgDown.avgpool_conv_1 a) = true ->
   B * (H / 2) * (W / 2) <> 1) ->
  let pmax := mkTensor [B; cin; H / 2; W / 2] (App (op_max_pool2d 2) [data x]) in
  let pavg := mkTensor [B; cin; H / 2; W / 2] (App (op_avg_pool2d 2) [data x]) in
  max_pool2d 2 x = Ok pmax
  /\ avg_pool2d 2 x = Ok pavg
  /\ Down.forward x d
     = zoom Down.maxpool_conv_1 Down.set_1 (DoubleConv.forward pmax) d
  /\ AvgDown.forward x a
     = zoom AvgDown.avgpool_conv_1 AvgDown.set_1 (DoubleConv.forward pavg) a
  /\ (exists y, fst (Down.forward x d) = Ok y /\ size y = [B; cout; H / 2; W / 2])
  /\ (exists y, fst (AvgDown.forward x a) = Ok y /\ size y = [B; cout; H / 2; W / 2]).
Proof.
  intros Hci Hco Hd Ha Hx HB HH HW Htd Hta pmax pavg.
  assert (Emax : max_pool2d 2 x = Ok pmax) by (apply pool2d_4d; assumption).
  assert (Eavg : avg_pool2d 2 x = Ok pavg) by (apply avg_pool2d_4d; assumption).
  repeat split; try assumption.
  - unfold Down.forward. rewrite Emax. reflexivity.
  - unfold AvgDown.forward. rewrite Eavg. reflexivity.
  - destruct (Down_forward_ok d x cin cout B H W Hd Hx ltac:(lia) HH HW Htd)
      as (y & d' & E & Sy).
    exists y. rewrite E. split; [reflexivity | exact Sy].
  - destruct (AvgDown_forward_ok a x cin cout B H W Ha Hx ltac:(lia) HH HW Hta)
      as (y & a' & E & Sy).
    exists y. rewrite E. split; [reflexivity | exact Sy].
Qed.

(** Two blocks fresh from their constructors on a 2 x 3 x 101 x 7 input. *)
Lemma Down_AvgDown_forward_halves_witness :
  exists d a, fst (Down.init 3 8 0%N) = Ok d /\ fst (AvgDown.init 3 8 0%N) = Ok a
    /\ (exists y, fst (Down.forward (mkTensor [2; 3; 101; 7] (Leaf "x")) d) = Ok y
                  /\ size y = [2; 8; 50; 3])
    /\ (exists y, fst (AvgDown.forward (mkTensor [2; 3; 101; 7] (Leaf "x")) a) = Ok y
                  /\ size y = [2; 8; 50; 3]).
Proof.
  do 2 eexists. split; [vm_compute; reflexivity |].
  split; [vm_compute; reflexivity |].
  refine (proj2 (proj2 (proj2 (proj2
    (Down_AvgDown_forward_halves _ _ (mkTensor [2; 3; 101; 7] (Leaf "x"))
       3 8 2 101 7 _ _ _ _ _ _ _ _ _ _))))).
  - lia.
  - lia.
  - repeat split; reflexivity.
  - repeat split; reflexivity.
  - reflexivity.
  - lia.
  - lia.
  - lia.
  - intros _. vm_compute. discriminate.
  - intros _. vm_compute. discriminate.
Defined.

(** C7, as stated, fails on small inputs: on a 1 x 1 map pooling raises
    instead of returning a 0 x 0 map, and on a 2 x 2 map of a batch of one
    the normalisation of a block in training mode raises. *)
Lemma Down_AvgDown_forward_small_raises :
  exists d a, fst (Down.init 3 8 0%N) = Ok d /\ fst (AvgDown.init 3 8 0%N) = Ok a
    /\ fst (Down.forward (mkTensor [1; 3; 1; 1] (Leaf "x")) d)
       = Err (RuntimeError "pool2d: output size is too small")
    /\ fst (AvgDown.forward (mkTensor [1; 3; 1; 1] (Leaf "x")) a)
       = Err (RuntimeError "pool2d: output size is too small")
    /\ fst (Down.forward (mkTensor [1; 3; 2; 2] (Leaf "x")) d)
       = Err (ValueError "Expected more than 1 value per channel when training")
    /\ fst (AvgDown.forward (mkTensor [1; 3; 2; 2] (Leaf "x")) a)
       = Err (ValueError "Expected more than 1 value per channel when training").
Proof.
  do 2 eexists. split; [vm_compute; reflexivity |].
  split; [vm_compute; reflexivity |].
  repeat split; vm_compute; reflexivity.
Qed.

(** C4.  For an [Up] block laid out for positive [cin] input and [cout]
    output channels ([cin] at least 2 with the transposed convolution,
    whose output has [cin // 2] channels), a coarser non-empty [x1] of
    shape (B, c1, H1, W1) and a finer skip tensor [x2] of shape
    (B, c2, H2, W2) whose channels add up to [cin] after up-sampling,
    [Up.forward] does, in order: up-sample [x1] to (2 H1, 2 W1), by
    bilinear interpolation with scale factor 2 and aligned corners keeping
    [c1] channels, or by the transposed convolution of stride 2 giving
    [cin // 2] channels; take diffY = H2 - 2 H1 and diffX = W2 - 2 W1; pad
    with the constant 0, diffX // 2 left, diffX - diffX // 2 right,
    diffY // 2 top and diffY - diffY // 2 bottom, which gives exactly
    (H2, W2); concatenate [x2] first and the padded tensor second along
    the channels; run [DoubleConv] on that.  The result has [cout]
    channels and spatial size (H2, W2). *)
Theorem Up_forward_steps u x1 x2 cin cout bilinear B c1 c2 H1 W1 H2 W2 :
  0 < cin -> 0 < cout -> (bilinear = false -> 2 <= cin) ->
  Up_has cin cout bilinear u ->
  size x1 = [B; c1; H1; W1] -> size x2 = [B; c2; H2; W2] ->
  (bilinear = false -> c1 = cin) ->
  c2 + up_channels cin c1 bilinear = cin ->
  1 <= B -> 1 <= c1 -> 1 <= c2 -> 1 <= H1 -> 1 <= W1 -> H1 < H2 -> W1 < W2 ->
  let diffY := H2 - 2 * H1 in
  let diffX := W2 - 2 * W1 in
  exists up1 padded catted,
    fst (Up.up_forward x1 (Up.up u)) = Ok up1
    /\ size up1 = [B; up_channels cin c1 bilinear; 2 * H1; 2 * W1]
    /\ data up1 = match Up.up u with
                  | Up.Upsample _ _ =>
                      App (op_upsample_bilinear 2 true) [data x1]
                  | Up.ConvTranspose c =>
                      App (op_conv_transpose2d 2)
                          [data x1; ConvTranspose2d.weight c; ConvTranspose2d.bias c]
                  end
    /\ (bilinear = true <-> Up.up u = Up.Upsample 2 true)
    /\ F_pad up1 [diffX / 2; diffX - diffX / 2; diffY / 2; diffY - diffY / 2]
       = Ok padded
    /\ size padded = [B; up_channels cin c1 bilinear; H2; W2]
    /\ data padded
       = App (op_pad [diffX / 2; diffX - diffX / 2; diffY / 2; diffY - diffY / 2] 0)
             [data up1]
    /\ cat_dim1 x2 padded = Ok catted
    /\ size catted = [B; cin; H2; W2]
    /\ data catted = App (op_cat 1) [data x2; data padded]
    /\ Up.forward x1 x2 u = zoom Up.conv Up.set_conv (DoubleConv.forward catted) u
    /\ exists y, fst (Up.forward x1 x2 u) = Ok y /\ size y = [B; cout; H2; W2].
Proof.
  intros Hci Hco Hc2 Hu Hx1 Hx2 Hc1 Hsum HB Hp1 Hp2 Hh1 Hw1 Hh2 Hw2 diffY diffX.
  destruct (up_forward_ok _ x1 _ _ _ _ _ _ (proj1 Hu) Hx1 Hc1 Hc2 Hh1 Hw1)
    as (up1 & E1 & S1 & D1).
  assert (D1' : data up1 = match Up.up u with
                           | Up.Upsample _ _ =>
                               App (op_upsample_bilinear 2 true) [data x1]
                           | Up.ConvTranspose c =>
                               App (op_conv_transpose2d 2)
                                   [data x1; ConvTranspose2d.weight c;
                                    ConvTranspose2d.bias c]
                           end).
  { rewrite D1. destruct Hu as [Hul _]. destruct (Up.up u) as [s ac | c];
      cbn [up_layer_has] in Hul.
    - destruct Hul as (_ & -> & ->). reflexivity.
    - destruct Hul as (_ & _ & _ & _ & ->). reflexivity. }
  assert (Hlayer : bilinear = true <-> Up.up u = Up.Upsample 2 true).
  { destruct Hu as [Hul _]. destruct (Up.up u) as [s ac | c];
      cbn [up_layer_has] in Hul.
    - destruct Hul as (-> & -> & ->). split; reflexivity.
    - destruct Hul as (-> & _). split; intros Hc; discriminate Hc. }
  assert (Epad : F_pad up1 [diffX / 2; diffX - diffX / 2; diffY / 2; diffY - diffY / 2]
                 = Ok (mkTensor [B; up_channels cin c1 bilinear;
                                 2 * H1 + diffY / 2 + (diffY - diffY / 2);
                                 2 * W1 + diffX / 2 + (diffX - diffX / 2)]
                         (App (op_pad [diffX / 2; diffX - diffX / 2;
                                       diffY / 2; diffY - diffY / 2] 0)
                              [data up1]))).
  { apply F_pad_4d; [exact S1 | subst diffY; lia | subst diffX; lia]. }
  set (padded := mkTensor _ (App (op_pad _ _) _)) in Epad.
  assert (Spad : size padded = [B; up_channels cin c1 bilinear; H2; W2]).
  { subst padded diffY diffX. cbn [size]. apply size4_eq; lia. }
  pose proof (cat_dim1_4d x2 padded B c2 _ H2 W2 Hx2 Spad) as Ecat.
  rewrite Hsum in Ecat.
  set (catted := mkTensor _ (App (op_cat 1) _)) in Ecat.
  assert (Efw : Up.forward x1 x2 u
                = zoom Up.conv Up.set_conv (DoubleConv.forward catted) u).
  { unfold Up.forward.
    erewrite bind_ok by (eapply zoom_ok; exact E1).
    unfold size_at. rewrite Hx2, S1. cbn [nth_error].
    do 4 (erewrite bind_ok by apply lift_run).
    fold diffY diffX. rewrite Epad.
    erewrite bind_ok by apply lift_run.
    rewrite Ecat.
    erewrite bind_ok by apply lift_run.
    destruct u; reflexivity. }
  exists up1, padded, catted.
  rewrite E1.
  split; [reflexivity |]. split; [exact S1 |]. split; [exact D1' |].
  split; [exact Hlayer |]. split; [exact Epad |]. split; [exact Spad |].
  split; [reflexivity |]. split; [exact Ecat |]. split; [reflexivity |].
  split; [reflexivity |]. split; [exact Efw |].
  edestruct (Up_forward_ok u x1 x2 cin cout bilinear B c1 c2 H1 W1 H2 W2)
    as (y & u' & E & Sy); try eassumption; try lia.
  { intros _. apply prod_ne1; lia. }
  exists y. rewrite E. split; [reflexivity | exact Sy].
Qed.

(** An [Up] block fresh from its constructor with the transposed
    convolution, on a 3 x 3 map and a 7 x 6 skip map. *)
Lemma Up_forward_steps_witness :
  exists u, fst (Up.init 1024 512 false 0%N) = Ok u
    /\ exists y, fst (Up.forward (mkTensor [1; 1024; 3; 3] (Leaf "x5"))
                                 (mkTensor [1; 512; 7; 6] (Leaf "x4")) u) = Ok y
                 /\ size y = [1; 512; 7; 6].
Proof.
  eexists. split; [vm_compute; reflexivity |].
  match goal with
  | |- context [Up.forward _ _ ?u] =>
      destruct (Up_forward_steps u (mkTensor [1; 1024; 3; 3] (Leaf "x5"))
                  (mkTensor [1; 512; 7; 6] (Leaf "x4"))
                  1024 512 false 1 1024 512 3 3 7 6)
        as (up1 & padded & catted & _ & _ & _ & _ & _ & _ & _ & _ & _ & _ & _ & Hy);
        [ lia | lia | lia | repeat split; reflexivity | reflexivity | reflexivity
        | reflexivity | reflexivity | lia | lia | lia | lia | lia | lia | lia
        | exact Hy ]
  end.
Defined.

(** ** Shape mismatches *)

(** The first convolution rejects the input. *)
Ltac conv_rejects :=
  eexists; split; [reflexivity |];
  split; [left; reflexivity |];
  split; [intros ? ? ? ? Hc; discriminate Hc |];
  eexists; left; reflexivity.

Lemma DoubleConv_forward_mismatch d x :
  1 <= Conv2d.out_channels (DoubleConv.double_conv_0 d) ->
  (forall B H W,
     size x <> [B; Conv2d.in_channels (DoubleConv.double_conv_0 d); H; W]) ->
  exists e,
    DoubleConv.forward x d = (Err e, d)
    /\ (fst (Conv2d.forward x (DoubleConv.double_conv_0 d)) = Err e
        \/ exists y, fst (Conv2d.forward x (DoubleConv.double_conv_0 d)) = Ok y
                     /\ fst (BatchNorm2d.forward y (DoubleConv.double_conv_1 d)) = Err e)
    /\ (forall B C H W, size x = [B; C; H; W] ->
        e = RuntimeError "conv2d: input channels do not match weight"
        /\ fst (Conv2d.forward x (DoubleConv.double_conv_0 d)) = Err e)
    /\ exists msg, e = RuntimeError msg \/ e = ValueError msg.
Proof.
  intros H0 Hx. destruct d as [c0 b1 c3 b4].
  cbn [DoubleConv.double_conv_0 DoubleConv.double_conv_1] in *.
  destruct c0 as [ci co ks pd wt bs].
  cbn [Conv2d.in_channels Conv2d.out_channels] in H0, Hx.
  assert (Eco : (co <? 1) = false) by (apply Z.ltb_ge; lia).
  unfold DoubleConv.forward, bind at 1, zoom at 1, Conv2d.forward, conv2d.
  cbn [DoubleConv.double_conv_0 Conv2d.in_channels Conv2d.out_channels
       Conv2d.kernel_size Conv2d.padding Conv2d.weight Conv2d.bias fst snd].
  destruct (size x) as [| n0 [| n1 [| n2 [| n3 [| n4 rest]]]]] eqn:Hs;
    try solve [conv_rejects].
  - (* an unbatched (C, H, W) input *)
    cbv beta zeta. rewrite Eco.
    destruct (negb (n0 =? ci)) eqn:Ec; [conv_rejects |].
    destruct ((n1 + 2 * pd <? ks) || (n2 + 2 * pd <? ks))%bool eqn:Ek;
      [conv_rejects |].
    eexists. split; [reflexivity |].
    split; [right; eexists; split; reflexivity |].
    split; [intros ? ? ? ? Hc; discriminate Hc |].
    eexists. right. reflexivity.
  - (* a batched input with the wrong number of channels *)
    cbv beta zeta. rewrite Eco. destruct (Z.eqb_spec n1 ci) as [-> | Hne].
    + exfalso. apply (Hx n0 n2 n3). reflexivity.
    + cbn [negb]. eexists. split; [reflexivity |].
      split; [left; reflexivity |].
      split; [intros ? ? ? ? Hc; split; reflexivity |].
      eexists. left. reflexivity.
Qed.

(** A block given a batched input whose channels are not those of its
    first convolution. *)
Lemma DoubleConv_forward_wrong_channels d z B C H W :
  size z = [B; C; H; W] ->
  1 <= Conv2d.out_channels (DoubleConv.double_conv_0 d) ->
  C <> Conv2d.in_channels (DoubleConv.double_conv_0 d) ->
  DoubleConv.forward z d
  = (Err (RuntimeError "conv2d: input channels do not match weight"), d)
  /\ fst (Conv2d.forward z (DoubleConv.double_conv_0 d))
     = Err (RuntimeError "conv2d: input channels do not match weight").
Proof.
  intros Hz Ho Hc.
  destruct (DoubleConv_forward_mismatch d z Ho) as (e & E & _ & H4 & _).
  { intros B' H' W' Hs. rewrite Hz in Hs. injection Hs as _ Hs _ _. contradiction. }
  destruct (H4 B C H W Hz) as [-> E0]. split; assumption.
Qed.

(** The outcome of [UNet.forward] is the outcome of its stages in order:
    nothing between them handles an exception. *)
Ltac unet_fields :=
  cbn [fst snd rbind
       UNet.inc UNet.down1 UNet.down2 UNet.down3 UNet.down4 UNet.up1 UNet.up2
       UNet.up3 UNet.up4 UNet.outc UNet.set_inc UNet.set_down1 UNet.set_down2
       UNet.set_down3 UNet.set_down4 UNet.set_up1 UNet.set_up2 UNet.set_up3
       UNet.set_up4 UNet.set_outc UNet.n_channels UNet.n_classes UNet.bilinear].

Lemma UNet_forward_stages net x : fst (UNet.forward x net) = UNet_stages net x.
Proof.
  unfold UNet.forward, UNet_stages.
  destruct net as [nc ncl bl i a1 a2 a3 a4 b1 b2 b3 b4 o].
  unfold bind, zoom, ret. unet_fields.
  destruct (DoubleConv.forward x i) as [[x1 | e] i']; unet_fields; [| reflexivity].
  destruct (Down.forward x1 a1) as [[x2 | e] a1']; unet_fields; [| reflexivity].
  destruct (Down.forward x2 a2) as [[x3 | e] a2']; unet_fields; [| reflexivity].
  destruct (Down.forward x3 a3) as [[x4 | e] a3']; unet_fields; [| reflexivity].
  destruct (Down.forward x4 a4) as [[x5 | e] a4']; unet_fields; [| reflexivity].
  destruct (Up.forward x5 x4 b1) as [[y1 | e] b1']; unet_fields; [| reflexivity].
  destruct (Up.forward y1 x3 b2) as [[y2 | e] b2']; unet_fields; [| reflexivity].
  destruct (Up.forward y2 x2 b3) as [[y3 | e] b3']; unet_fields; [| reflexivity].
  destruct (Up.forward y3 x1 b4) as [[y4 | e] b4']; unet_fields; [| reflexivity].
  destruct (OutConv.forward y4 o) as [[y | e] o']; reflexivity.
Qed.



(** ** Determinism and the frame of the forward pass *)

(** C9.  The outcome of [UNet.forward] (the returned tensor with its
    size and element values, or the exception) is a function of the
    input and of what the model holds as parameters, mode and, in
    evaluation mode, normalisation statistics: two models equal in these
    give the same outcome on the same input, and so does a second
    evaluation on the same model right after the first. *)
Theorem UNet_forward_deterministic x :
  (forall net net', UNet.view net = UNet.view net' ->
                    fst (UNet.forward x net) = fst (UNet.forward x net'))
  /\ (forall net, fst (UNet.forward x (snd (UNet.forward x net)))
                  = fst (UNet.forward x net)).
Proof.
  destruct (UNet_forward_respects x) as [Hkeep Hdep]. split.
  - exact Hdep.
  - intros net. apply Hdep. apply Hkeep.
Qed.

(** A model fresh from its constructor and the same model after one
    pass over a 1 x 1 x 32 x 32 image. *)
Lemma UNet_forward_deterministic_witness :
  exists net, fst (UNet.init 1 1 false 0%N) = Ok net
    /\ let x := mkTensor [1; 1; 32; 32] (Leaf "x") in
       fst (UNet.forward x net) = fst (UNet.forward x (snd (UNet.forward x net))).
Proof.
  eexists. split; [vm_compute; reflexivity |].
  intros x.
  apply (proj1 (UNet_forward_deterministic x)).
  vm_compute. reflexivity.
Defined.

(** ** When a forward pass returns *)

Lemma bind_inv {S A B} (c : M S A) (f : A -> M S B) s b s' :
  bind c f s = (Ok b, s') ->
  exists a s1, c s = (Ok a, s1) /\ f a s1 = (Ok b, s').
Proof.
  unfold bind. destruct (c s) as [[a | e] s1]; intros E.
  - exists a, s1. split; [reflexivity | exact E].
  - discriminate E.
Qed.

Lemma zoom_inv {S T A} (get : S -> T) (set : T -> S -> S) (c : M T A) s r s' :
  zoom get set c s = (r, s') ->
  exists t', c (get s) = (r, t') /\ s' = set t' s.
Proof.
  unfold zoom. destruct (c (get s)) as [r0 t']. intros E.
  injection E as <- <-. exists t'. split; reflexivity.
Qed.

Lemma lift_inv {S A} (r : result A) (s : S) a s' :
  lift r s = (Ok a, s') -> r = Ok a /\ s' = s.
Proof. unfold lift. intros E. injection E as -> <-. split; reflexivity. Qed.

Lemma ret_inv {S A} (a : A) (s : S) b s' :
  ret a s = (Ok b, s') -> b = a /\ s' = s.
Proof. unfold ret. intros E. injection E as <- <-. split; reflexivity. Qed.

(** A convolution that returns was given a batched or an unbatched image
    with the configured channels, no smaller than the kernel once padded. *)
Lemma conv2d_inv cin cout k p wt bs x y :
  conv2d cin cout k p wt bs x = Ok y ->
  (exists B H W, size x = [B; cin; H; W] /\ k <= H + 2 * p /\ k <= W + 2 * p
                 /\ size y = [B; cout; H + 2 * p - k + 1; W + 2 * p - k + 1])
  \/ (exists H W, size x = [cin; H; W] /\ k <= H + 2 * p /\ k <= W + 2 * p
                  /\ size y = [cout; H + 2 * p - k + 1; W + 2 * p - k + 1]).
Proof.
  unfold conv2d.
  destruct (size x) as [| n0 [| n1 [| n2 [| n3 [| n4 rest]]]]];
    try discriminate; cbv beta zeta;
    (destruct (cout <? 1); [discriminate |]).
  - destruct (Z.eqb_spec n0 cin) as [-> | Hne]; [| discriminate].
    cbn [negb]. destruct (n1 + 2 * p <? k) eqn:E1; [discriminate |].
    destruct (n2 + 2 * p <? k) eqn:E2; [discriminate |].
    cbn [orb]. intros E. injection E as <-. right.
    apply Z.ltb_ge in E1, E2. exists n1, n2. repeat split; assumption.
  - destruct (Z.eqb_spec n1 cin) as [-> | Hne]; [| discriminate].
    cbn [negb]. destruct (n2 + 2 * p <? k) eqn:E1; [discriminate |].
    destruct (n3 + 2 * p <? k) eqn:E2; [discriminate |].
    cbn [orb]. intros E. injection E as <-. left.
    apply Z.ltb_ge in E1, E2. exists n0, n2, n3. repeat split; assumption.
Qed.

Lemma BatchNorm2d_forward_inv bn x y bn' :
  BatchNorm2d.forward x bn = (Ok y, bn') ->
  exists B H W,
    size x = [B; BatchNorm2d.num_features bn; H; W]
    /\ size y = size x
    /\ (BatchNorm2d.training bn = true -> B * H * W <> 1)
    /\ BatchNorm2d.num_batches_tracked bn' = BatchNorm2d_bump bn.
Proof.
  unfold BatchNorm2d.forward, BatchNorm2d_bump.
  destruct (size x) as [| n0 [| n1 [| n2 [| n3 [| n4 rest]]]]] eqn:Hs;
    try discriminate.
  destruct (BatchNorm2d.training bn).
  - destruct (Z.eqb_spec (n0 * n2 * n3) 1) as [E1 | E1]; [discriminate |].
    destruct (Z.eqb_spec n1 (BatchNorm2d.num_features bn)) as [-> | Hne];
      [| discriminate].
    cbn [negb]. intros E. injection E as <- <-.
    exists n0, n2, n3. repeat split; try reflexivity. intros _. exact E1.
  - destruct (Z.eqb_spec n1 (BatchNorm2d.num_features bn)) as [-> | Hne];
      [| discriminate].
    cbn [negb]. intros E. injection E as <- <-.
    exists n0, n2, n3. repeat split; try reflexivity. intros Hc. discriminate Hc.
Qed.

Lemma Conv2d_forward_inv c x y c' :
  Conv2d.forward x c = (Ok y, c') ->
  c' = c
  /\ conv2d (Conv2d.in_channels c) (Conv2d.out_channels c) (Conv2d.kernel_size c)
            (Conv2d.padding c) (Conv2d.weight c) (Conv2d.bias c) x = Ok y.
Proof.
  unfold Conv2d.forward. intros E. injection E as E1 E2. split; congruence.
Qed.

(** The steps of a [DoubleConv.forward] that returns. *)
Lemma DoubleConv_forward_steps d x y d' :
  DoubleConv.forward x d = (Ok y, d') ->
  exists y0 y1 b1 y3 y4 b4,
    Conv2d.forward x (DoubleConv.double_conv_0 d)
    = (Ok y0, DoubleConv.double_conv_0 d)
    /\ BatchNorm2d.forward y0 (DoubleConv.double_conv_1 d) = (Ok y1, b1)
    /\ Conv2d.forward (relu y1) (DoubleConv.double_conv_3 d)
       = (Ok y3, DoubleConv.double_conv_3 d)
    /\ BatchNorm2d.forward y3 (DoubleConv.double_conv_4 d) = (Ok y4, b4)
    /\ y = relu y4
    /\ d' = DoubleConv.mk (DoubleConv.double_conv_0 d) b1
                          (DoubleConv.double_conv_3 d) b4.
Proof.
  unfold DoubleConv.forward. intros E.
  apply bind_inv in E as (y0 & s0 & E0 & E).
  apply zoom_inv in E0 as (c0 & E0 & ->).
  apply bind_inv in E as (y1 & s1 & E1 & E).
  apply zoom_inv in E1 as (b1 & E1 & ->).
  apply bind_inv in E as (r1 & s2 & Er & E).
  apply ret_inv in Er as [-> ->].
  apply bind_inv in E as (y3 & s3 & E3 & E).
  apply zoom_inv in E3 as (c3 & E3 & ->).
  apply bind_inv in E as (y4 & s4 & E4 & E).
  apply zoom_inv in E4 as (b4 & E4 & ->).
  apply ret_inv in E as [-> ->].
  destruct d as [dc0 dc1 dc3 dc4].
  cbn [DoubleConv.double_conv_0 DoubleConv.double_conv_1 DoubleConv.double_conv_3
       DoubleConv.double_conv_4 DoubleConv.set_0 DoubleConv.set_1
       DoubleConv.set_3 DoubleConv.set_4] in *.
  destruct (Conv2d_forward_inv _ _ _ _ E0) as [-> _].
  destruct (Conv2d_forward_inv _ _ _ _ E3) as [-> _].
  exists y0, y1, b1, y3, y4, b4. repeat split; assumption || reflexivity.
Qed.

Lemma DoubleConv_forward_counters d x y d' :
  DoubleConv.forward x d = (Ok y, d') ->
  DoubleConv_counters d' = DoubleConv_bumped d.
Proof.
  intros E.
  destruct (DoubleConv_forward_steps _ _ _ _ E)
    as (y0 & y1 & b1 & y3 & y4 & b4 & _ & E1 & _ & E4 & _ & ->).
  destruct (BatchNorm2d_forward_inv _ _ _ _ E1) as (? & ? & ? & _ & _ & _ & N1).
  destruct (BatchNorm2d_forward_inv _ _ _ _ E4) as (? & ? & ? & _ & _ & _ & N4).
  unfold DoubleConv_counters, DoubleConv_bumped.
  cbn [DoubleConv.double_conv_1 DoubleConv.double_conv_4].
  rewrite N1, N4. reflexivity.
Qed.

Lemma DoubleConv_forward_inv d x y d' cin cmid cout :
  DoubleConv_has cin cmid cout d ->
  DoubleConv.forward x d = (Ok y, d') ->
  exists B H W,
    size x = [B; cin; H; W] /\ 1 <= H /\ 1 <= W
    /\ size y = [B; cout; H; W]
    /\ (DoubleConv.training d = true -> B * H * W <> 1).
Proof.
  intros (H0 & H1 & H3 & H4) E.
  destruct (DoubleConv_forward_steps _ _ _ _ E)
    as (y0 & y1 & b1 & y3 & y4 & b4 & E0 & E1 & E3 & E4 & -> & _).
  unfold Conv2d_cfg in H0, H3.
  injection H0 as I0 O0 K0 P0. injection H3 as I3 O3 K3 P3.
  apply Conv2d_forward_inv in E0 as [_ E0].
  apply Conv2d_forward_inv in E3 as [_ E3].
  rewrite I0, O0, K0, P0 in E0. rewrite I3, O3, K3, P3 in E3.
  destruct (BatchNorm2d_forward_inv _ _ _ _ E1) as (B1 & h1 & w1 & S0 & S1 & T1 & _).
  destruct (BatchNorm2d_forward_inv _ _ _ _ E4) as (B4 & h4 & w4 & S3 & S4 & T4 & _).
  apply conv2d_inv in E0 as [(B & H & W & Sx & Hh & Hw & Sy0) | (H & W & _ & _ & _ & Sy0)];
    [| rewrite Sy0 in S0; discriminate S0].
  rewrite Sy0 in S0. injection S0 as <- _ <- <-.
  cbn [relu size] in E3.
  apply conv2d_inv in E3 as [(B' & H' & W' & Sr & _ & _ & Sy3) | (H' & W' & Sr & _)];
    [| cbn [relu size] in Sr; rewrite S1, Sy0 in Sr; discriminate Sr].
  cbn [relu size] in Sr. rewrite S1, Sy0 in Sr. injection Sr as <- <- <-.
  rewrite Sy3 in S3. injection S3 as <- _ <- <-.
  exists B, H, W. split; [exact Sx |].
  split; [lia |]. split; [lia |].
  split.
  - cbn [relu size]. rewrite S4, Sy3, <- H4. apply size4_eq; lia.
  - unfold DoubleConv.training. intros Ht.
    apply orb_true_iff in Ht as [Ht | Ht].
    + specialize (T1 Ht). intros Hp. apply T1. rewrite <- Hp. f_equal; [f_equal |]; lia.
    + specialize (T4 Ht). intros Hp. apply T4. rewrite <- Hp. f_equal; [f_equal |]; lia.
Qed.

Lemma pool_out_2_pos n : 0 < pool_out 2 n -> 2 <= n /\ pool_out 2 n = n / 2.
Proof.
  intros Hp. assert (2 <= n) by (unfold pool_out in Hp; Z.div_mod_to_equations; lia).
  split; [assumption | apply pool_out_2; assumption].
Qed.

Lemma pool2d_inv f x p :
  pool2d f 2 x = Ok p ->
  (exists B C H W, size x = [B; C; H; W] /\ 2 <= H /\ 2 <= W
                   /\ p = mkTensor [B; C; H / 2; W / 2] (App f [data x]))
  \/ (exists C H W, size x = [C; H; W] /\ List.length (size p) = 3%nat).
Proof.
  unfold pool2d.
  destruct (size x) as [| n0 [| n1 [| n2 [| n3 [| n4 rest]]]]];
    try discriminate; cbv beta zeta.
  - destruct (pool_out 2 n1 <=? 0) eqn:E1; [discriminate |].
    destruct (pool_out 2 n2 <=? 0) eqn:E2; [discriminate |].
    cbn [orb]. intros E. injection E as <-. right.
    exists n0, n1, n2. split; reflexivity.
  - destruct (pool_out 2 n2 <=? 0) eqn:E1; [discriminate |].
    destruct (pool_out 2 n3 <=? 0) eqn:E2; [discriminate |].
    cbn [orb]. intros E. injection E as <-. left.
    apply Z.leb_gt in E1, E2.
    apply pool_out_2_pos in E1 as [G1 ->]. apply pool_out_2_pos in E2 as [G2 ->].
    exists n0, n1, n2, n3. repeat split; assumption.
Qed.

Lemma Down_forward_steps d x y d' :
  Down.forward x d = (Ok y, d') ->
  exists p dc, max_pool2d 2 x = Ok p
    /\ DoubleConv.forward p (Down.maxpool_conv_1 d) = (Ok y, dc)
    /\ d' = Down.mk dc.
Proof.
  unfold Down.forward. intros E.
  apply bind_inv in E as (p & s0 & E0 & E).
  apply lift_inv in E0 as [E0 ->].
  apply zoom_inv in E as (dc & E & ->).
  exists p, dc. repeat split; assumption || reflexivity.
Qed.

Lemma AvgDown_forward_steps d x y d' :
  AvgDown.forward x d = (Ok y, d') ->
  exists p dc, avg_pool2d 2 x = Ok p
    /\ DoubleConv.forward p (AvgDown.avgpool_conv_1 d) = (Ok y, dc)
    /\ d' = AvgDown.mk dc.
Proof.
  unfold AvgDown.forward. intros E.
  apply bind_inv in E as (p & s0 & E0 & E).
  apply lift_inv in E0 as [E0 ->].
  apply zoom_inv in E as (dc & E & ->).
  exists p, dc. repeat split; assumption || reflexivity.
Qed.

(** A pooled tensor accepted by a [DoubleConv] came from a 4-D input. *)
Lemma pooled_block_inv f x p dc y dc' cin cout :
  pool2d f 2 x = Ok p ->
  DoubleConv_has cin cout cout dc ->
  DoubleConv.forward p dc = (Ok y, dc') ->
  exists B H W,
    size x = [B; cin; H; W] /\ 2 <= H /\ 2 <= W
    /\ size y = [B; cout; H / 2; W / 2]
    /\ (DoubleConv.training dc = true -> B * (H / 2) * (W / 2) <> 1).
Proof.
  intros Ep Hd E.
  destruct (DoubleConv_forward_inv _ _ _ _ _ _ _ Hd E)
    as (B & h & w & Sp & _ & _ & Sy & Ht).
  apply pool2d_inv in Ep as [(B' & C & H & W & Sx & Hh & Hw & ->) | (? & ? & ? & _ & L)];
    [| rewrite Sp in L; discriminate L].
  cbn [size] in Sp. injection Sp as -> -> <- <-.
  exists B, H, W. repeat split; assumption.
Qed.

Lemma Down_forward_inv d x y d' cin cout :
  Down_has cin cout d -> Down.forward x d = (Ok y, d') ->
  exists B H W,
    size x = [B; cin; H; W] /\ 2 <= H /\ 2 <= W
    /\ size y = [B; cout; H / 2; W / 2]
    /\ (DoubleConv.training (Down.maxpool_conv_1 d) = true ->
        B * (H / 2) * (W / 2) <> 1).
Proof.
  intros Hd E. destruct (Down_forward_steps _ _ _ _ E) as (p & dc & Ep & Ed & _).
  exact (pooled_block_inv _ _ _ _ _ _ _ _ Ep Hd Ed).
Qed.

Lemma avg_pool2d_inv k x p :
  avg_pool2d k x = Ok p -> pool2d (op_avg_pool2d k) k x = Ok p.
Proof.
  unfold avg_pool2d. destruct (size x) as [| n0 [| n1 [| n2 rest]]];
    try discriminate. auto.
Qed.

Lemma AvgDown_forward_inv d x y d' cin cout :
  AvgDown_has cin cout d -> AvgDown.forward x d = (Ok y, d') ->
  exists B H W,
    size x = [B; cin; H; W] /\ 2 <= H /\ 2 <= W
    /\ size y = [B; cout; H / 2; W / 2]
    /\ (DoubleConv.training (AvgDown.avgpool_conv_1 d) = true ->
        B * (H / 2) * (W / 2) <> 1).
Proof.
  intros Hd E. destruct (AvgDown_forward_steps _ _ _ _ E) as (p & dc & Ep & Ed & _).
  apply avg_pool2d_inv in Ep.
  exact (pooled_block_inv _ _ _ _ _ _ _ _ Ep Hd Ed).
Qed.

Lemma list_Z_eqb_eq a b : list_Z_eqb a b = true -> a = b.
Proof. unfold list_Z_eqb. destruct (list_eq_dec Z.eq_dec a b); [auto | discriminate]. Qed.

Lemma cat_dim1_inv a b c :
  cat_dim1 a b = Ok c ->
  exists n ca cb rest,
    size a = n :: ca :: rest /\ size b = n :: cb :: rest
    /\ size c = n :: ca + cb :: rest.
Proof.
  unfold cat_dim1.
  destruct (size a) as [| n [| ca ra]]; try discriminate;
    destruct (size b) as [| n' [| cb rb]]; try discriminate.
  destruct (Z.eqb_spec n n') as [<- | Hne]; [| discriminate].
  destruct (list_Z_eqb ra rb) eqn:El; [| discriminate].
  apply list_Z_eqb_eq in El as <-. cbn [andb]. intros E. injection E as <-.
  exists n, ca, cb, ra. repeat split; reflexivity.
Qed.

Lemma pad_rev_nil rsz : pad_rev rsz [] = Ok rsz.
Proof. destruct rsz; reflexivity. Qed.

(** Padding the last two dimensions keeps the rank and the leading ones. *)
Lemma F_pad_inv x l r t b p B C H W :
  F_pad x [l; r; t; b] = Ok p -> size p = [B; C; H; W] ->
  exists h w, size x = [B; C; h; w] /\ H = h + t + b /\ W = w + l + r.
Proof.
  unfold F_pad. intros E Sp.
  assert (Ex : size x = rev (rev (size x))) by (symmetry; apply rev_involutive).
  destruct (rev (size x)) as [| w [| h rest]]; cbn [pad_rev rbind] in E;
    try discriminate.
  - destruct (w + l + r <? 0); discriminate.
  - destruct (w + l + r <? 0); [discriminate |].
    destruct (h + t + b <? 0); [discriminate |].
    cbn [pad_rev rbind] in E. rewrite pad_rev_nil in E. cbn [rbind] in E.
    injection E as <-. cbn [size] in Sp.
    apply (f_equal (@rev Z)) in Sp.
    rewrite !rev_app_distr, rev_involutive in Sp.
    cbn [rev app] in Sp. injection Sp as EW EH ->.
    cbn [rev app] in Ex.
    exists h, w. repeat split; [exact Ex | lia | lia].
Qed.

Lemma up_forward_inv ul x1 u1 ul' cin bilinear :
  up_layer_has cin bilinear ul ->
  Up.up_forward x1 ul = (Ok u1, ul') ->
  List.length (size u1) = 4%nat ->
  ul' = ul
  /\ exists B c1 H1 W1,
       size x1 = [B; c1; H1; W1]
       /\ (bilinear = false -> c1 = cin)
       /\ size u1 = [B; up_channels cin c1 bilinear; 2 * H1; 2 * W1].
Proof.
  intros Hu E L. destruct ul as [s ac | c]; cbn [up_layer_has] in Hu.
  - destruct Hu as (-> & -> & ->). unfold Up.up_forward, upsample_bilinear in E.
    destruct (size x1) as [| n0 [| n1 [| n2 [| n3 [| n4 rest]]]]];
      try discriminate.
    destruct ((n2 <=? 0) || (n3 <=? 0))%bool; [discriminate |].
    injection E as <- <-. split; [reflexivity |].
    exists n0, n1, n2, n3. split; [reflexivity |].
    split; [intros Hc; discriminate Hc |].
    cbn [size up_channels]. apply size4_eq; lia.
  - destruct Hu as (-> & Ei & Eo & Ek & Es).
    unfold Up.up_forward, ConvTranspose2d.forward, conv_transpose2d in E.
    rewrite Ei, Eo, Ek, Es in E.
    destruct (size x1) as [| n0 [| n1 [| n2 [| n3 [| n4 rest]]]]];
      try discriminate; cbv beta zeta in E;
      (destruct ((cin <? 1) || (cin / 2 <? 1))%bool; [discriminate |]).
    + destruct (negb (n0 =? cin)); [discriminate |].
      injection E as <- <-. discriminate L.
    + destruct (Z.eqb_spec n1 cin) as [-> | Hne]; [| discriminate].
      cbn [negb] in E. injection E as <- <-. split; [reflexivity |].
      exists n0, cin, n2, n3. split; [reflexivity |].
      split; [reflexivity |].
      cbn [size app up_channels]. apply size4_eq; lia.
Qed.

(** The steps of an [Up.forward] that returns. *)
Lemma Up_forward_run u x1 x2 y u' :
  Up.forward x1 x2 u = (Ok y, u') ->
  exists u1 ul h2 h1 w2 w1 padded catted dc,
    Up.up_forward x1 (Up.up u) = (Ok u1, ul)
    /\ size_at x2 2 = Ok h2 /\ size_at u1 2 = Ok h1
    /\ size_at x2 3 = Ok w2 /\ size_at u1 3 = Ok w1
    /\ F_pad u1 [(w2 - w1) / 2; (w2 - w1) - (w2 - w1) / 2;
                 (h2 - h1) / 2; (h2 - h1) - (h2 - h1) / 2] = Ok padded
    /\ cat_dim1 x2 padded = Ok catted
    /\ DoubleConv.forward catted (Up.conv u) = (Ok y, dc)
    /\ u' = Up.mk ul dc.
Proof.
  unfold Up.forward. intros E.
  apply bind_inv in E as (u1 & s0 & E0 & E).
  apply zoom_inv in E0 as (ul & E0 & ->).
  apply bind_inv in E as (h2 & s1 & E1 & E). apply lift_inv in E1 as [E1 ->].
  apply bind_inv in E as (h1 & s1 & E2 & E). apply lift_inv in E2 as [E2 ->].
  apply bind_inv in E as (w2 & s1 & E3 & E). apply lift_inv in E3 as [E3 ->].
  apply bind_inv in E as (w1 & s1 & E4 & E). apply lift_inv in E4 as [E4 ->].
  apply bind_inv in E as (padded & s1 & E5 & E). apply lift_inv in E5 as [E5 ->].
  apply bind_inv in E as (catted & s1 & E6 & E). apply lift_inv in E6 as [E6 ->].
  apply zoom_inv in E as (dc & E & ->).
  exists u1, ul, h2, h1, w2, w1, padded, catted, dc.
  destruct u as [ul0 dc0]. cbn [Up.up Up.conv Up.set_up Up.set_conv] in *.
  repeat split; assumption || reflexivity.
Qed.

Lemma Up_forward_inv u x1 x2 y u' cin cout bilinear :
  Up_has cin cout bilinear u ->
  Up.forward x1 x2 u = (Ok y, u') ->
  exists B c1 c2 H1 W1 H2 W2,
    size x1 = [B; c1; H1; W1] /\ size x2 = [B; c2; H2; W2]
    /\ (bilinear = false -> c1 = cin)
    /\ c2 + up_channels cin c1 bilinear = cin
    /\ 1 <= H2 /\ 1 <= W2
    /\ size y = [B; cout; H2; W2]
    /\ (DoubleConv.training (Up.conv u) = true -> B * H2 * W2 <> 1).
Proof.
  intros [Hul Hdc] E.
  destruct (Up_forward_run _ _ _ _ _ E)
    as (u1 & ul & h2 & h1 & w2 & w1 & padded & catted & dc
        & E0 & _ & _ & _ & _ & Ep & Ec & Ed & _).
  destruct (DoubleConv_forward_inv _ _ _ _ _ _ _ Hdc Ed)
    as (B & H & W & Sc & Hh & Hw & Sy & Ht).
  destruct (cat_dim1_inv _ _ _ Ec) as (n & ca & cb & rest & Sx2 & Spad & Scat).
  rewrite Sc in Scat. injection Scat as <- Ecin <-.
  destruct (F_pad_inv _ _ _ _ _ _ _ _ _ _ Ep Spad) as (h & w & Su1 & _ & _).
  destruct (up_forward_inv _ _ _ _ _ _ Hul E0) as (_ & B' & c1 & H1 & W1 & Sx1 & Hc1 & Su1');
    [rewrite Su1; reflexivity |].
  rewrite Su1 in Su1'. injection Su1' as <- -> _ _.
  exists B, c1, ca, H1, W1, H, W.
  repeat split; try assumption. symmetry. exact Ecin.
Qed.

Lemma OutConv_forward_run o x y o' :
  OutConv.forward x o = (Ok y, o') ->
  o' = o
  /\ exists y0, conv2d (Conv2d.in_channels (OutConv.out_conv_0 o))
                  (Conv2d.out_channels (OutConv.out_conv_0 o))
                  (Conv2d.kernel_size (OutConv.out_conv_0 o))
                  (Conv2d.padding (OutConv.out_conv_0 o))
                  (Conv2d.weight (OutConv.out_conv_0 o))
                  (Conv2d.bias (OutConv.out_conv_0 o)) x = Ok y0
                /\ y = tanh y0.
Proof.
  unfold OutConv.forward. intros E.
  apply bind_inv in E as (y0 & s0 & E0 & E).
  apply zoom_inv in E0 as (c & E0 & ->).
  apply ret_inv in E as [-> ->].
  apply Conv2d_forward_inv in E0 as [-> E0].
  split; [destruct o; reflexivity |].
  exists y0. split; [exact E0 | reflexivity].
Qed.

(** The steps of a [UNet.forward] that returns. *)
Lemma UNet_forward_run net x y net' :
  UNet.forward x net = (Ok y, net') ->
  exists x1 i' x2 d1 x3 d2 x4 d3 x5 d4 y1 u1 y2 u2 y3 u3 y4 u4 o',
    DoubleConv.forward x (UNet.inc net) = (Ok x1, i')
    /\ Down.forward x1 (UNet.down1 net) = (Ok x2, d1)
    /\ Down.forward x2 (UNet.down2 net) = (Ok x3, d2)
    /\ Down.forward x3 (UNet.down3 net) = (Ok x4, d3)
    /\ Down.forward x4 (UNet.down4 net) = (Ok x5, d4)
    /\ Up.forward x5 x4 (UNet.up1 net) = (Ok y1, u1)
    /\ Up.forward y1 x3 (UNet.up2 net) = (Ok y2, u2)
    /\ Up.forward y2 x2 (UNet.up3 net) = (Ok y3, u3)
    /\ Up.forward y3 x1 (UNet.up4 net) = (Ok y4, u4)
    /\ OutConv.forward y4 (UNet.outc net) = (Ok y, o')
    /\ net' = UNet.mk (UNet.n_channels net) (UNet.n_classes net) (UNet.bilinear net)
                      i' d1 d2 d3 d4 u1 u2 u3 u4 o'.
Proof.
  unfold UNet.forward. intros E. destruct net as [nc ncl bl i a1 a2 a3 a4 b1 b2 b3 b4 o].
  apply bind_inv in E as (x1 & s & E1 & E). apply zoom_inv in E1 as (i' & E1 & ->).
  apply bind_inv in E as (x2 & s & E2 & E). apply zoom_inv in E2 as (d1 & E2 & ->).
  apply bind_inv in E as (x3 & s & E3 & E). apply zoom_inv in E3 as (d2 & E3 & ->).
  apply bind_inv in E as (x4 & s & E4 & E). apply zoom_inv in E4 as (d3 & E4 & ->).
  apply bind_inv in E as (x5 & s & E5 & E). apply zoom_inv in E5 as (d4 & E5 & ->).
  apply bind_inv in E as (y1 & s & F1 & E). apply zoom_inv in F1 as (u1 & F1 & ->).
  apply bind_inv in E as (y2 & s & F2 & E). apply zoom_inv in F2 as (u2 & F2 & ->).
  apply bind_inv in E as (y3 & s & F3 & E). apply zoom_inv in F3 as (u3 & F3 & ->).
  apply bind_inv in E as (y4 & s & F4 & E). apply zoom_inv in F4 as (u4 & F4 & ->).
  apply bind_inv in E as (l & s & G & E). apply zoom_inv in G as (o' & G & ->).
  apply ret_inv in E as [-> ->].
  exists x1, i', x2, d1, x3, d2, x4, d3, x5, d4, y1, u1, y2, u2, y3, u3, y4, u4, o'.
  repeat split; assumption || reflexivity.
Qed.

Lemma UNet_forward_inv net x y net' n_channels n_classes bilinear :
  UNet_has n_channels n_classes bilinear net ->
  UNet.forward x net = (Ok y, net') ->
  exists B H W,
    size x = [B; n_channels; H; W] /\ 16 <= H /\ 16 <= W
    /\ size y = [B; n_classes; H; W]
    /\ (UNet_bottleneck_training net = true -> B * (H / 16) * (W / 16) <> 1).
Proof.
  intros (Hinc & Hd1 & Hd2 & Hd3 & Hd4 & Hu1 & Hu2 & Hu3 & Hu4 & Hout) E.
  destruct (UNet_forward_run _ _ _ _ E)
    as (x1 & i' & x2 & d1 & x3 & d2 & x4 & d3 & x5 & d4 & y1 & u1 & y2 & u2
        & y3 & u3 & y4 & u4 & o' & E1 & E2 & E3 & E4 & E5 & F1 & F2 & F3 & F4 & G & _).
  destruct (DoubleConv_forward_inv _ _ _ _ _ _ _ Hinc E1)
    as (B & H & W & Sx & _ & _ & S1 & _).
  destruct (Down_forward_inv _ _ _ _ _ _ Hd1 E2) as (? & ? & ? & S1' & Hh1 & Hw1 & S2 & _).
  rewrite S1 in S1'. injection S1' as <- <- <-.
  destruct (Down_forward_inv _ _ _ _ _ _ Hd2 E3) as (? & ? & ? & S2' & Hh2 & Hw2 & S3 & _).
  rewrite S2 in S2'. injection S2' as <- <- <-.
  destruct (Down_forward_inv _ _ _ _ _ _ Hd3 E4) as (? & ? & ? & S3' & Hh3 & Hw3 & S4 & _).
  rewrite S3 in S3'. injection S3' as <- <- <-.
  destruct (Down_forward_inv _ _ _ _ _ _ Hd4 E5) as (? & ? & ? & S4' & Hh4 & Hw4 & S5 & Ht).
  rewrite S4 in S4'. injection S4' as <- <- <-.
  destruct (Up_forward_inv _ _ _ _ _ _ _ _ Hu1 F1)
    as (? & ? & ? & ? & ? & ? & ? & _ & T4 & _ & _ & _ & _ & R1 & _).
  rewrite S4 in T4. injection T4 as <- _ <- <-.
  destruct (Up_forward_inv _ _ _ _ _ _ _ _ Hu2 F2)
    as (? & ? & ? & ? & ? & ? & ? & _ & T3 & _ & _ & _ & _ & R2 & _).
  rewrite S3 in T3. injection T3 as <- _ <- <-.
  destruct (Up_forward_inv _ _ _ _ _ _ _ _ Hu3 F3)
    as (? & ? & ? & ? & ? & ? & ? & _ & T2 & _ & _ & _ & _ & R3 & _).
  rewrite S2 in T2. injection T2 as <- _ <- <-.
  destruct (Up_forward_inv _ _ _ _ _ _ _ _ Hu4 F4)
    as (? & ? & ? & ? & ? & ? & ? & _ & T1 & _ & _ & _ & _ & R4 & _).
  rewrite S1 in T1. injection T1 as <- _ <- <-.
  destruct (OutConv_forward_run _ _ _ _ G) as (_ & y0 & Ec & ->).
  unfold OutConv_has, Conv2d_cfg in Hout. injection Hout as I O K P.
  rewrite I, O, K, P in Ec.
  apply conv2d_inv in Ec as [(? & ? & ? & R4' & _ & _ & Sy) | (? & ? & R4' & _)];
    [| rewrite R4 in R4'; discriminate R4'].
  rewrite R4 in R4'. injection R4' as <- <- <-.
  assert (E8h : H / 2 / 2 / 2 = H / 8) by (rewrite !Z.div_div by lia; reflexivity).
  assert (E8w : W / 2 / 2 / 2 = W / 8) by (rewrite !Z.div_div by lia; reflexivity).
  rewrite E8h in Hh4. rewrite E8w in Hw4.
  exists B, H, W. split; [exact Sx |].
  split; [Z.div_mod_to_equations; lia |].
  split; [Z.div_mod_to_equations; lia |].
  split.
  - cbn [tanh size]. rewrite Sy. apply size4_eq; lia.
  - unfold UNet_bottleneck_training. intros Hb. specialize (Ht Hb).
    rewrite !div2_4 in Ht. exact Ht.
Qed.

Lemma UNet_forward_counters net x y net' :
  UNet.forward x net = (Ok y, net') -> UNet_counters net' = UNet_bumped net.
Proof.
  intros E.
  destruct (UNet_forward_run _ _ _ _ E)
    as (x1 & i' & x2 & d1 & x3 & d2 & x4 & d3 & x5 & d4 & y1 & u1 & y2 & u2
        & y3 & u3 & y4 & u4 & o' & E1 & E2 & E3 & E4 & E5 & F1 & F2 & F3 & F4 & _ & ->).
  apply DoubleConv_forward_counters in E1.
  apply Down_forward_steps in E2 as (? & ? & _ & E2 & ->).
  apply Down_forward_steps in E3 as (? & ? & _ & E3 & ->).
  apply Down_forward_steps in E4 as (? & ? & _ & E4 & ->).
  apply Down_forward_steps in E5 as (? & ? & _ & E5 & ->).
  apply DoubleConv_forward_counters in E2, E3, E4, E5.
  apply Up_forward_run in F1
    as (? & ? & ? & ? & ? & ? & ? & ? & ? & _ & _ & _ & _ & _ & _ & _ & F1 & ->).
  apply Up_forward_run in F2
    as (? & ? & ? & ? & ? & ? & ? & ? & ? & _ & _ & _ & _ & _ & _ & _ & F2 & ->).
  apply Up_forward_run in F3
    as (? & ? & ? & ? & ? & ? & ? & ? & ? & _ & _ & _ & _ & _ & _ & _ & F3 & ->).
  apply Up_forward_run in F4
    as (? & ? & ? & ? & ? & ? & ? & ? & ? & _ & _ & _ & _ & _ & _ & _ & F4 & ->).
  apply DoubleConv_forward_counters in F1, F2, F3, F4.
  unfold UNet_counters, UNet_bumped, UNet_blocks.
  cbn [flat_map UNet.inc UNet.down1 UNet.down2 UNet.down3 UNet.down4
       UNet.up1 UNet.up2 UNet.up3 UNet.up4 Down.maxpool_conv_1 Up.conv].
  rewrite E1, E2, E3, E4, E5, F1, F2, F3, F4. reflexivity.
Qed.

Lemma run_of_fst {S A} (c : M S A) (s : S) (r : result A) :
  fst (c s) = r -> c s = (r, snd (c s)).
Proof. destruct (c s) as [r0 s0]. cbn [fst snd]. intros ->. reflexivity. Qed.

(** ** What a forward pass leaves of the model *)

Lemma wrap64_succ_ne n : wrap64 (n + 1) <> n.
Proof.
  unfold wrap64. intros E.
  change (2 ^ 63) with 9223372036854775808 in E.
  change (2 ^ 64) with 18446744073709551616 in E.
  Z.div_mod_to_equations. lia.
Qed.

Lemma BatchNorm2d_forward_updated bn x y bn' :
  BatchNorm2d.forward x bn = (Ok y, bn') -> BatchNorm2d_updated bn bn'.
Proof.
  unfold BatchNorm2d.forward, BatchNorm2d_updated.
  destruct (size x) as [| n0 [| n1 [| n2 [| n3 [| n4 rest]]]]];
    try discriminate.
  destruct (BatchNorm2d.training bn).
  - destruct (n0 * n2 * n3 =? 1); [discriminate |].
    destruct (negb (n1 =? BatchNorm2d.num_features bn)); [discriminate |].
    intros E. injection E as _ <-. split.
    + exists (data x). reflexivity.
    + cbn [BatchNorm2d.num_batches_tracked]. apply wrap64_succ_ne.
  - destruct (negb (n1 =? BatchNorm2d.num_features bn)); [discriminate |].
    intros E. injection E as _ <-. reflexivity.
Qed.

Lemma DoubleConv_forward_updated d x y d' :
  DoubleConv.forward x d = (Ok y, d') ->
  Forall2 BatchNorm2d_updated (DoubleConv_norms d) (DoubleConv_norms d').
Proof.
  intros E.
  destruct (DoubleConv_forward_steps _ _ _ _ E)
    as (y0 & y1 & b1 & y3 & y4 & b4 & _ & E1 & _ & E4 & _ & ->).
  unfold DoubleConv_norms.
  cbn [DoubleConv.double_conv_1 DoubleConv.double_conv_4].
  repeat constructor;
    [exact (BatchNorm2d_forward_updated _ _ _ _ E1)
    | exact (BatchNorm2d_forward_updated _ _ _ _ E4)].
Qed.

Lemma UNet_forward_updated net x y net' :
  UNet.forward x net = (Ok y, net') ->
  Forall2 BatchNorm2d_updated (UNet_norms net) (UNet_norms net').
Proof.
  intros E.
  destruct (UNet_forward_run _ _ _ _ E)
    as (x1 & i' & x2 & d1 & x3 & d2 & x4 & d3 & x5 & d4 & y1 & u1 & y2 & u2
        & y3 & u3 & y4 & u4 & o' & E1 & E2 & E3 & E4 & E5 & F1 & F2 & F3 & F4 & _ & ->).
  apply DoubleConv_forward_updated in E1.
  apply Down_forward_steps in E2 as (? & ? & _ & E2 & ->).
  apply Down_forward_steps in E3 as (? & ? & _ & E3 & ->).
  apply Down_forward_steps in E4 as (? & ? & _ & E4 & ->).
  apply Down_forward_steps in E5 as (? & ? & _ & E5 & ->).
  apply DoubleConv_forward_updated in E2, E3, E4, E5.
  apply Up_forward_run in F1
    as (? & ? & ? & ? & ? & ? & ? & ? & ? & _ & _ & _ & _ & _ & _ & _ & F1 & ->).
  apply Up_forward_run in F2
    as (? & ? & ? & ? & ? & ? & ? & ? & ? & _ & _ & _ & _ & _ & _ & _ & F2 & ->).
  apply Up_forward_run in F3
    as (? & ? & ? & ? & ? & ? & ? & ? & ? & _ & _ & _ & _ & _ & _ & _ & F3 & ->).
  apply Up_forward_run in F4
    as (? & ? & ? & ? & ? & ? & ? & ? & ? & _ & _ & _ & _ & _ & _ & _ & F4 & ->).
  apply DoubleConv_forward_updated in F1, F2, F3, F4.
  unfold UNet_norms, UNet_blocks.
  cbn [flat_map UNet.inc UNet.down1 UNet.down2 UNet.down3 UNet.down4
       UNet.up1 UNet.up2 UNet.up3 UNet.up4 Down.maxpool_conv_1 Up.conv].
  repeat (apply Forall2_app; [assumption |]).
  constructor.
Qed.




(** ** The values of the output *)

Lemma to_R_one : Float32.to_R Float32.one = 1%R.
Proof.
  change Float32.one with (S754_finite false 8388608 (-23)).
  unfold Float32.to_R. cbv zeta iota.
  unfold powerRZ.
  change (Pos.to_nat 23) with 23%nat.
  simpl pow. lra.
Qed.

Lemma to_R_opp_one : Float32.to_R (SFopp Float32.one) = (-1)%R.
Proof.
  change (SFopp Float32.one) with (S754_finite true 8388608 (-23)).
  change (Float32.to_R (S754_finite true 8388608 (-23)))
    with (- Float32.to_R Float32.one)%R.
  rewrite to_R_one. reflexivity.
Qed.

(** The hyperbolic tangent of a real number is strictly between -1 and 1. *)
Lemma Rtanh_bounds t : (-1 < Rtrigo_def.tanh t < 1)%R.
Proof.
  unfold Rtrigo_def.tanh, sinh, cosh.
  pose proof (exp_pos t) as Hp. pose proof (exp_pos (- t)) as Hn.
  set (a := exp t) in *. set (b := exp (- t)) in *.
  assert (E : ((a - b) / 2 / ((a + b) / 2) * (a + b) = a - b)%R) by (field; lra).
  set (q := ((a - b) / 2 / ((a + b) / 2))%R) in *.
  split; nra.
Qed.

(** Rounding cannot leave the closed interval: 1 and -1 are float32. *)
Lemma rounds_to_bounds r y :
  (-1 < r < 1)%R -> rounds_to r y -> (-1 <= Float32.to_R y <= 1)%R.
Proof.
  intros [Hl Hu] (_ & _ & Hn).
  assert (V1 : Float32.valid Float32.one = true) by reflexivity.
  assert (F1 : Float32.is_finite Float32.one = true) by reflexivity.
  assert (V2 : Float32.valid (SFopp Float32.one) = true) by reflexivity.
  assert (F2 : Float32.is_finite (SFopp Float32.one) = true) by reflexivity.
  destruct (Hn _ V1 F1) as [A1 _]. destruct (Hn _ V2 F2) as [_ A2].
  rewrite to_R_one in A1. rewrite to_R_opp_one in A2.
  split.
  - destruct (Rle_lt_dec (-1) (Float32.to_R y)) as [H | H]; [exact H |].
    exfalso. apply A2. lra.
  - destruct (Rle_lt_dec (Float32.to_R y) 1) as [H | H]; [exact H |].
    exfalso. apply A1. lra.
Qed.

(** C5 (as amended).  Every tensor [OutConv.forward] returns, and so
    every tensor [UNet.forward] returns, holds the hyperbolic tangent of
    the elements of a convolution.  Such an element [y], computed in
    float32 from the pre-activation [z] (weights times input channels,
    plus bias), is NaN when [z] is NaN, exactly 1 or -1 when [z] is
    infinite, and otherwise a finite number of the closed interval
    [-1, 1]. *)
Theorem OutConv_element_range weight x bias y :
  OutConv_element weight x bias y ->
  let z := conv1x1_element weight x bias in
  (z = S754_nan -> y = S754_nan)
  /\ (z = S754_infinity false -> y = Float32.one)
  /\ (z = S754_infinity true -> y = SFopp Float32.one)
  /\ (z <> S754_nan ->
      Float32.is_finite y = true /\ (-1 <= Float32.to_R y <= 1)%R)
  /\ (forall (t r : Tensor) (o o' : OutConv.t),
        OutConv.forward t o = (Ok r, o') ->
        data r
        = App op_tanh
            [App (op_conv2d (Conv2d.padding (OutConv.out_conv_0 o)))
                 (data t :: Conv2d.parameters (OutConv.out_conv_0 o))])
  /\ (forall (t r : Tensor) (net net' : UNet.t),
        UNet.forward t net = (Ok r, net') ->
        exists pre,
          data r
          = App op_tanh
              [App (op_conv2d (Conv2d.padding (OutConv.out_conv_0 (UNet.outc net))))
                   (pre :: Conv2d.parameters (OutConv.out_conv_0 (UNet.outc net)))]).
Proof.
  intros Hy z. unfold OutConv_element in Hy. fold z in Hy.
  pose proof to_R_one as E1. pose proof to_R_opp_one as E2.
  assert (Hout : forall (t r : Tensor) (o o' : OutConv.t),
             OutConv.forward t o = (Ok r, o') ->
             data r
             = App op_tanh
                 [App (op_conv2d (Conv2d.padding (OutConv.out_conv_0 o)))
                      (data t :: Conv2d.parameters (OutConv.out_conv_0 o))]).
  { intros t r o o' E.
    destruct (OutConv_forward_run _ _ _ _ E) as (_ & y0 & Ec & ->).
    unfold conv2d in Ec.
    destruct (size t) as [| n0 [| n1 [| n2 [| n3 [| n4 rest]]]]];
      try discriminate; cbv beta zeta in Ec;
      repeat match type of Ec with
             | (if ?c then _ else _) = _ => destruct c; [discriminate |]
             end;
      injection Ec as <-; reflexivity. }
  split; [| split; [| split; [| split; [| split]]]].
  - destruct z; cbn [tanh_f32] in Hy; intros Hz; try discriminate Hz. exact Hy.
  - destruct z as [s | s | | s m e]; cbn [tanh_f32] in Hy; intros Hz;
      try discriminate Hz.
    injection Hz as ->. exact Hy.
  - destruct z as [s | s | | s m e]; cbn [tanh_f32] in Hy; intros Hz;
      try discriminate Hz.
    injection Hz as ->. exact Hy.
  - intros Hz. destruct z as [s | s | | s m e]; cbn [tanh_f32] in Hy.
    + subst y. split; [reflexivity |]. cbn [Float32.to_R]. lra.
    + subst y. destruct s; (split; [reflexivity |]); rewrite ?E1, ?E2; lra.
    + contradiction Hz. reflexivity.
    + split; [apply Hy |].
      eapply rounds_to_bounds; [apply Rtanh_bounds | exact Hy].
  - exact Hout.
  - intros t r net net' E.
    destruct (UNet_forward_run _ _ _ _ E)
      as (x1 & i' & x2 & d1 & x3 & d2 & x4 & d3 & x5 & d4 & y1 & u1 & y2 & u2
          & y3 & u3 & y4 & u4 & o' & _ & _ & _ & _ & _ & _ & _ & _ & _ & G & _).
    exists (data y4). exact (Hout _ _ _ _ G).
Qed.

(** Weight and input 2^100 in a layer of one input channel: the product
    overflows to infinity and the element is exactly 1. *)
Lemma OutConv_element_range_witness :
  let big := S754_finite false 8388608 77 in
  OutConv_element [big] [big] (S754_zero false) Float32.one
  /\ Float32.is_finite Float32.one = true
  /\ (-1 <= Float32.to_R Float32.one <= 1)%R.
Proof.
  intros big. split; [reflexivity |].
  apply (OutConv_element_range [big] [big] (S754_zero false) Float32.one);
    [reflexivity | discriminate].
Defined.

(** C5, as stated, fails: with the finite weight 2^100 and the finite
    input 2^100 in a layer of one input channel the pre-activation
    overflows to infinity, and the element is exactly 1, not below it;
    and an input element that is NaN gives the element NaN, which is in
    no interval. *)
Lemma OutConv_element_one_and_nan :
  let big := S754_finite false 8388608 77 in
  let zero := S754_zero false in
  Float32.valid big = true
  /\ Float32.is_finite big = true
  /\ conv1x1_element [big] [big] zero = S754_infinity false
  /\ OutConv_element [big] [big] zero Float32.one
  /\ (forall y, OutConv_element [big] [big] zero y -> y = Float32.one)
  /\ Float32.to_R Float32.one = 1%R
  /\ ~ strictly_inside Float32.one
  /\ conv1x1_element [Float32.one] [S754_nan] zero = S754_nan
  /\ OutConv_element [Float32.one] [S754_nan] zero S754_nan
  /\ (forall y, OutConv_element [Float32.one] [S754_nan] zero y -> y = S754_nan)
  /\ ~ strictly_inside S754_nan.
Proof.
  intros big zero.
  split; [reflexivity |]. split; [reflexivity |]. split; [reflexivity |].
  split; [reflexivity |].
  split; [intros y Hy; exact Hy |].
  split; [exact to_R_one |].
  split; [intros [_ [_ H]]; rewrite to_R_one in H; lra |].
  split; [reflexivity |]. split; [reflexivity |].
  split; [intros y Hy; exact Hy |].
  intros [H _]. discriminate H.
Qed.

(** ** Further properties of the layers *)

(** X1.  For a block of positive channel widths, on a non-empty input,
    [DoubleConv.forward] returns a tensor exactly when the input is 4-D with the configured input channels and
    no normalisation in training mode is given a single value per channel;
    the returned tensor then has the output channels and the spatial size
    of the input. *)
Theorem DoubleConv_forward_returns_iff d x cin cmid cout :
  0 < cin -> 0 < cmid -> 0 < cout ->
  DoubleConv_has cin cmid cout d -> nonempty x ->
  ((exists y, fst (DoubleConv.forward x d) = Ok y)
   <-> (exists B H W, size x = [B; cin; H; W] /\ 1 <= H /\ 1 <= W
                      /\ (DoubleConv.training d = true -> B * H * W <> 1)))
  /\ (forall y, fst (DoubleConv.forward x d) = Ok y ->
      exists B H W, size x = [B; cin; H; W] /\ size y = [B; cout; H; W]).
Proof.
  intros _ Hm Ho Hd _. split; [split |].
  - intros (y & E). apply run_of_fst in E.
    destruct (DoubleConv_forward_inv _ _ _ _ _ _ _ Hd E)
      as (B & H & W & Sx & Hh & Hw & _ & Ht).
    exists B, H, W. repeat split; assumption.
  - intros (B & H & W & Sx & Hh & Hw & Ht).
    destruct (DoubleConv_forward_ok d x cin cmid cout B H W Hd Sx
                ltac:(lia) ltac:(lia) Hh Hw Ht)
      as (y & d' & E & _).
    exists y. rewrite E. reflexivity.
  - intros y E. apply run_of_fst in E.
    destruct (DoubleConv_forward_inv _ _ _ _ _ _ _ Hd E)
      as (B & H & W & Sx & _ & _ & Sy & _).
    exists B, H, W. split; assumption.
Qed.

(** A block fresh from its constructor returns on a 2 x 3 x 5 x 7 input,
    which is therefore 4-D with three channels. *)
Lemma DoubleConv_forward_returns_iff_witness :
  exists d, fst (DoubleConv.init 3 8 None 0%N) = Ok d
    /\ exists B H W, size (mkTensor [2; 3; 5; 7] (Leaf "x")) = [B; 3; H; W]
                     /\ 1 <= H /\ 1 <= W
                     /\ (DoubleConv.training d = true -> B * H * W <> 1).
Proof.
  eexists. split; [vm_compute; reflexivity |].
  match goal with
  | |- context [DoubleConv.training ?d] =>
      destruct (DoubleConv_forward_returns_iff d (mkTensor [2; 3; 5; 7] (Leaf "x")) 3 8 8)
        as [[T _] _];
        [lia | lia | lia | repeat split; reflexivity | repeat constructor; lia | apply T]
  end.
  eexists. vm_compute. reflexivity.
Defined.

(** X2.  For a block of positive channel widths, on a non-empty input,
    [Down.forward] returns a tensor exactly when the input is 4-D with the configured input channels and at least
    two pixels each way, and the pooled map does not give a normalisation
    in training mode a single value per channel; the result then has
    (H // 2, W // 2) pixels. *)
Theorem Down_forward_returns_iff d x cin cout :
  0 < cin -> 0 < cout ->
  Down_has cin cout d -> nonempty x ->
  ((exists y, fst (Down.forward x d) = Ok y)
   <-> (exists B H W, size x = [B; cin; H; W] /\ 2 <= H /\ 2 <= W
                      /\ (DoubleConv.training (Down.maxpool_conv_1 d) = true ->
                          B * (H / 2) * (W / 2) <> 1)))
  /\ (forall y, fst (Down.forward x d) = Ok y ->
      exists B H W, size x = [B; cin; H; W] /\ size y = [B; cout; H / 2; W / 2]).
Proof.
  intros _ Ho Hd _. split; [split |].
  - intros (y & E). apply run_of_fst in E.
    destruct (Down_forward_inv _ _ _ _ _ _ Hd E) as (B & H & W & Sx & Hh & Hw & _ & Ht).
    exists B, H, W. repeat split; assumption.
  - intros (B & H & W & Sx & Hh & Hw & Ht).
    destruct (Down_forward_ok d x cin cout B H W Hd Sx ltac:(lia) Hh Hw Ht)
      as (y & d' & E & _).
    exists y. rewrite E. reflexivity.
  - intros y E. apply run_of_fst in E.
    destruct (Down_forward_inv _ _ _ _ _ _ Hd E) as (B & H & W & Sx & _ & _ & Sy & _).
    exists B, H, W. split; assumption.
Qed.

Lemma Down_forward_returns_iff_witness :
  exists d, fst (Down.init 3 8 0%N) = Ok d
    /\ exists B H W, size (mkTensor [1; 3; 5; 4] (Leaf "x")) = [B; 3; H; W]
                     /\ 2 <= H /\ 2 <= W
                     /\ (DoubleConv.training (Down.maxpool_conv_1 d) = true ->
                         B * (H / 2) * (W / 2) <> 1).
Proof.
  eexists. split; [vm_compute; reflexivity |].
  match goal with
  | |- context [Down.maxpool_conv_1 ?d] =>
      destruct (Down_forward_returns_iff d (mkTensor [1; 3; 5; 4] (Leaf "x")) 3 8)
        as [[T _] _];
        [lia | lia | repeat split; reflexivity | repeat constructor; lia | apply T]
  end.
  eexists. vm_compute. reflexivity.
Defined.

(** X3.  For a block of positive channel widths, on a non-empty input,
    [AvgDown.forward] returns under the same conditions as [Down.forward]
    and with the same sizes. *)
Theorem AvgDown_forward_returns_iff d x cin cout :
  0 < cin -> 0 < cout ->
  AvgDown_has cin cout d -> nonempty x ->
  ((exists y, fst (AvgDown.forward x d) = Ok y)
   <-> (exists B H W, size x = [B; cin; H; W] /\ 2 <= H /\ 2 <= W
                      /\ (DoubleConv.training (AvgDown.avgpool_conv_1 d) = true ->
                          B * (H / 2) * (W / 2) <> 1)))
  /\ (forall y, fst (AvgDown.forward x d) = Ok y ->
      exists B H W, size x = [B; cin; H; W] /\ size y = [B; cout; H / 2; W / 2]).
Proof.
  intros _ Ho Hd _. split; [split |].
  - intros (y & E). apply run_of_fst in E.
    destruct (AvgDown_forward_inv _ _ _ _ _ _ Hd E)
      as (B & H & W & Sx & Hh & Hw & _ & Ht).
    exists B, H, W. repeat split; assumption.
  - intros (B & H & W & Sx & Hh & Hw & Ht).
    destruct (AvgDown_forward_ok d x cin cout B H W Hd Sx ltac:(lia) Hh Hw Ht)
      as (y & d' & E & _).
    exists y. rewrite E. reflexivity.
  - intros y E. apply run_of_fst in E.
    destruct (AvgDown_forward_inv _ _ _ _ _ _ Hd E) as (B & H & W & Sx & _ & _ & Sy & _).
    exists B, H, W. split; assumption.
Qed.

Lemma AvgDown_forward_returns_iff_witness :
  exists d, fst (AvgDown.init 3 8 0%N) = Ok d
    /\ exists B H W, size (mkTensor [1; 3; 5; 4] (Leaf "x")) = [B; 3; H; W]
                     /\ 2 <= H /\ 2 <= W
                     /\ (DoubleConv.training (AvgDown.avgpool_conv_1 d) = true ->
                         B * (H / 2) * (W / 2) <> 1).
Proof.
  eexists. split; [vm_compute; reflexivity |].
  match goal with
  | |- context [AvgDown.avgpool_conv_1 ?d] =>
      destruct (AvgDown_forward_returns_iff d (mkTensor [1; 3; 5; 4] (Leaf "x")) 3 8)
        as [[T _] _];
        [lia | lia | repeat split; reflexivity | repeat constructor; lia | apply T]
  end.
  eexists. vm_compute. reflexivity.
Defined.

(** X4.  For an [Up] block of positive channel widths (at least two
    input channels with the transposed convolution) and non-empty 4-D
    [x1] and [x2] of one batch size whose channels fit the block,
    [Up.forward] returns a tensor of the spatial size of the skip tensor
    [x2] whatever the two spatial sizes are, provided no normalisation in
    training mode is given a single value per channel (B * H2 * W2 is not
    1): where the up-sampled [x1] is larger than [x2], the padding
    amounts are negative and crop it. *)
Theorem Up_forward_any_size u x1 x2 cin cout bilinear B c1 c2 H1 W1 H2 W2 :
  0 < cin -> 0 < cout -> (bilinear = false -> 2 <= cin) ->
  Up_has cin cout bilinear u ->
  size x1 = [B; c1; H1; W1] -> size x2 = [B; c2; H2; W2] ->
  (bilinear = false -> c1 = cin) ->
  c2 + up_channels cin c1 bilinear = cin ->
  1 <= B -> 1 <= c1 -> 1 <= c2 -> 1 <= H1 -> 1 <= W1 -> 1 <= H2 -> 1 <= W2 ->
  (DoubleConv.training (Up.conv u) = true -> B * H2 * W2 <> 1) ->
  let diffY := H2 - 2 * H1 in
  let diffX := W2 - 2 * W1 in
  exists up1 padded y,
    fst (Up.up_forward x1 (Up.up u)) = Ok up1
    /\ size up1 = [B; up_channels cin c1 bilinear; 2 * H1; 2 * W1]
    /\ F_pad up1 [diffX / 2; diffX - diffX / 2; diffY / 2; diffY - diffY / 2]
       = Ok padded
    /\ size padded = [B; up_channels cin c1 bilinear; H2; W2]
    /\ (H2 < 2 * H1 -> diffY / 2 < 0 /\ diffY - diffY / 2 <= 0)
    /\ (W2 < 2 * W1 -> diffX / 2 < 0 /\ diffX - diffX / 2 <= 0)
    /\ fst (Up.forward x1 x2 u) = Ok y /\ size y = [B; cout; H2; W2].
Proof.
  intros Hci Hco Hc2 Hu Hx1 Hx2 Hc1 Hsum _ _ _ Hh1 Hw1 Hh2 Hw2 Ht diffY diffX.
  destruct (up_forward_ok _ x1 _ _ _ _ _ _ (proj1 Hu) Hx1 Hc1 Hc2 Hh1 Hw1)
    as (up1 & E1 & S1 & _).
  destruct (Up_forward_ok u x1 x2 cin cout bilinear B c1 c2 H1 W1 H2 W2
              Hu Hx1 Hx2 ltac:(lia) ltac:(lia) Hc2 Hc1 Hsum Hh1 Hw1 Hh2 Hw2 Ht)
    as (y & u' & E & Sy).
  eexists up1, _, y. rewrite E1, E.
  split; [reflexivity |]. split; [exact S1 |].
  split; [apply F_pad_4d; [exact S1 | subst diffY; lia | subst diffX; lia] |].
  split; [cbn [size]; subst diffY diffX; apply size4_eq; lia |].
  split; [intros Hlt; subst diffY; split; Z.div_mod_to_equations; lia |].
  split; [intros Hlt; subst diffX; split; Z.div_mod_to_equations; lia |].
  split; [reflexivity | exact Sy].
Qed.

(** A 4 x 4 map is up-sampled to 8 x 8 and cropped to the 5 x 3 skip map. *)
Lemma Up_forward_any_size_witness :
  exists u, fst (Up.init 128 64 true 0%N) = Ok u
    /\ exists y, fst (Up.forward (mkTensor [2; 64; 4; 4] (Leaf "x"))
                                 (mkTensor [2; 64; 5; 3] (Leaf "skip")) u) = Ok y
                 /\ size y = [2; 64; 5; 3].
Proof.
  eexists. split; [vm_compute; reflexivity |].
  match goal with
  | |- context [Up.forward _ _ ?u] =>
      destruct (Up_forward_any_size u (mkTensor [2; 64; 4; 4] (Leaf "x"))
                  (mkTensor [2; 64; 5; 3] (Leaf "skip")) 128 64 true 2 64 64 4 4 5 3)
        as (up1 & padded & y & _ & _ & _ & _ & _ & _ & Ey & Sy);
        [ lia | lia | intros Hc; discriminate Hc
        | repeat split; reflexivity | reflexivity | reflexivity
        | intros Hc; discriminate Hc | reflexivity
        | lia | lia | lia | lia | lia | lia | lia
        | intros _; vm_compute; discriminate
        | exists y; split; [exact Ey | exact Sy] ]
  end.
Defined.

(** X5.  Whenever [Up.forward] returns on non-empty inputs, both were 4-D
    with the same batch size, their channels added up (after up-sampling)
    to the configured input channels, and the result has the output
    channels and exactly the spatial size of the skip tensor [x2]. *)
Theorem Up_forward_returns_only u x1 x2 y cin cout bilinear :
  Up_has cin cout bilinear u -> nonempty x1 -> nonempty x2 ->
  fst (Up.forward x1 x2 u) = Ok y ->
  exists B c1 c2 H1 W1 H2 W2,
    size x1 = [B; c1; H1; W1] /\ size x2 = [B; c2; H2; W2]
    /\ (bilinear = false -> c1 = cin)
    /\ c2 + up_channels cin c1 bilinear = cin
    /\ 1 <= H2 /\ 1 <= W2
    /\ size y = [B; cout; H2; W2]
    /\ (DoubleConv.training (Up.conv u) = true -> B * H2 * W2 <> 1).
Proof.
  intros Hu _ _ E. apply run_of_fst in E.
  exact (Up_forward_inv _ _ _ _ _ _ _ _ Hu E).
Qed.

Lemma Up_forward_returns_only_witness :
  exists u, fst (Up.init 1024 512 false 0%N) = Ok u
    /\ exists y, fst (Up.forward (mkTensor [1; 1024; 3; 3] (Leaf "x5"))
                                 (mkTensor [1; 512; 7; 6] (Leaf "x4")) u) = Ok y
                 /\ size y = [1; 512; 7; 6].
Proof.
  eexists. split; [vm_compute; reflexivity |].
  match goal with
  | |- exists y, fst (Up.forward ?a ?b ?u) = Ok y /\ _ =>
      assert (E : exists y, fst (Up.forward a b u) = Ok y)
        by (eexists; vm_compute; reflexivity);
      destruct E as [y E]; exists y; split; [exact E |];
      destruct (Up_forward_returns_only u a b y 1024 512 false)
        as (B & c1 & c2 & H1 & W1 & H2 & W2 & _ & S2 & _ & _ & _ & _ & Sy & _);
      [ repeat split; reflexivity | repeat constructor; lia | repeat constructor; lia | exact E | ]
  end.
  cbn [size] in S2. injection S2 as <- _ <- <-. exact Sy.
Defined.

(** X6.  For an [Up] block of positive input width (at least two input
    channels with the transposed convolution) and a non-empty 4-D [x1]
    that its up-sampling layer accepts, a skip tensor [x2] of fewer than
    four dimensions makes [Up.forward] raise [IndexError] at
    [x2.size()[2]] or [x2.size()[3]], after [x1] has been up-sampled: the
    failure is Python's, not a shape error of the runtime. *)
Theorem Up_forward_low_rank_skip u x1 x2 cin cout bilinear B c1 H1 W1 :
  0 < cin -> (bilinear = false -> 2 <= cin) ->
  Up_has cin cout bilinear u ->
  size x1 = [B; c1; H1; W1] -> (bilinear = false -> c1 = cin) ->
  1 <= B -> 1 <= c1 -> 1 <= H1 -> 1 <= W1 ->
  (List.length (size x2) < 4)%nat ->
  fst (Up.forward x1 x2 u) = Err (IndexError "tuple index out of range").
Proof.
  intros _ Hc2 [Hul _] Hx1 Hc1 _ _ Hh1 Hw1 L.
  destruct (up_forward_ok _ x1 _ _ _ _ _ _ Hul Hx1 Hc1 Hc2 Hh1 Hw1)
    as (y1 & E1 & S1 & _).
  unfold Up.forward.
  erewrite bind_ok by (eapply zoom_ok; exact E1).
  unfold size_at. rewrite S1.
  destruct (size x2) as [| n0 [| n1 [| n2 [| n3 rest]]]]; cbn [nth_error];
    try reflexivity.
  cbn [List.length] in L. lia.
Qed.

Lemma Up_forward_low_rank_skip_witness :
  exists u, fst (Up.init 128 64 true 0%N) = Ok u
    /\ fst (Up.forward (mkTensor [1; 64; 4; 4] (Leaf "x"))
                       (mkTensor [64; 8; 8] (Leaf "skip")) u)
       = Err (IndexError "tuple index out of range").
Proof.
  eexists. split; [vm_compute; reflexivity |].
  match goal with
  | |- fst (Up.forward ?a ?b ?u) = _ =>
      apply (Up_forward_low_rank_skip u a b 128 64 true 1 64 4 4)
  end;
    [ lia | intros Hc; discriminate Hc
    | repeat split; reflexivity | reflexivity | intros Hc; discriminate Hc
    | lia | lia | lia | lia | cbn; lia ].
Defined.

(** X7.  For a layer of positive channel widths, on non-empty inputs:
    [OutConv.forward] never changes the layer.
    On a batched input with the configured channels it returns the
    hyperbolic tangent of the 1 x 1 convolution, with the output channels
    and the size of the input; having no normalisation, it also accepts an
    unbatched (C, H, W) image; on any other input it raises. *)
Theorem OutConv_forward_contract o x cin cout :
  0 < cin -> 0 < cout ->
  OutConv_has cin cout o -> nonempty x ->
  snd (OutConv.forward x o) = o
  /\ (forall B H W, size x = [B; cin; H; W] -> 1 <= H -> 1 <= W ->
      fst (OutConv.forward x o)
      = Ok (mkTensor [B; cout; H; W]
              (App op_tanh
                 [App (op_conv2d 0)
                      (data x :: Conv2d.parameters (OutConv.out_conv_0 o))])))
  /\ (forall H W, size x = [cin; H; W] -> 1 <= H -> 1 <= W ->
      exists y, fst (OutConv.forward x o) = Ok y /\ size y = [cout; H; W])
  /\ (forall y, fst (OutConv.forward x o) = Ok y ->
      (exists B H W, size x = [B; cin; H; W] /\ 1 <= H /\ 1 <= W
                     /\ size y = [B; cout; H; W])
      \/ (exists H W, size x = [cin; H; W] /\ 1 <= H /\ 1 <= W
                      /\ size y = [cout; H; W])).
Proof.
  intros _ Hco Ho _. unfold OutConv_has, Conv2d_cfg in Ho. injection Ho as I O K P.
  assert (Eco : (cout <? 1) = false) by (apply Z.ltb_ge; lia).
  split; [| split; [| split]].
  - unfold OutConv.forward, bind, zoom, Conv2d.forward.
    destruct o as [c]. cbn [OutConv.out_conv_0 OutConv.set_0].
    destruct (conv2d _ _ _ _ _ _ x); reflexivity.
  - intros B H W Sx Hh Hw.
    unfold OutConv.forward, bind, zoom, Conv2d.forward, conv2d, Conv2d.parameters.
    rewrite Sx, I, O, K, P, Z.eqb_refl, Eco.
    replace (H + 2 * 0 <? 1) with false by (symmetry; apply Z.ltb_ge; lia).
    replace (W + 2 * 0 <? 1) with false by (symmetry; apply Z.ltb_ge; lia).
    cbn [negb orb fst ret]. unfold tanh. cbn [size data app]. f_equal. f_equal.
    apply size4_eq; lia.
  - intros H W Sx Hh Hw.
    unfold OutConv.forward, bind, zoom, Conv2d.forward, conv2d.
    rewrite Sx, I, O, K, P, Z.eqb_refl, Eco.
    replace (H + 2 * 0 <? 1) with false by (symmetry; apply Z.ltb_ge; lia).
    replace (W + 2 * 0 <? 1) with false by (symmetry; apply Z.ltb_ge; lia).
    cbn [negb orb fst ret]. unfold tanh. cbn [size data app].
    eexists. split; [reflexivity |].
    cbn [size]. f_equal. f_equal; [lia |]. f_equal. lia.
  - intros y E. apply run_of_fst in E.
    destruct (OutConv_forward_run _ _ _ _ E) as (_ & y0 & Ec & ->).
    rewrite I, O, K, P in Ec.
    apply conv2d_inv in Ec as [(B & H & W & Sx & Hh & Hw & Sy) | (H & W & Sx & Hh & Hw & Sy)].
    + left. exists B, H, W. repeat split; try assumption; try lia.
      cbn [tanh size]. rewrite Sy. apply size4_eq; lia.
    + right. exists H, W. repeat split; try assumption; try lia.
      cbn [tanh size]. rewrite Sy. f_equal. f_equal; [lia |]. f_equal. lia.
Qed.

Lemma OutConv_forward_contract_witness :
  exists o, fst (OutConv.init 64 2 0%N) = Ok o
    /\ fst (OutConv.forward (mkTensor [3; 64; 5; 7] (Leaf "x")) o)
       = Ok (mkTensor [3; 2; 5; 7]
               (App op_tanh [App (op_conv2d 0) [Leaf "x"; Rand 0; Rand 1]])).
Proof.
  eexists. split; [vm_compute; reflexivity |].
  match goal with
  | |- fst (OutConv.forward ?x ?o) = _ =>
      destruct (OutConv_forward_contract o x 64 2) as (_ & T & _);
        [ lia | lia | reflexivity | repeat constructor; lia
        | apply (T 3 5 7); [reflexivity | lia | lia] ]
  end.
Defined.

(** ** Further properties of the whole model *)

(** X8.  On a non-empty input, [UNet.forward] returns a tensor only if the
    input is 4-D with [n_channels] channels and at least 16 pixels each
    way, and the bottleneck is not asked to normalise a single value per
    channel in training mode; the tensor it returns has shape
    (B, n_classes, H, W).  On every other non-empty input it raises. *)
Theorem UNet_forward_returns_only net x y n_channels n_classes bilinear :
  UNet_has n_channels n_classes bilinear net -> nonempty x ->
  fst (UNet.forward x net) = Ok y ->
  exists B H W,
    size x = [B; n_channels; H; W] /\ 16 <= H /\ 16 <= W
    /\ size y = [B; n_classes; H; W]
    /\ (UNet_bottleneck_training net = true -> B * (H / 16) * (W / 16) <> 1).
Proof.
  intros Hnet _ E. apply run_of_fst in E.
  exact (UNet_forward_inv _ _ _ _ _ _ _ Hnet E).
Qed.

Lemma UNet_forward_returns_only_witness :
  exists net, fst (UNet.init 3 2 true 0%N) = Ok net
    /\ exists y, fst (UNet.forward (mkTensor [2; 3; 17; 40] (Leaf "x")) net) = Ok y
                 /\ size y = [2; 2; 17; 40].
Proof.
  eexists. split; [vm_compute; reflexivity |].
  match goal with
  | |- exists y, fst (UNet.forward ?a ?net) = Ok y /\ _ =>
      assert (E : exists y, fst (UNet.forward a net) = Ok y)
        by (eexists; vm_compute; reflexivity);
      destruct E as [y E]; exists y; split; [exact E |];
      destruct (UNet_forward_returns_only net a y 3 2 true)
        as (B & H & W & Sx & _ & _ & Sy & _);
      [ repeat split; reflexivity | repeat constructor; lia | exact E | ]
  end.
  cbn [size] in Sx. injection Sx as <- <- <-. exact Sy.
Defined.

Lemma BatchNorm2d_forward_single_value bn x B C H W :
  size x = [B; C; H; W] -> BatchNorm2d.training bn = true -> B * H * W = 1 ->
  exists bn',
    BatchNorm2d.forward x bn
    = (Err (ValueError "Expected more than 1 value per channel when training"), bn').
Proof.
  intros Sx Ht Hp. unfold BatchNorm2d.forward. rewrite Sx, Ht, Hp.
  cbn [Z.eqb Pos.eqb]. eexists. reflexivity.
Qed.

Lemma DoubleConv_forward_single_value d x cin cmid cout B H W :
  DoubleConv_has cin cmid cout d -> 1 <= cmid -> 1 <= cout ->
  size x = [B; cin; H; W] ->
  1 <= H -> 1 <= W -> B * H * W = 1 -> DoubleConv.training d = true ->
  exists d',
    DoubleConv.forward x d
    = (Err (ValueError "Expected more than 1 value per channel when training"), d').
Proof.
  intros (H0 & H1 & H3 & H4) Hm Ho Hx Hh Hw Hp Ht.
  edestruct Conv2d_forward_ok as (y0 & E0 & S0);
    [exact H0 | exact Hx | exact Hm | lia | lia |].
  replace (H + 2 * 1 - 3 + 1) with H in S0 by lia.
  replace (W + 2 * 1 - 3 + 1) with W in S0 by lia.
  unfold DoubleConv.forward.
  erewrite bind_ok by (eapply zoom_ok; exact E0).
  destruct (BatchNorm2d.training (DoubleConv.double_conv_1 d)) eqn:T1.
  - destruct (BatchNorm2d_forward_single_value _ _ _ _ _ _ S0 T1 Hp) as (b1 & E1).
    erewrite bind_err by (eapply zoom_ok; exact E1). eexists. reflexivity.
  - edestruct BatchNorm2d_forward_ok as (y1 & b1 & E1 & S1);
      [exact S0 | exact H1 | rewrite T1; discriminate |].
    erewrite bind_ok by (eapply zoom_ok; exact E1).
    erewrite bind_ok by reflexivity.
    edestruct Conv2d_forward_ok with (x := relu y1) as (y3 & E3 & S3);
      [exact H3 | exact S1 | exact Ho | lia | lia |].
    replace (H + 2 * 1 - 3 + 1) with H in S3 by lia.
    replace (W + 2 * 1 - 3 + 1) with W in S3 by lia.
    erewrite bind_ok by (eapply zoom_ok; simpl; exact E3).
    unfold DoubleConv.training in Ht. rewrite T1 in Ht. cbn [orb] in Ht.
    destruct (BatchNorm2d_forward_single_value _ _ _ _ _ _ S3 Ht Hp) as (b4 & E4).
    erewrite bind_err by (eapply zoom_ok; simpl; exact E4). eexists. reflexivity.
Qed.

Lemma Down_forward_single_value d x cin cout B H W :
  Down_has cin cout d -> 1 <= cout ->
  size x = [B; cin; H; W] -> 2 <= H -> 2 <= W ->
  B * (H / 2) * (W / 2) = 1 ->
  DoubleConv.training (Down.maxpool_conv_1 d) = true ->
  exists d',
    Down.forward x d
    = (Err (ValueError "Expected more than 1 value per channel when training"), d').
Proof.
  intros Hd Ho Hx Hh Hw Hp Ht. unfold Down.forward, max_pool2d.
  rewrite (pool2d_4d _ _ _ _ _ _ Hx Hh Hw).
  erewrite bind_ok by apply lift_run.
  edestruct DoubleConv_forward_single_value
    with (x := mkTensor [B; cin; H / 2; W / 2] (App (op_max_pool2d 2) [data x]))
    as (d' & E); [exact Hd | exact Ho | exact Ho | reflexivity | | | exact Hp | exact Ht |].
  1, 2: apply div2_ge; lia.
  erewrite zoom_ok by exact E. eexists. reflexivity.
Qed.

(** X9.  When the bottleneck is in training mode and the input leaves it one
    value per channel (B * (H // 16) * (W // 16) = 1), [UNet.forward]
    raises the [ValueError] of the normalisation, and the failed call is
    not undone: the batch counters of the stem have already advanced. *)
Theorem UNet_forward_single_value_raises net x n_channels n_classes bilinear B H W :
  UNet_has n_channels n_classes bilinear net ->
  size x = [B; n_channels; H; W] ->
  1 <= B -> 16 <= H -> 16 <= W ->
  UNet_bottleneck_training net = true ->
  B * (H / 16) * (W / 16) = 1 ->
  fst (UNet.forward x net)
  = Err (ValueError "Expected more than 1 value per channel when training")
  /\ DoubleConv_counters (UNet.inc (snd (UNet.forward x net)))
     = DoubleConv_bumped (UNet.inc net).
Proof.
  intros (Hinc & Hd1 & Hd2 & Hd3 & Hd4 & _) Hx HB HH HW Ht Hp.
  rewrite <- (div2_4 H), <- (div2_4 W) in Hp.
  assert (8 <= H / 2) by (apply div2_ge; lia).
  assert (4 <= H / 2 / 2) by (apply div2_ge; lia).
  assert (2 <= H / 2 / 2 / 2) by (apply div2_ge; lia).
  assert (8 <= W / 2) by (apply div2_ge; lia).
  assert (4 <= W / 2 / 2) by (apply div2_ge; lia).
  assert (2 <= W / 2 / 2 / 2) by (apply div2_ge; lia).
  edestruct DoubleConv_forward_ok with (x := x) as (x1 & s1 & E1 & S1);
    [exact Hinc | exact Hx | lia | lia | lia | lia
     | intros _; apply prod_ne1; lia |].
  edestruct Down_forward_ok with (x := x1) as (x2 & s2 & E2 & S2);
    [exact Hd1 | exact S1 | lia | lia | lia
     | intros _; apply prod_ne1; lia |].
  edestruct Down_forward_ok with (x := x2) as (x3 & s3 & E3 & S3);
    [exact Hd2 | exact S2 | lia | lia | lia
     | intros _; apply prod_ne1; lia |].
  edestruct Down_forward_ok with (x := x3) as (x4 & s4 & E4 & S4);
    [exact Hd3 | exact S3 | lia | lia | lia
     | intros _; apply prod_ne1; lia |].
  edestruct Down_forward_single_value with (x := x4) as (s5 & E5);
    [exact Hd4 | destruct bilinear; apply Z.leb_le; reflexivity | exact S4
     | lia | lia | exact Hp | exact Ht |].
  unfold UNet.forward.
  erewrite bind_ok by (eapply zoom_ok; exact E1).
  erewrite bind_ok by (eapply zoom_ok; exact E2).
  erewrite bind_ok by (eapply zoom_ok; exact E3).
  erewrite bind_ok by (eapply zoom_ok; exact E4).
  erewrite bind_err by (eapply zoom_ok; exact E5).
  split; [reflexivity |].
  cbn [snd UNet.inc UNet.set_inc UNet.set_down1 UNet.set_down2 UNet.set_down3
       UNet.set_down4].
  exact (DoubleConv_forward_counters _ _ _ _ E1).
Qed.

Lemma UNet_forward_single_value_raises_witness :
  exists net, fst (UNet.init 1 1 true 0%N) = Ok net
    /\ fst (UNet.forward (mkTensor [1; 1; 31; 17] (Leaf "x")) net)
       = Err (ValueError "Expected more than 1 value per channel when training")
    /\ DoubleConv_counters
         (UNet.inc (snd (UNet.forward (mkTensor [1; 1; 31; 17] (Leaf "x")) net)))
       = [1; 1].
Proof.
  eexists. split; [vm_compute; reflexivity |].
  match goal with
  | |- fst (UNet.forward ?a ?net) = _ /\ _ =>
      destruct (UNet_forward_single_value_raises net a 1 1 true 1 31 17)
        as [Hr Hc];
        [ repeat split; reflexivity | reflexivity | lia | lia | lia
        | reflexivity | reflexivity | split; [exact Hr | rewrite Hc; reflexivity] ]
  end.
Defined.

(** X10.  A forward pass that returns has advanced the batch counter of each of
    the eighteen normalisations exactly once where the layer is in
    training mode (wrapping at 64 bits) and left it alone where the layer
    is in evaluation mode. *)
Theorem UNet_forward_counts_batches net x y :
  fst (UNet.forward x net) = Ok y ->
  UNet_counters (snd (UNet.forward x net)) = UNet_bumped net
  /\ List.length (UNet_counters net) = 18%nat.
Proof.
  intros E. apply run_of_fst in E.
  split; [exact (UNet_forward_counters _ _ _ _ E) | reflexivity].
Qed.

(** Two passes over a 1 x 1 x 32 x 32 image leave every counter at 2. *)
Lemma UNet_forward_counts_batches_witness :
  exists net, fst (UNet.init 1 1 false 0%N) = Ok net
    /\ let x := mkTensor [1; 1; 32; 32] (Leaf "x") in
       UNet_counters (snd (UNet.forward x (snd (UNet.forward x net))))
       = repeat 2 18.
Proof.
  eexists. split; [vm_compute; reflexivity |].
  intros x.
  match goal with
  | |- UNet_counters (snd (UNet.forward x ?n1)) = _ =>
      assert (E : exists y, fst (UNet.forward x n1) = Ok y)
        by (eexists; vm_compute; reflexivity);
      destruct E as [y E];
      rewrite (proj1 (UNet_forward_counts_batches n1 x y E))
  end.
  vm_compute. reflexivity.
Defined.

(** X11.  On models laid out by the same positive [n_channels] and
    [n_classes] and the same [bilinear], and on the same input,
    [AvgPoolUNet.forward] and [UNet.forward] both return, and their
    results have the same shape (B, n_classes, H, W). *)
Theorem AvgPoolUNet_forward_same_shape u a x n_channels n_classes bilinear B H W :
  0 < n_channels -> 0 < n_classes ->
  UNet_has n_channels n_classes bilinear u ->
  AvgPoolUNet_has n_channels n_classes bilinear a ->
  size x = [B; n_channels; H; W] ->
  1 <= B -> 16 <= H -> 16 <= W ->
  (UNet_bottleneck_training u = true -> B * (H / 16) * (W / 16) <> 1) ->
  (DoubleConv.training (AvgDown.avgpool_conv_1 (AvgPoolUNet.down4 a)) = true ->
   B * (H / 16) * (W / 16) <> 1) ->
  exists yu ya,
    fst (UNet.forward x u) = Ok yu
    /\ fst (AvgPoolUNet.forward x a) = Ok ya
    /\ size ya = size yu
    /\ size ya = [B; n_classes; H; W].
Proof.
  intros _ Hcl Hu Ha Hx HB HH HW Htu Hta.
  destruct (UNet_forward_ok u x _ _ _ B H W Hu Hx ltac:(lia) HB HH HW Htu)
    as (yu & u' & Eu & Su).
  destruct (AvgPoolUNet_forward_ok a x _ _ _ B H W Ha Hx ltac:(lia) HB HH HW Hta)
    as (ya & a' & Ea & Sa).
  exists yu, ya. rewrite Eu, Ea, Su, Sa. repeat split; reflexivity.
Qed.

(** The layers of both constructors, on a 2 x 3 x 45 x 64 input. *)
Lemma AvgPoolUNet_forward_same_shape_witness :
  exists u a, fst (UNet.init 3 2 true 0%N) = Ok u
    /\ fst (AvgPoolUNet.init_layers 3 2 true 0%N) = Ok a
    /\ exists yu ya,
         fst (UNet.forward (mkTensor [2; 3; 45; 64] (Leaf "x")) u) = Ok yu
         /\ fst (AvgPoolUNet.forward (mkTensor [2; 3; 45; 64] (Leaf "x")) a) = Ok ya
         /\ size ya = size yu
         /\ size ya = [2; 2; 45; 64].
Proof.
  do 2 eexists. split; [vm_compute; reflexivity |].
  split; [vm_compute; reflexivity |].
  apply (AvgPoolUNet_forward_same_shape _ _ _ 3 2 true 2 45 64);
    [ lia | lia
    | repeat split; reflexivity | repeat split; reflexivity | reflexivity
    | lia | lia | lia | intros _; vm_compute; discriminate
    | intros _; vm_compute; discriminate ].
Defined.

(** ** Further properties of the constructors *)



(** X13.  For positive channel counts (at least two input channels for
    the transposed convolution),
    [Up(in_channels, out_channels, bilinear)] returns a block.
    With [bilinear] the up-sampling layer has no parameter and the middle
    width of the [DoubleConv] is [in_channels // 2] (or [out_channels]
    when that is 0); without it the transposed convolution halves the
    channels and brings two more parameters. *)
Theorem Up_init_layout in_channels out_channels bilinear k :
  0 < in_channels -> 0 < out_channels ->
  (bilinear = false -> 2 <= in_channels) ->
  exists u k',
    Up.init in_channels out_channels bilinear k = (Ok u, k')
    /\ k' = (k + (if bilinear then 2 else 4))%N
    /\ Up_has in_channels out_channels bilinear u
    /\ List.length (Up.parameters u) = (if bilinear then 6 else 8)%nat
    /\ match Up.up u with
       | Up.Upsample s ac => bilinear = true /\ s = 2 /\ ac = true
       | Up.ConvTranspose c =>
           bilinear = false
           /\ ConvTranspose2d.out_channels c = in_channels / 2
       end.
Proof.
  intros Hi Ho Hb.
  assert (Hh : 0 <= in_channels / 2) by (apply div2_ge; lia).
  unfold Up.init, Up_has, up_layer_has, Up_mid, DoubleConv.init, truthy.
  remember (in_channels / 2) as h eqn:Eh. clear Eh.
  destruct in_channels as [| ci | ci]; try lia.
  destruct out_channels as [| co | co]; try lia.
  destruct h as [| p | p]; try lia;
    destruct bilinear; cbn [Z.eqb negb];
    do 2 eexists; (split; [cbv -[N.succ]; reflexivity |]);
    (split; [lia |]); repeat split; reflexivity.
Qed.

(** One input channel with interpolation: the middle width falls back
    to the output width. *)
Lemma Up_init_layout_witness :
  exists u, fst (Up.init 1 4 true 0%N) = Ok u
    /\ DoubleConv_has 1 4 4 (Up.conv u)
    /\ List.length (Up.parameters u) = 6%nat.
Proof.
  destruct (Up_init_layout 1 4 true 0%N) as (u & k' & E & _ & [_ Hd] & Hp & _);
    [lia | lia | intros Hc; discriminate Hc |].
  exists u. rewrite E. split; [reflexivity | split; [exact Hd | exact Hp]].
Defined.



(** ** Degenerate channel counts *)

(** X15.  A layer built with no output channels raises when it is run:
    the first convolution of a [DoubleConv] or [Down] whose middle width
    is 0, the convolution of an [OutConv] with no output channels, and
    the transposed convolution of an [Up] block built for one input
    channel, whose output has [1 // 2 = 0] channels, each reject their
    empty weight with a [RuntimeError] and leave the layer as it was. *)
Theorem forward_zero_width_raises :
  (forall d x cin cout B H W,
     DoubleConv_has cin 0 cout d -> size x = [B; cin; H; W] ->
     DoubleConv.forward x d
     = (Err (RuntimeError "conv2d: expected weight to be at least 1 at dimension 0"),
        d))
  /\ (forall d x cin B H W,
        Down_has cin 0 d -> size x = [B; cin; H; W] -> 2 <= H -> 2 <= W ->
        Down.forward x d
        = (Err (RuntimeError "conv2d: expected weight to be at least 1 at dimension 0"),
           d))
  /\ (forall o x cin B H W,
        OutConv_has cin 0 o -> size x = [B; cin; H; W] ->
        OutConv.forward x o
        = (Err (RuntimeError "conv2d: expected weight to be at least 1 at dimension 0"),
           o))
  /\ (forall u x1 x2 cout B H W,
        Up_has 1 cout false u -> size x1 = [B; 1; H; W] ->
        Up.forward x1 x2 u = (Err (RuntimeError "conv_transpose2d: empty weight"), u)).
Proof.
  assert (HD : forall d x cin cout B H W,
             DoubleConv_has cin 0 cout d -> size x = [B; cin; H; W] ->
             DoubleConv.forward x d
             = (Err (RuntimeError
                       "conv2d: expected weight to be at least 1 at dimension 0"), d)).
  { intros d x cin cout B H W (H0 & _) Hx.
    destruct d as [c0 b1 c3 b4]. cbn [DoubleConv.double_conv_0] in H0.
    destruct c0 as [ci co ks pd wt bs]. unfold Conv2d_cfg in H0.
    cbn [Conv2d.in_channels Conv2d.out_channels Conv2d.kernel_size Conv2d.padding] in H0.
    injection H0 as -> -> -> ->.
    unfold DoubleConv.forward, bind at 1, zoom at 1, Conv2d.forward, conv2d.
    cbn [DoubleConv.double_conv_0 Conv2d.in_channels Conv2d.out_channels
         Conv2d.kernel_size Conv2d.padding Conv2d.weight Conv2d.bias fst snd].
    rewrite Hx. reflexivity. }
  split; [exact HD | split; [| split]].
  - intros d x cin B H W Hd Hx HH HW. unfold Down.forward, max_pool2d.
    rewrite (pool2d_4d _ _ _ _ _ _ Hx HH HW).
    erewrite bind_ok by apply lift_run.
    erewrite zoom_ok by (eapply HD; [exact Hd | reflexivity]).
    destruct d. reflexivity.
  - intros o x cin B H W Ho Hx. destruct o as [c].
    unfold OutConv_has in Ho. cbn [OutConv.out_conv_0] in Ho.
    destruct c as [ci co ks pd wt bs]. unfold Conv2d_cfg in Ho.
    cbn [Conv2d.in_channels Conv2d.out_channels Conv2d.kernel_size Conv2d.padding] in Ho.
    injection Ho as -> -> -> ->.
    unfold OutConv.forward, bind, zoom, Conv2d.forward, conv2d.
    cbn [OutConv.out_conv_0 Conv2d.in_channels Conv2d.out_channels
         Conv2d.kernel_size Conv2d.padding Conv2d.weight Conv2d.bias fst snd].
    rewrite Hx. reflexivity.
  - intros u x1 x2 cout B H W [Hul _] Hx. destruct u as [ul dc].
    cbn [Up.up] in Hul. destruct ul as [s ac | c]; cbn [up_layer_has] in Hul.
    + destruct Hul as [Hc _]. discriminate Hc.
    + destruct Hul as (_ & Ei & Eo & _ & _).
      unfold Up.forward, bind at 1, zoom at 1, Up.up_forward,
        ConvTranspose2d.forward, conv_transpose2d.
      cbn [Up.up Up.set_up Up.conv fst snd]. rewrite Hx, Ei, Eo. reflexivity.
Qed.

(** [Down(3, 0)] on a 2 x 3 x 4 x 4 input, [OutConv(64, 0)] on a
    1 x 64 x 5 x 7 input and [Up(1, 4, False)] on 2 x 2 and 5 x 5 maps. *)
Lemma forward_zero_width_raises_witness :
  exists d o u,
    fst (Down.init 3 0 0%N) = Ok d
    /\ fst (OutConv.init 64 0 0%N) = Ok o
    /\ fst (Up.init 1 4 false 0%N) = Ok u
    /\ fst (Down.forward (mkTensor [2; 3; 4; 4] (Leaf "x")) d)
       = Err (RuntimeError "conv2d: expected weight to be at least 1 at dimension 0")
    /\ fst (OutConv.forward (mkTensor [1; 64; 5; 7] (Leaf "x")) o)
       = Err (RuntimeError "conv2d: expected weight to be at least 1 at dimension 0")
    /\ fst (Up.forward (mkTensor [2; 1; 2; 2] (Leaf "x1"))
                       (mkTensor [2; 1; 5; 5] (Leaf "x2")) u)
       = Err (RuntimeError "conv_transpose2d: empty weight").
Proof.
  do 3 eexists. split; [vm_compute; reflexivity |].
  split; [vm_compute; reflexivity |]. split; [vm_compute; reflexivity |].
  destruct forward_zero_width_raises as (_ & HDown & HOut & HUp).
  split; [| split].
  - erewrite HDown; [reflexivity | repeat split; reflexivity | reflexivity | lia | lia].
  - erewrite HOut; [reflexivity | reflexivity | reflexivity].
  - erewrite HUp; [reflexivity | repeat split; reflexivity | reflexivity].
Defined.

(** X16.  [UNet(n_channels, n_classes, bilinear)] with a negative
    [n_channels] or [n_classes] raises [RuntimeError] while allocating
    the weight of a convolution: the first one of the stem, before any
    parameter is drawn, when [n_channels] is negative, and for a positive
    [n_channels] the one of [OutConv], after the nine blocks before it
    have been built. *)
Theorem UNet_init_negative_raises n_channels n_classes bilinear k :
  n_channels < 0 \/ n_classes < 0 ->
  exists k',
    UNet.init n_channels n_classes bilinear k
    = (Err (RuntimeError "Trying to create tensor with negative dimension"), k')
    /\ (n_channels < 0 -> k' = k)
    /\ (0 < n_channels -> k' = (k + (if bilinear then 18 else 26))%N).
Proof.
  intros Hneg.
  destruct n_channels as [| c | c], n_classes as [| n | n]; try lia;
    destruct bilinear; eexists;
    (split; [cbv -[N.succ]; reflexivity |]);
    (split; [intros Hc; (reflexivity || lia) | intros Hc; lia]).
Qed.

Lemma UNet_init_negative_raises_witness :
  UNet.init (-1) (-7) false 0%N
  = (Err (RuntimeError "Trying to create tensor with negative dimension"), 0%N).
Proof.
  destruct (UNet_init_negative_raises (-1) (-7) false 0%N) as (k' & E & Hk & _);
    [left; lia |].
  rewrite E, (Hk ltac:(lia)). reflexivity.
Defined.
